(** * Spendly dashboard: budget derivation and state synchronisation

    A shallow embedding of the budgeting logic of the dashboard script
    ([src/backend/dashboard.js] and its annotated later copy) and of the
    Firestore glue ([firebase-init.js]), followed by the properties the
    specification states about them.

    Conventions.
    - JavaScript numbers are modelled by [num]: an integer, [NaN] or a signed
      infinity.  Every number the scripts compute is produced by [parseInt],
      [Date.now], [Math.floor] or [Math.ceil] and sums of these, so it is
      integer valued; within the safe-integer range (|n| < 2^53) the IEEE
      operations used here coincide with exact integer arithmetic, which is
      what [Int] computes.  Negative zero is identified with zero.
    - Time is the number of milliseconds since the epoch, as [Date.now()]
      returns it.  The calendar functions read it in UTC.
    - Module-level variables of the scripts are the fields of [State]; each
      handler is a function from the form contents and the clock to a state
      transformer.  DOM rendering is left out except for the toast channel,
      which is the only way a handler reports anything to its caller. *)

From Stdlib Require Import ZArith Lia List Ascii String Bool Sorted.
From stdpp Require Import base tactics option list strings gmap pretty.

Local Open Scope Z_scope.

(** ** JavaScript numbers *)

Module JS.

Inductive num : Type :=
| Int (z : Z)
| NaN
| PInf
| NInf.

#[global] Instance num_eq_dec : EqDecision num.
Proof. solve_decision. Defined.

Definition is_int (n : num) : bool :=
  match n with Int _ => true | _ => false end.

(** ToBoolean on a number: [0] and [NaN] are falsy. *)
Definition truthy (n : num) : bool :=
  match n with
  | Int z => negb (z =? 0)
  | NaN => false
  | PInf | NInf => true
  end.

(** [a || b] on numbers. *)
Definition num_or (a b : num) : num := if truthy a then a else b.

Definition neg (a : num) : num :=
  match a with
  | Int z => Int (- z)
  | NaN => NaN
  | PInf => NInf
  | NInf => PInf
  end.

Definition add (a b : num) : num :=
  match a, b with
  | NaN, _ | _, NaN => NaN
  | Int x, Int y => Int (x + y)
  | PInf, NInf | NInf, PInf => NaN
  | PInf, _ | _, PInf => PInf
  | NInf, _ | _, NInf => NInf
  end.

Definition sub (a b : num) : num := add a (neg b).

(** Sign of a number other than [NaN]: -1, 0 or 1. *)
Definition sgn (a : num) : Z :=
  match a with
  | Int z => Z.sgn z
  | PInf => 1
  | NInf => -1
  | NaN => 0
  end.

Definition inf_of_sign (s : Z) : num :=
  if s =? 0 then NaN else if 0 <? s then PInf else NInf.

(** [Math.floor(a / b)].  For a non-zero integer divisor [Z.div] is the
    floor of the exact quotient. *)
Definition floor_div (a b : num) : num :=
  match a, b with
  | NaN, _ | _, NaN => NaN
  | Int x, Int y => if y =? 0 then inf_of_sign (Z.sgn x) else Int (x / y)
  | Int _, _ => Int 0
  | _, Int y => inf_of_sign (sgn a * (if y <? 0 then -1 else 1))
  | _, _ => NaN
  end.

(** [Math.ceil(a / b)]: the ceiling of the exact quotient is
    [- floor (- a / b)]. *)
Definition ceil_div (a b : num) : num := neg (floor_div (neg a) b).

(** [Math.max(0, a)]. *)
Definition max0 (a : num) : num :=
  match a with
  | Int z => Int (Z.max 0 z)
  | NaN => NaN
  | PInf => PInf
  | NInf => Int 0
  end.

(** [Math.abs(a)]. *)
Definition abs (a : num) : num :=
  match a with
  | Int z => Int (Z.abs z)
  | NaN => NaN
  | PInf | NInf => PInf
  end.

(** [a > b], [a >= b] and [a < b]; any comparison with [NaN] is false. *)
Definition ltb (a b : num) : bool :=
  match a, b with
  | NaN, _ | _, NaN => false
  | Int x, Int y => x <? y
  | NInf, NInf | PInf, _ => false
  | NInf, _ | _, PInf => true
  | _, NInf => false
  end.

Definition gtb (a b : num) : bool := ltb b a.

Definition geb (a b : num) : bool :=
  match a, b with
  | NaN, _ | _, NaN => false
  | _, _ => negb (ltb a b)
  end.

(** *** [parseInt] without a radix argument *)

Definition is_space (c : ascii) : bool :=
  let n := nat_of_ascii c in
  ((9 <=? n) && (n <=? 13))%nat || (n =? 32)%nat.

Fixpoint skip_space (s : string) : string :=
  match s with
  | String c s' => if is_space c then skip_space s' else s
  | EmptyString => s
  end.

Definition digit_of (radix : Z) (c : ascii) : option Z :=
  let n := Z.of_nat (nat_of_ascii c) in
  let d :=
    if (48 <=? n) && (n <=? 57) then Some (n - 48)
    else if (97 <=? n) && (n <=? 122) then Some (n - 87)
    else if (65 <=? n) && (n <=? 90) then Some (n - 55)
    else None in
  match d with
  | Some v => if v <? radix then Some v else None
  | None => None
  end.

(** The value of the longest prefix of [s] made of digits, if it is not
    empty. *)
Fixpoint digits (radix : Z) (s : string) (acc : option Z) : option Z :=
  match s with
  | String c s' =>
      match digit_of radix c with
      | Some d => digits radix s' (Some (radix * default 0 acc + d))
      | None => acc
      end
  | EmptyString => acc
  end.

Definition strip_sign (s : string) : bool * string :=
  match s with
  | String "-" s' => (true, s')
  | String "+" s' => (false, s')
  | _ => (false, s)
  end.

Definition strip_hex (s : string) : Z * string :=
  match s with
  | String "0" (String "x" s') | String "0" (String "X" s') => (16, s')
  | _ => (10, s)
  end.

Definition parseInt (s : string) : num :=
  let '(negative, s1) := strip_sign (skip_space s) in
  let '(radix, s2) := strip_hex s1 in
  match digits radix s2 None with
  | Some n => Int (if negative then - n else n)
  | None => NaN
  end.

(** ToBoolean on a string: only the empty string is falsy. *)
Definition nonempty (s : string) : bool :=
  match s with EmptyString => false | _ => true end.

(** [a || b] on strings. *)
Definition sor (a b : string) : string := if nonempty a then a else b.

(** [s.trim()], on the left and on the right. *)
Fixpoint trim_right (s : string) : string :=
  match s with
  | String c s' =>
      match trim_right s' with
      | EmptyString => if is_space c then EmptyString else String c EmptyString
      | t => String c t
      end
  | EmptyString => EmptyString
  end.

Definition trim (s : string) : string := trim_right (skip_space s).

End JS.

Import JS.

(** ** The [Date] object *)

Module Date.

Definition msPerDay : Z := 1000 * 60 * 60 * 24.

Definition is_leap (y : Z) : bool :=
  ((y mod 4 =? 0) && negb (y mod 100 =? 0)) || (y mod 400 =? 0).

(** [new Date(year, month + 1, 0).getDate()] for a month index in 0..11:
    the number of days of that month. *)
Definition daysInMonth (year month : Z) : Z :=
  if month =? 1 then (if is_leap year then 29 else 28)
  else if (month =? 3) || (month =? 5) || (month =? 8) || (month =? 10) then 30
  else 31.

(** Calendar date of a day count since 1970-01-01 (proleptic Gregorian):
    year, month index 0..11, day of month 1..31. *)
Definition civil_of_days (n : Z) : Z * Z * Z :=
  let z := n + 719468 in
  let era := z / 146097 in
  let doe := z - era * 146097 in
  let yoe := (doe - doe / 1460 + doe / 36524 - doe / 146096) / 365 in
  let doy := doe - (365 * yoe + yoe / 4 - yoe / 100) in
  let mp := (5 * doy + 2) / 153 in
  let d := doy - (153 * mp + 2) / 5 + 1 in
  let m := if mp <? 10 then mp + 3 else mp - 9 in
  let y := yoe + era * 400 + (if m <=? 2 then 1 else 0) in
  (y, m - 1, d).

(** Day count of a calendar date; [m] is the month number 1..12. *)
Definition days_of_civil (y m d : Z) : Z :=
  let y := if m <=? 2 then y - 1 else y in
  let era := y / 400 in
  let yoe := y - era * 400 in
  let doy := (153 * (if 2 <? m then m - 3 else m + 9) + 2) / 5 + d - 1 in
  let doe := yoe * 365 + yoe / 4 - yoe / 100 + doy in
  era * 146097 + doe - 719468.

Definition getFullYear (t : Z) : Z := (civil_of_days (t / msPerDay)).1.1.
Definition getMonth (t : Z) : Z := (civil_of_days (t / msPerDay)).1.2.
Definition getDate (t : Z) : Z := (civil_of_days (t / msPerDay)).2.

(** [new Date(s).getTime()] for the value of a date input, "YYYY-MM-DD":
    midnight UTC of that day; [NaN] (Invalid Date) for anything else. *)
Definition all_digits (s : string) : bool :=
  forallb (fun c => bool_decide (is_Some (digit_of 10 c))) (list_ascii_of_string s).

Definition field (s : string) (from len : nat) : option Z :=
  let f := String.substring from len s in
  if all_digits f && (String.length f =? len)%nat then digits 10 f None else None.

Definition parse (s : string) : num :=
  match field s 0 4, field s 5 2, field s 8 2 with
  | Some y, Some m, Some d =>
      if (String.length s =? 10)%nat
         && bool_decide (String.get 4 s = Some "-"%char)
         && bool_decide (String.get 7 s = Some "-"%char)
         && (1 <=? m) && (m <=? 12) && (1 <=? d) && (d <=? daysInMonth y (m - 1))
      then Int (days_of_civil y m d * msPerDay)
      else NaN
  | _, _, _ => NaN
  end.

End Date.

(** ** Data model *)

(** The repository keeps the dashboard script in three copies: an early one
    without persistence, the one in [src/backend/dashboard.js] ("Version 2"
    in its header) and a later, annotated copy.  The last two are modelled.
    Their handlers are the same; they differ in [saveState], in the
    hydration listener, in [recalculateDashboard] and in [renderHeatmap].
    Functions that differ take the revision; [renderHeatmap] is modelled as
    [dashboard.js] and the early copy have it. *)
Inductive revision : Type :=
| Rev2   (* src/backend/dashboard.js *)
| Rev3.  (* the annotated copy *)

Record Transaction := mkTransaction {
  tx_date : string;
  tx_timestamp : num;
  tx_merchant : string;
  tx_category : string;
  tx_amount : num;
  tx_icon : string;
  tx_color : string;
  tx_bg : string;
  tx_sentiment : string }.

Record FixedExpense := mkFixedExpense {
  fe_name : string;
  fe_amount : num }.

Record Goal := mkGoal {
  g_id : Z;
  g_name : string;
  g_amount : num;
  g_deadline : string;
  g_daily : num;
  g_daysLeft : num }.

Record Loan := mkLoan {
  l_id : Z;
  l_type : string;
  l_person : string;
  l_amount : num;
  l_duration : num;
  l_daily : num }.

Record Member := mkMember {
  m_name : string;
  m_phone : string;
  m_email : string }.

(** The shapes of message objects in the scripts: the three the handlers
    push and the system message of [createNewGroup], whose text is a
    template over the group name and the number of members, which is what
    [SystemMsg] keeps.  The [userId] of a chat message is [None] when the
    property holds [undefined]. *)
Inductive Message : Type :=
| TextMsg (text author : string) (isMe : bool) (timestamp : Z)
| SplitMsg (item amount author : string) (timestamp : Z) (isMe : bool)
| SystemMsg (groupName : string) (memberCount : nat) (timestamp : Z)
| ChatMsg (text : string) (userId : option string) (author : string)
    (timestamp : Z) (isMe : bool).

(** [userProfile]; a missing property is the empty string (both are
    falsy, and the script only ever reads these through [||]). *)
Record Profile := mkProfile {
  p_name : string;
  p_phone : string;
  p_avatar : string;
  p_tempAvatar : string }.

(** A document of the [users] collection.  A field that is absent from the
    document is [None]. *)
Record Doc := mkDoc {
  d_name : option string;
  d_displayName : option string;
  d_phone : option string;
  d_email : option string;
  d_avatar : option string;
  d_photoURL : option string;
  d_transactions : option (list Transaction);
  d_fixedExpenses : option (list FixedExpense);
  d_goals : option (list Goal);
  d_activeGoals : option (list Goal);
  d_loans : option (list Loan);
  d_activeLoans : option (list Loan);
  d_chatGroups : option (gmap string (list Message));
  d_groupMembers : option (gmap string (list Member));
  d_monthlyLimit : option num;
  d_createdAt : option Z }.

Definition emptyDoc : Doc :=
  mkDoc None None None None None None None None None None None None None None
        None None.

(** What [window.showToast] was called with. *)
Inductive Toast : Type :=
| ToastText (s : string)
| ToastSpent (amount : num) (merchant : string)
| ToastRequestSent (members : nat).

(** The module-level variables of [firebase-init.js] (the Firestore
    collection, [window._uid], [window.userData], pending retry timers) and
    of the dashboard script.

    A retry timer holds the argument [syncUserData] was called with:
    nothing in [dashboard.js], the object [window.userData] in the annotated
    copy.  Timers are armed only while no user is signed in, and signing in
    replaces [window.userData] by a new object, so the object the timers
    hold is [window.userData] itself until then and a stale one afterwards;
    [staleData] is its content after sign-in.

    In the script the arrays and maps hydrated from [window.userData] are
    shared with it, so an in-place update of a variable shows through the
    object at once.  [userData] here holds the collections as of the last
    hydration or [saveState]; [saveState] assigns every collection again
    before anything is written, so the documents that reach Firestore are
    the same either way. *)
Record State := mkState {
  users : gmap string Doc;
  uid : option string;
  userData : Doc;
  staleData : Doc;
  retries : nat;
  userProfile : Profile;
  transactions : list Transaction;
  fixedExpenses : list FixedExpense;
  activeGoals : list Goal;
  activeLoans : list Loan;
  chatStore : gmap string (list Message);
  groupMembers : gmap string (list Member);
  monthlyLimit : num;
  dailySpent : num;
  currentFilter : string;
  currentChatId : string;
  tempMembers : list Member;
  toasts : list Toast }.

Definition set_users (v : gmap string Doc) (s : State) : State :=
  {| users := v; uid := uid s; userData := userData s; staleData := staleData s; retries := retries s;
     userProfile := userProfile s; transactions := transactions s;
     fixedExpenses := fixedExpenses s; activeGoals := activeGoals s;
     activeLoans := activeLoans s; chatStore := chatStore s;
     groupMembers := groupMembers s; monthlyLimit := monthlyLimit s;
     dailySpent := dailySpent s; currentFilter := currentFilter s;
     currentChatId := currentChatId s; tempMembers := tempMembers s;
     toasts := toasts s |}.

Definition set_uid (v : option string) (s : State) : State :=
  {| users := users s; uid := v; userData := userData s; staleData := staleData s;
     retries := retries s; userProfile := userProfile s;
     transactions := transactions s; fixedExpenses := fixedExpenses s;
     activeGoals := activeGoals s; activeLoans := activeLoans s;
     chatStore := chatStore s; groupMembers := groupMembers s;
     monthlyLimit := monthlyLimit s; dailySpent := dailySpent s;
     currentFilter := currentFilter s; currentChatId := currentChatId s;
     tempMembers := tempMembers s; toasts := toasts s |}.

Definition set_userData (v : Doc) (s : State) : State :=
  {| users := users s; uid := uid s; userData := v; staleData := staleData s; retries := retries s;
     userProfile := userProfile s; transactions := transactions s;
     fixedExpenses := fixedExpenses s; activeGoals := activeGoals s;
     activeLoans := activeLoans s; chatStore := chatStore s;
     groupMembers := groupMembers s; monthlyLimit := monthlyLimit s;
     dailySpent := dailySpent s; currentFilter := currentFilter s;
     currentChatId := currentChatId s; tempMembers := tempMembers s;
     toasts := toasts s |}.

Definition set_staleData (v : Doc) (s : State) : State :=
  {| users := users s; uid := uid s; userData := userData s; staleData := v;
     retries := retries s;
     userProfile := userProfile s; transactions := transactions s;
     fixedExpenses := fixedExpenses s; activeGoals := activeGoals s;
     activeLoans := activeLoans s; chatStore := chatStore s;
     groupMembers := groupMembers s; monthlyLimit := monthlyLimit s;
     dailySpent := dailySpent s; currentFilter := currentFilter s;
     currentChatId := currentChatId s; tempMembers := tempMembers s;
     toasts := toasts s |}.

Definition set_retries (v : nat) (s : State) : State :=
  {| users := users s; uid := uid s; userData := userData s; staleData := staleData s; retries := v;
     userProfile := userProfile s; transactions := transactions s;
     fixedExpenses := fixedExpenses s; activeGoals := activeGoals s;
     activeLoans := activeLoans s; chatStore := chatStore s;
     groupMembers := groupMembers s; monthlyLimit := monthlyLimit s;
     dailySpent := dailySpent s; currentFilter := currentFilter s;
     currentChatId := currentChatId s; tempMembers := tempMembers s;
     toasts := toasts s |}.

Definition set_userProfile (v : Profile) (s : State) : State :=
  {| users := users s; uid := uid s; userData := userData s; staleData := staleData s;
     retries := retries s; userProfile := v; transactions := transactions s;
     fixedExpenses := fixedExpenses s; activeGoals := activeGoals s;
     activeLoans := activeLoans s; chatStore := chatStore s;
     groupMembers := groupMembers s; monthlyLimit := monthlyLimit s;
     dailySpent := dailySpent s; currentFilter := currentFilter s;
     currentChatId := currentChatId s; tempMembers := tempMembers s;
     toasts := toasts s |}.

Definition set_transactions (v : list Transaction) (s : State) : State :=
  {| users := users s; uid := uid s; userData := userData s; staleData := staleData s;
     retries := retries s; userProfile := userProfile s; transactions := v;
     fixedExpenses := fixedExpenses s; activeGoals := activeGoals s;
     activeLoans := activeLoans s; chatStore := chatStore s;
     groupMembers := groupMembers s; monthlyLimit := monthlyLimit s;
     dailySpent := dailySpent s; currentFilter := currentFilter s;
     currentChatId := currentChatId s; tempMembers := tempMembers s;
     toasts := toasts s |}.

Definition set_fixedExpenses (v : list FixedExpense) (s : State) : State :=
  {| users := users s; uid := uid s; userData := userData s; staleData := staleData s;
     retries := retries s; userProfile := userProfile s;
     transactions := transactions s; fixedExpenses := v;
     activeGoals := activeGoals s; activeLoans := activeLoans s;
     chatStore := chatStore s; groupMembers := groupMembers s;
     monthlyLimit := monthlyLimit s; dailySpent := dailySpent s;
     currentFilter := currentFilter s; currentChatId := currentChatId s;
     tempMembers := tempMembers s; toasts := toasts s |}.

Definition set_activeGoals (v : list Goal) (s : State) : State :=
  {| users := users s; uid := uid s; userData := userData s; staleData := staleData s;
     retries := retries s; userProfile := userProfile s;
     transactions := transactions s; fixedExpenses := fixedExpenses s;
     activeGoals := v; activeLoans := activeLoans s;
     chatStore := chatStore s; groupMembers := groupMembers s;
     monthlyLimit := monthlyLimit s; dailySpent := dailySpent s;
     currentFilter := currentFilter s; currentChatId := currentChatId s;
     tempMembers := tempMembers s; toasts := toasts s |}.

Definition set_activeLoans (v : list Loan) (s : State) : State :=
  {| users := users s; uid := uid s; userData := userData s; staleData := staleData s;
     retries := retries s; userProfile := userProfile s;
     transactions := transactions s; fixedExpenses := fixedExpenses s;
     activeGoals := activeGoals s; activeLoans := v;
     chatStore := chatStore s; groupMembers := groupMembers s;
     monthlyLimit := monthlyLimit s; dailySpent := dailySpent s;
     currentFilter := currentFilter s; currentChatId := currentChatId s;
     tempMembers := tempMembers s; toasts := toasts s |}.

Definition set_chatStore (v : gmap string (list Message)) (s : State) : State :=
  {| users := users s; uid := uid s; userData := userData s; staleData := staleData s;
     retries := retries s; userProfile := userProfile s;
     transactions := transactions s; fixedExpenses := fixedExpenses s;
     activeGoals := activeGoals s; activeLoans := activeLoans s;
     chatStore := v; groupMembers := groupMembers s;
     monthlyLimit := monthlyLimit s; dailySpent := dailySpent s;
     currentFilter := currentFilter s; currentChatId := currentChatId s;
     tempMembers := tempMembers s; toasts := toasts s |}.

Definition set_groupMembers (v : gmap string (list Member)) (s : State) : State :=
  {| users := users s; uid := uid s; userData := userData s; staleData := staleData s;
     retries := retries s; userProfile := userProfile s;
     transactions := transactions s; fixedExpenses := fixedExpenses s;
     activeGoals := activeGoals s; activeLoans := activeLoans s;
     chatStore := chatStore s; groupMembers := v;
     monthlyLimit := monthlyLimit s; dailySpent := dailySpent s;
     currentFilter := currentFilter s; currentChatId := currentChatId s;
     tempMembers := tempMembers s; toasts := toasts s |}.

Definition set_monthlyLimit (v : num) (s : State) : State :=
  {| users := users s; uid := uid s; userData := userData s; staleData := staleData s;
     retries := retries s; userProfile := userProfile s;
     transactions := transactions s; fixedExpenses := fixedExpenses s;
     activeGoals := activeGoals s; activeLoans := activeLoans s;
     chatStore := chatStore s; groupMembers := groupMembers s;
     monthlyLimit := v; dailySpent := dailySpent s;
     currentFilter := currentFilter s; currentChatId := currentChatId s;
     tempMembers := tempMembers s; toasts := toasts s |}.

Definition set_dailySpent (v : num) (s : State) : State :=
  {| users := users s; uid := uid s; userData := userData s; staleData := staleData s;
     retries := retries s; userProfile := userProfile s;
     transactions := transactions s; fixedExpenses := fixedExpenses s;
     activeGoals := activeGoals s; activeLoans := activeLoans s;
     chatStore := chatStore s; groupMembers := groupMembers s;
     monthlyLimit := monthlyLimit s; dailySpent := v;
     currentFilter := currentFilter s; currentChatId := currentChatId s;
     tempMembers := tempMembers s; toasts := toasts s |}.

Definition set_currentFilter (v : string) (s : State) : State :=
  {| users := users s; uid := uid s; userData := userData s; staleData := staleData s;
     retries := retries s; userProfile := userProfile s;
     transactions := transactions s; fixedExpenses := fixedExpenses s;
     activeGoals := activeGoals s; activeLoans := activeLoans s;
     chatStore := chatStore s; groupMembers := groupMembers s;
     monthlyLimit := monthlyLimit s; dailySpent := dailySpent s;
     currentFilter := v; currentChatId := currentChatId s;
     tempMembers := tempMembers s; toasts := toasts s |}.

Definition set_currentChatId (v : string) (s : State) : State :=
  {| users := users s; uid := uid s; userData := userData s; staleData := staleData s;
     retries := retries s; userProfile := userProfile s;
     transactions := transactions s; fixedExpenses := fixedExpenses s;
     activeGoals := activeGoals s; activeLoans := activeLoans s;
     chatStore := chatStore s; groupMembers := groupMembers s;
     monthlyLimit := monthlyLimit s; dailySpent := dailySpent s;
     currentFilter := currentFilter s; currentChatId := v;
     tempMembers := tempMembers s; toasts := toasts s |}.

Definition set_tempMembers (v : list Member) (s : State) : State :=
  {| users := users s; uid := uid s; userData := userData s; staleData := staleData s;
     retries := retries s; userProfile := userProfile s;
     transactions := transactions s; fixedExpenses := fixedExpenses s;
     activeGoals := activeGoals s; activeLoans := activeLoans s;
     chatStore := chatStore s; groupMembers := groupMembers s;
     monthlyLimit := monthlyLimit s; dailySpent := dailySpent s;
     currentFilter := currentFilter s; currentChatId := currentChatId s;
     tempMembers := v; toasts := toasts s |}.

Definition set_toasts (v : list Toast) (s : State) : State :=
  {| users := users s; uid := uid s; userData := userData s; staleData := staleData s;
     retries := retries s; userProfile := userProfile s;
     transactions := transactions s; fixedExpenses := fixedExpenses s;
     activeGoals := activeGoals s; activeLoans := activeLoans s;
     chatStore := chatStore s; groupMembers := groupMembers s;
     monthlyLimit := monthlyLimit s; dailySpent := dailySpent s;
     currentFilter := currentFilter s; currentChatId := currentChatId s;
     tempMembers := tempMembers s; toasts := v |}.

Definition showToast (t : Toast) (s : State) : State :=
  set_toasts (toasts s ++ [t]) s.

(** The variables as their declarations initialise them when the page
    loads, over the Firestore collection [db]. *)
Definition initialState (r : revision) (db : gmap string Doc) : State :=
  {| users := db; uid := None; userData := emptyDoc; staleData := emptyDoc;
     retries := 0%nat;
     userProfile := mkProfile "" "" "" "";
     transactions := []; fixedExpenses := []; activeGoals := [];
     activeLoans := []; chatStore := ∅; groupMembers := ∅;
     monthlyLimit := match r with Rev2 => Int 30000 | Rev3 => Int 0 end;
     dailySpent := Int 0; currentFilter := "month";
     currentChatId := "Roommates"; tempMembers := []; toasts := [] |}.

(** ** firebase-init.js *)

Definition default_avatar : string :=
  "https://api.dicebear.com/7.x/avataaars/svg?seed=default".

(** The default document of [loadUserDoc]. *)
Definition newUser (now : Z) : Doc :=
  {| d_name := Some "User"%string; d_displayName := None;
     d_phone := Some ""%string; d_email := Some ""%string;
     d_avatar := Some default_avatar; d_photoURL := None;
     d_transactions := Some []; d_fixedExpenses := Some [];
     d_goals := Some []; d_activeGoals := None;
     d_loans := Some []; d_activeLoans := None;
     d_chatGroups := Some ∅; d_groupMembers := Some ∅;
     d_monthlyLimit := Some (Int 0); d_createdAt := Some now |}.

(** [loadUserDoc(uid)]: the stored document, or for a first-time user the
    default document, written with [setDoc(ref, newUser)] (no merge). *)
Definition loadUserDoc (u : string) (now : Z) (s : State) : Doc * State :=
  match users s !! u with
  | None => (newUser now, set_users (<[u := newUser now]> (users s)) s)
  | Some d => (d, s)
  end.

(** [setDoc(ref, data, { merge: true })]: a field of [data] replaces the
    stored one, a field that [data] lacks is kept.  Map-valued fields are
    merged key by key unless the new map is empty. *)
Definition merge_field {A} (new old : option A) : option A :=
  match new with Some _ => new | None => old end.

Definition merge_map {A} (new old : option (gmap string A))
  : option (gmap string A) :=
  match new, old with
  | Some n, Some o => Some (if decide (size n = 0%nat) then n else n ∪ o)
  | Some n, None => Some n
  | None, _ => old
  end.

Definition setDoc_merge (data old : Doc) : Doc :=
  {| d_name := merge_field (d_name data) (d_name old);
     d_displayName := merge_field (d_displayName data) (d_displayName old);
     d_phone := merge_field (d_phone data) (d_phone old);
     d_email := merge_field (d_email data) (d_email old);
     d_avatar := merge_field (d_avatar data) (d_avatar old);
     d_photoURL := merge_field (d_photoURL data) (d_photoURL old);
     d_transactions := merge_field (d_transactions data) (d_transactions old);
     d_fixedExpenses :=
       merge_field (d_fixedExpenses data) (d_fixedExpenses old);
     d_goals := merge_field (d_goals data) (d_goals old);
     d_activeGoals := merge_field (d_activeGoals data) (d_activeGoals old);
     d_loans := merge_field (d_loans data) (d_loans old);
     d_activeLoans := merge_field (d_activeLoans data) (d_activeLoans old);
     d_chatGroups := merge_map (d_chatGroups data) (d_chatGroups old);
     d_groupMembers := merge_map (d_groupMembers data) (d_groupMembers old);
     d_monthlyLimit := merge_field (d_monthlyLimit data) (d_monthlyLimit old);
     d_createdAt := merge_field (d_createdAt data) (d_createdAt old) |}.

(** Firestore is initialised with its default settings, under which
    [setDoc] throws on data that holds [undefined] anywhere, before anything
    is written.  The objects the scripts build hold [undefined] in one place
    only, the [userId] of a chat message. *)
Definition definedMsg (m : Message) : bool :=
  match m with
  | ChatMsg _ None _ _ _ => false
  | _ => true
  end.

Definition storableChats (m : gmap string (list Message)) : bool :=
  bool_decide (map_Forall (fun _ msgs => forallb definedMsg msgs = true) m).

Definition storable (d : Doc) : bool :=
  storableChats (default ∅ (d_chatGroups d)).

(** [window.syncUserData(data)].  Without a user id the call only arms a
    300ms timer that will call it again; otherwise [data], or
    [window.userData] when no argument was passed, is merged into the
    user's document, unless [setDoc] refuses it: then the call throws and
    nothing is written ([saveState] catches and logs the error). *)
Definition syncUserData (data : option Doc) (s : State) : State :=
  match uid s with
  | None => set_retries (S (retries s)) s
  | Some u =>
      let dataToSave := default (userData s) data in
      if storable dataToSave
      then
        set_users
          (<[u := setDoc_merge dataToSave (default emptyDoc (users s !! u))]>
             (users s)) s
      else s
  end.

(** A retry timer fires: [syncUserData] is called again with the argument
    the timer holds. *)
Definition retryFires (r : revision) (s : State) : State :=
  match retries s with
  | O => s
  | S n =>
      let data :=
        match r with
        | Rev2 => None
        | Rev3 =>
            Some (match uid s with
                  | None => userData s
                  | Some _ => staleData s
                  end)
        end in
      syncUserData data (set_retries n s)
  end.

(** ** The dashboard script *)

(** A string field of a document, read through [||]: an absent field
    is as falsy as an empty one. *)
Definition str (o : option string) : string := default ""%string o.

(** [saveState()]: copy the variables into [window.userData], then sync.
    Only the later revision copies [monthlyLimit] and passes the document
    to [syncUserData]. *)
Definition saveState (r : revision) (s : State) : State :=
  let ud := userData s in
  let ud' :=
    {| d_name := Some (sor (p_name (userProfile s)) (sor (str (d_name ud)) "User"));
       d_displayName := d_displayName ud;
       d_phone := Some (sor (p_phone (userProfile s)) (sor (str (d_phone ud)) ""));
       d_email := d_email ud;
       d_avatar := Some (sor (p_avatar (userProfile s)) (sor (str (d_avatar ud)) ""));
       d_photoURL := d_photoURL ud;
       d_transactions := Some (transactions s);
       d_fixedExpenses := Some (fixedExpenses s);
       d_goals := Some (activeGoals s);
       d_activeGoals := d_activeGoals ud;
       d_loans := Some (activeLoans s);
       d_activeLoans := d_activeLoans ud;
       d_chatGroups := Some (chatStore s);
       d_groupMembers := Some (groupMembers s);
       d_monthlyLimit :=
         match r with
         | Rev2 => d_monthlyLimit ud
         | Rev3 => Some (monthlyLimit s)
         end;
       d_createdAt := d_createdAt ud |} in
  let s := set_userData ud' s in
  syncUserData (match r with Rev2 => None | Rev3 => Some ud' end) s.

(** The two statements that make sure the default group exists. *)
Definition ensureRoommates (s : State) : State :=
  let s :=
    match chatStore s !! "Roommates" with
    | Some _ => s
    | None => set_chatStore (<["Roommates" := []]> (chatStore s)) s
    end in
  match groupMembers s !! "Roommates" with
  | Some _ => s
  | None => set_groupMembers (<["Roommates" := []]> (groupMembers s)) s
  end.

(** [initApp()], rendering left out. *)
Definition initApp (s : State) : State := ensureRoommates s.

(** The listener of the "firestore-ready" event.  An array or an object is
    truthy even when empty, so [a || b] on them takes [a] whenever the field
    is present. *)
Definition firestoreReady (r : revision) (s : State) : State :=
  let ud := userData s in
  let s :=
    set_userProfile
      {| p_name := sor (str (d_name ud)) (sor (str (d_displayName ud)) "User");
         p_phone := sor (str (d_phone ud)) "";
         p_avatar :=
           sor (str (d_avatar ud)) (sor (str (d_photoURL ud)) default_avatar);
         p_tempAvatar := "" |} s in
  let s := set_transactions (default [] (d_transactions ud)) s in
  let s := set_fixedExpenses (default [] (d_fixedExpenses ud)) s in
  let s :=
    set_activeGoals
      (match d_goals ud with
       | Some g => g
       | None => default [] (d_activeGoals ud)
       end) s in
  let s :=
    set_activeLoans
      (match d_loans ud with
       | Some l => l
       | None => default [] (d_activeLoans ud)
       end) s in
  let s := set_chatStore (default ∅ (d_chatGroups ud)) s in
  let s := set_groupMembers (default ∅ (d_groupMembers ud)) s in
  let s :=
    match r with
    | Rev2 => s
    | Rev3 => set_monthlyLimit (default (Int 0) (d_monthlyLimit ud)) s
    end in
  initApp (ensureRoommates s).

(** The logged-in branch of the [onAuthStateChanged] listener. *)
Definition onAuthStateChanged (r : revision) (u : string) (now : Z)
    (s : State) : State :=
  let s := set_uid (Some u) s in
  let '(data, s) := loadUserDoc u now s in
  let s := set_staleData (userData s) s in
  let s := set_userData data s in
  firestoreReady r s.

(** A page load followed by sign-in: what a session starts from. *)
Definition sessionStart (r : revision) (db : gmap string Doc) (u : string)
    (now : Z) : State :=
  onAuthStateChanged r u now (initialState r db).

(** *** Handlers

    Each takes the contents of the form fields it reads and, where it calls
    [Date.now()] or [new Date()], the clock. *)

Definition saveProfile (r : revision) (name phone : string) (s : State)
  : State :=
  let p := userProfile s in
  let p := if nonempty name
           then mkProfile name (p_phone p) (p_avatar p) (p_tempAvatar p)
           else p in
  let p := if nonempty phone
           then mkProfile (p_name p) phone (p_avatar p) (p_tempAvatar p)
           else p in
  let p := if nonempty (p_tempAvatar p)
           then mkProfile (p_name p) (p_phone p) (p_tempAvatar p) ""
           else p in
  saveState r (showToast (ToastText "Profile Updated!") (set_userProfile p s)).

Definition randomizeAvatar (seed : string) (s : State) : State :=
  let p := userProfile s in
  set_userProfile
    (mkProfile (p_name p) (p_phone p) (p_avatar p)
       (String.append "https://api.dicebear.com/7.x/avataaars/svg?seed=" seed))
    s.

Definition saveGoal (r : revision) (name amount date : string) (now : Z)
    (s : State) : State :=
  if negb (nonempty name) || negb (nonempty amount) || negb (nonempty date)
  then showToast (ToastText "Please fill all details") s
  else
    let targetDate := Date.parse date in
    let today := Int now in
    let diffTime := JS.abs (JS.sub targetDate today) in
    let diffDays := num_or (ceil_div diffTime (Int Date.msPerDay)) (Int 1) in
    let daily := ceil_div (parseInt amount) diffDays in
    let goal :=
      {| g_id := now; g_name := name; g_amount := parseInt amount;
         g_deadline := date; g_daily := daily; g_daysLeft := diffDays |} in
    let s := set_activeGoals (activeGoals s ++ [goal]) s in
    saveState r (showToast (ToastText "Goal Set! Budget Adjusted.") s).

Definition removeGoal (r : revision) (id : Z) (s : State) : State :=
  let s :=
    set_activeGoals
      (List.filter (fun g => negb (g_id g =? id)) (activeGoals s)) s in
  saveState r (showToast (ToastText "Goal removed") s).

Definition handleAddMember (name phone email : string) (s : State) : State :=
  if nonempty name && nonempty phone
  then set_tempMembers (tempMembers s ++ [mkMember name phone email]) s
  else showToast (ToastText "Name and Phone required") s.

Definition switchGroup (chatId : string) (s : State) : State :=
  set_currentChatId chatId s.

(** [if (!chatStore[id]) chatStore[id] = []; chatStore[id].push(msg)] for
    the current chat. *)
Definition pushMessage (msg : Message) (s : State) : State :=
  let id := currentChatId s in
  set_chatStore
    (<[id := default [] (chatStore s !! id) ++ [msg]]> (chatStore s)) s.

Definition sendSquadChat (r : revision) (input : string) (now : Z)
    (s : State) : State :=
  let text := trim input in
  if negb (nonempty text) then s
  else saveState r (pushMessage (TextMsg text "You" true now) s).

Definition submitSplit (r : revision) (item amount : string) (now : Z)
    (s : State) : State :=
  let s := pushMessage (SplitMsg item amount "You" now true) s in
  let members := default [] (groupMembers s !! currentChatId s) in
  let s :=
    if (0 <? length members)%nat
    then showToast (ToastRequestSent (length members)) s
    else showToast (ToastText "Split Request Posted!") s in
  saveState r s.

Definition saveTransaction (r : revision)
    (name amt category sentiment : string) (now : Z) (s : State) : State :=
  let merchant := name in
  let amount := parseInt amt in
  if negb (nonempty merchant) || negb (truthy amount)
  then showToast (ToastText "Please enter valid expense details") s
  else
    let s := set_dailySpent (JS.add (dailySpent s) amount) s in
    let newTx :=
      {| tx_date := "Today, Just now";
         tx_timestamp := Int now;
         tx_merchant := merchant;
         tx_category := category;
         tx_amount := amount;
         tx_icon :=
           if String.eqb category "Food" then "ph-hamburger"
           else if String.eqb category "Transport" then "ph-taxi"
           else "ph-shopping-bag";
         tx_color := "text-brand-light";
         tx_bg := "bg-brand-DEFAULT/20";
         tx_sentiment := sentiment |} in
    let s := set_transactions (newTx :: transactions s) s in
    saveState r (showToast (ToastSpent amount merchant) s).

Definition applyDateFilter (period : string) (s : State) : State :=
  set_currentFilter period s.

Definition addFixedExpense (r : revision) (name amt : string) (s : State)
  : State :=
  let amount := parseInt amt in
  if nonempty name && gtb amount (Int 0)
  then saveState r
         (set_fixedExpenses (fixedExpenses s ++ [mkFixedExpense name amount]) s)
  else s.

(** [l.splice(start, 1)] for an integer [start]: a negative start counts
    from the end, and the start is clamped to the array. *)
Definition splice1 {A} (start : Z) (l : list A) : list A :=
  let len := Z.of_nat (length l) in
  let actualStart :=
    if start <? 0 then Z.max (len + start) 0 else Z.min start len in
  let deleteCount := Z.min 1 (len - actualStart) in
  take (Z.to_nat actualStart) l
    ++ drop (Z.to_nat (actualStart + deleteCount)) l.

Definition removeFixedExpense (r : revision) (index : Z) (s : State) : State :=
  saveState r (set_fixedExpenses (splice1 index (fixedExpenses s)) s).

Definition saveBudgetSettings (r : revision) (limit : string) (s : State)
  : State :=
  let s := set_monthlyLimit (num_or (parseInt limit) (monthlyLimit s)) s in
  saveState r (showToast (ToastText "Budget Updated!") s).

Definition saveLoan (r : revision) (type person amount duration : string)
    (now : Z) (s : State) : State :=
  let loan :=
    {| l_id := now;
       l_type := type;
       l_person := person;
       l_amount := parseInt amount;
       l_duration := parseInt duration;
       l_daily := floor_div (parseInt amount) (parseInt duration) |} in
  let s := set_activeLoans (activeLoans s ++ [loan]) s in
  saveState r (showToast (ToastText "Record Added!") s).

Definition toggleGroupCreator (show : bool) (s : State) : State :=
  if show then set_tempMembers [] s else s.

(** [createNewGroup()].  After the check of the name field the handler
    evaluates [activeGroups = activeGroups || {}]; neither script declares
    [activeGroups], so reading it throws a ReferenceError and the handler
    stops before it assigns, toasts or saves anything. *)
Definition createNewGroup (r : revision) (name : string) (now : Z)
    (s : State) : State :=
  if negb (nonempty name) then showToast (ToastText "Group name required") s
  else s.

(** [sendChat()].  [user] is the function [() => window._uid], which is
    truthy and has no property [uid]: the [userId] of the message is
    [undefined]. *)
Definition sendChat (r : revision) (input : string) (now : Z) (s : State)
  : State :=
  let text := trim input in
  if negb (nonempty text) then s
  else saveState r (pushMessage (ChatMsg text None "You" now true) s).

(** [String(n)] for a number. *)
Definition numToString (n : num) : string :=
  match n with
  | Int z => pretty z
  | NaN => "NaN"
  | PInf => "Infinity"
  | NInf => "-Infinity"
  end.

Definition monthNames : list string :=
  ["Jan"; "Feb"; "Mar"; "Apr"; "May"; "Jun"; "Jul"; "Aug"; "Sep"; "Oct";
   "Nov"; "Dec"]%string.

(** [new Date().toLocaleDateString('en-US', { month: 'short', day:
    'numeric' })], such as "Nov 2". *)
Definition shortDate (now : Z) : string :=
  String.append (default ""%string (monthNames !! Z.to_nat (Date.getMonth now)))
    (String.append " " (pretty (Date.getDate now))).

(** [addQuickExpense()] of the annotated copy.  It pushes onto
    [window.userData.transactions], which is the array of the variable
    [transactions] whenever the object has that field; when it has not (a
    document without the field, nothing saved yet) the property access
    throws and the handler stops there. *)
Definition addQuickExpense (name amt category : string) (now : Z) (s : State)
  : State :=
  if negb (nonempty name) || negb (nonempty amt)
  then showToast (ToastText "Please enter item and amount!") s
  else
    let amount := parseInt amt in
    let newTx :=
      {| tx_date := shortDate now;
         tx_timestamp := Int now;
         tx_merchant := name;
         tx_category := category;
         tx_amount := amount;
         tx_icon := ""; tx_color := ""; tx_bg := "";
         tx_sentiment := "neutral" |} in
    match d_transactions (userData s) with
    | None => s
    | Some _ =>
        let s := set_transactions (newTx :: transactions s) s in
        let s :=
          showToast (ToastText (String.append "Added ₹" (numToString amount))) s in
        saveState Rev3 s
    end.

(** What the user, or anything else holding [window], can invoke, and the
    firing of a retry timer.  Only the annotated copy has
    [addQuickExpense]; invoking it on [dashboard.js] fails at the caller
    and changes nothing. *)
Inductive Action : Type :=
| SaveProfile (name phone : string)
| RandomizeAvatar (seed : string)
| SaveGoal (name amount date : string)
| RemoveGoal (id : Z)
| HandleAddMember (name phone email : string)
| SwitchGroup (chatId : string)
| SendSquadChat (input : string)
| SubmitSplit (item amount : string)
| SaveTransaction (name amt category sentiment : string)
| ApplyDateFilter (period : string)
| AddFixedExpense (name amt : string)
| RemoveFixedExpense (index : Z)
| SaveBudgetSettings (limit : string)
| SaveLoan (type person amount duration : string)
| ToggleGroupCreator (show : bool)
| CreateNewGroup (name : string)
| SendChat (input : string)
| AddQuickExpense (name amt category : string)
| RetryFires.

Definition step (r : revision) (now : Z) (a : Action) (s : State) : State :=
  match a with
  | SaveProfile name phone => saveProfile r name phone s
  | RandomizeAvatar seed => randomizeAvatar seed s
  | SaveGoal name amount date => saveGoal r name amount date now s
  | RemoveGoal id => removeGoal r id s
  | HandleAddMember name phone email => handleAddMember name phone email s
  | SwitchGroup chatId => switchGroup chatId s
  | SendSquadChat input => sendSquadChat r input now s
  | SubmitSplit item amount => submitSplit r item amount now s
  | SaveTransaction name amt category sentiment =>
      saveTransaction r name amt category sentiment now s
  | ApplyDateFilter period => applyDateFilter period s
  | AddFixedExpense name amt => addFixedExpense r name amt s
  | RemoveFixedExpense index => removeFixedExpense r index s
  | SaveBudgetSettings limit => saveBudgetSettings r limit s
  | SaveLoan type person amount duration =>
      saveLoan r type person amount duration now s
  | ToggleGroupCreator show => toggleGroupCreator show s
  | CreateNewGroup name => createNewGroup r name now s
  | SendChat input => sendChat r input now s
  | AddQuickExpense name amt category =>
      match r with
      | Rev2 => s
      | Rev3 => addQuickExpense name amt category now s
      end
  | RetryFires => retryFires r s
  end.

(** A session: handlers run to completion one after the other, each at its
    own clock reading. *)
Definition run (r : revision) (evs : list (Z * Action)) (s : State) : State :=
  fold_left (fun s ev => step r ev.1 ev.2 s) evs s.

(** *** Derived figures *)

(** [updateDateTracker()]: the days left in the month, or 1 on its last
    day. *)
Definition updateDateTracker (now : Z) : num :=
  let day := Date.getDate now in
  let daysInMonth := Date.daysInMonth (Date.getFullYear now) (Date.getMonth now) in
  let daysLeft := daysInMonth - day in
  num_or (Int daysLeft) (Int 1).

(** The three accumulation loops of [recalculateDashboard]. *)
Definition totalFixed (l : list FixedExpense) : num :=
  fold_left (fun acc e => JS.add acc (fe_amount e)) l (Int 0).

Definition dailyDebt (l : list Loan) : num :=
  fold_left
    (fun acc l => if String.eqb (l_type l) "borrow" then JS.add acc (l_daily l)
                  else acc)
    l (Int 0).

Definition dailyGoal (l : list Goal) : num :=
  fold_left (fun acc g => JS.add acc (g_daily g)) l (Int 0).

(** [recalculateDashboard()]: the figure it writes to [safeSpendAmount]. *)
Definition recalculateDashboard (r : revision) (now : Z) (s : State) : num :=
  let disposable := JS.sub (monthlyLimit s) (totalFixed (fixedExpenses s)) in
  let dailyBase :=
    match r with
    | Rev2 =>
        let daysRemaining := updateDateTracker now in
        floor_div disposable daysRemaining
    | Rev3 =>
        let daysInMonth :=
          Date.daysInMonth (Date.getFullYear now) (Date.getMonth now) in
        floor_div disposable (Int daysInMonth)
    end in
  max0
    (JS.sub
       (JS.sub (JS.sub dailyBase (dailyDebt (activeLoans s)))
          (dailyGoal (activeGoals s)))
       (dailySpent s)).

Definition oneDayMs : Z := 24 * 60 * 60 * 1000.

(** [getFilteredTransactions()]. *)
Definition inWindow (filter : string) (now : Z) (t : Transaction) : bool :=
  let diff := JS.sub (Int now) (num_or (tx_timestamp t) (Int now)) in
  if String.eqb filter "day" then ltb diff (Int oneDayMs)
  else if String.eqb filter "week" then ltb diff (Int (oneDayMs * 7))
  else if String.eqb filter "month" then ltb diff (Int (oneDayMs * 30))
  else true.

Definition getFilteredTransactions (now : Z) (s : State) : list Transaction :=
  List.filter (inWindow (currentFilter s) now) (transactions s).

(** [updateSentimentAnalysis()]: the totals [worthy], [regret], [ignore]
    and [total] it displays. *)
Record Sentiments := mkSentiments {
  worthy : num;
  regret : num;
  ignore : num }.

Definition addSentiment (acc : Sentiments) (tx : Transaction) : Sentiments :=
  let amount := num_or (tx_amount tx) (Int 0) in
  if String.eqb (tx_sentiment tx) "worthy"
  then mkSentiments (JS.add (worthy acc) amount) (regret acc) (ignore acc)
  else if String.eqb (tx_sentiment tx) "regret"
  then mkSentiments (worthy acc) (JS.add (regret acc) amount) (ignore acc)
  else mkSentiments (worthy acc) (regret acc) (JS.add (ignore acc) amount).

Definition updateSentimentAnalysis (now : Z) (s : State) : Sentiments * num :=
  let filteredTx := getFilteredTransactions now s in
  let acc :=
    fold_left addSentiment filteredTx (mkSentiments (Int 0) (Int 0) (Int 0)) in
  let total := JS.add (JS.add (worthy acc) (regret acc)) (ignore acc) in
  (acc, total).

(** [renderHeatmap()] of [dashboard.js].  The four colour classes are the
    four tiers. *)
Inductive Tier : Type := TierNone | TierLow | TierMid | TierHigh.

Definition colorClass (t : Tier) : string :=
  match t with
  | TierNone => "bg-white/5 border border-white/5"
  | TierLow => "bg-brand-accent/40 border border-brand-accent/50"
  | TierMid => "bg-brand-warning/60 border border-brand-warning/50"
  | TierHigh => "bg-brand-danger border border-brand-danger/50"
  end.

Definition tierRank (t : Tier) : Z :=
  match t with TierNone => 0 | TierLow => 1 | TierMid => 2 | TierHigh => 3 end.

Definition heatTier (amount : num) : Tier :=
  let c := TierNone in
  let c := if gtb amount (Int 0) then TierLow else c in
  let c := if geb amount (Int 500) then TierMid else c in
  let c := if geb amount (Int 2000) then TierHigh else c in
  c.

(** [spendingMap[k] || 0]. *)
Definition spendingAt (m : gmap Z num) (k : Z) : num :=
  match m !! k with
  | Some v => num_or v (Int 0)
  | None => Int 0
  end.

(** The body of the [forEach] that fills [spendingMap].  A transaction
    without a timestamp is dated now; one whose timestamp is not finite
    gives an invalid date, which matches no month. *)
Definition addSpending (now : Z) (m : gmap Z num) (tx : Transaction)
  : gmap Z num :=
  match num_or (tx_timestamp tx) (Int now) with
  | Int t =>
      if (Date.getMonth t =? Date.getMonth now)
         && (Date.getFullYear t =? Date.getFullYear now)
      then
        let dayKey := Date.getDate t in
        <[dayKey := JS.add (spendingAt m dayKey) (num_or (tx_amount tx) (Int 0))]> m
      else m
  | _ => m
  end.

Definition spendingMap (now : Z) (txs : list Transaction) : gmap Z num :=
  fold_left (addSpending now) txs ∅.

Record Cell := mkCell {
  c_day : Z;
  c_amount : num;
  c_tier : Tier }.

Definition renderHeatmap (now : Z) (s : State) : list Cell :=
  let daysInMonth :=
    Date.daysInMonth (Date.getFullYear now) (Date.getMonth now) in
  let m := spendingMap now (transactions s) in
  (fun i => let amount := spendingAt m i in mkCell i amount (heatTier amount))
    <$> seqZ 1 daysInMonth.

(** ** The specification's formulas

    These follow the wording of the specification, over integers, and are
    what the code is compared with. *)

Definition amountZ (n : num) : Z :=
  match n with Int z => z | _ => 0 end.

Definition sumZ {A} (f : A -> Z) (l : list A) : Z :=
  foldr (fun x acc => f x + acc) 0 l.

(** A timestamp falls on calendar day [day] of the month of [now]. *)
Definition onDayOfMonth (now day : Z) (t : Transaction) : bool :=
  match tx_timestamp t with
  | Int ts =>
      (Date.getFullYear ts =? Date.getFullYear now)
      && (Date.getMonth ts =? Date.getMonth now)
      && (Date.getDate ts =? day)
  | _ => false
  end.

(** [spend(d)]: the sum of the amounts of the transactions of day [d]. *)
Definition spec_spend (now day : Z) (txs : list Transaction) : Z :=
  sumZ (fun t => amountZ (tx_amount t)) (List.filter (onDayOfMonth now day) txs).

(** [spentToday]. *)
Definition spec_spentToday (now : Z) (txs : list Transaction) : Z :=
  spec_spend now (Date.getDate now) txs.

Definition isBorrow (l : Loan) : bool := String.eqb (l_type l) "borrow".

(** Daily safe spend, as section 4.2 writes it. *)
Definition spec_dailySafeSpend (now : Z) (s : State) : Z :=
  let daysInCurrentMonth :=
    Date.daysInMonth (Date.getFullYear now) (Date.getMonth now) in
  Z.max 0
    ((amountZ (monthlyLimit s)
      - sumZ (fun e => amountZ (fe_amount e)) (fixedExpenses s))
       / daysInCurrentMonth
     - sumZ (fun l => amountZ (l_daily l)) (List.filter isBorrow (activeLoans s))
     - sumZ (fun g => amountZ (g_daily g)) (activeGoals s)
     - spec_spentToday now (transactions s)).

(** Ceiling of a quotient, and the signed number of days until a
    deadline. *)
Definition ceilZ (a b : Z) : Z := - ((- a) / b).

Definition daysUntil (now deadline : Z) : Z := ceilZ (deadline - now) Date.msPerDay.

(** The numeric fields the derivation reads are integers: what the data
    model of the specification asks of a ledger. *)
Definition numericLedger (s : State) : bool :=
  is_int (monthlyLimit s) && is_int (dailySpent s)
  && forallb (fun e => is_int (fe_amount e)) (fixedExpenses s)
  && forallb (fun l => is_int (l_daily l)) (activeLoans s)
  && forallb (fun g => is_int (g_daily g)) (activeGoals s).

(** Transaction amounts are integers. *)
Definition integerAmounts (txs : list Transaction) : bool :=
  forallb (fun t => is_int (tx_amount t)) txs.

(** Every transaction carries a timestamp and a non-negative integer
    amount. *)
Definition validTransactions (txs : list Transaction) : bool :=
  forallb
    (fun t => truthy (tx_timestamp t) && is_int (tx_amount t)
              && (0 <=? amountZ (tx_amount t)))
    txs.

(** ** Auxiliary definitions for the statements *)

(** The divisor each revision uses for the daily base. *)
Definition divisor (r : revision) (now : Z) : Z :=
  match r with
  | Rev2 => amountZ (updateDateTracker now)
  | Rev3 => Date.daysInMonth (Date.getFullYear now) (Date.getMonth now)
  end.

(** The figure before the clamp at zero, over integers. *)
Definition unclamped (r : revision) (now : Z) (s : State) : Z :=
  (amountZ (monthlyLimit s) - sumZ (fun e => amountZ (fe_amount e)) (fixedExpenses s))
    / divisor r now
  - sumZ (fun l => amountZ (l_daily l)) (List.filter isBorrow (activeLoans s))
  - sumZ (fun g => amountZ (g_daily g)) (activeGoals s)
  - amountZ (dailySpent s).

(** The part of the state that is the user's ledger. *)
Definition ledgerOf (s : State) :=
  (userProfile s, monthlyLimit s, fixedExpenses s, transactions s,
   activeGoals s, activeLoans s, chatStore s, groupMembers s).

(** The [monthlyLimit] field of a user's stored document. *)
Definition remoteLimit (u : string) (s : State) : option num :=
  users s !! u ≫= d_monthlyLimit.

(** *** Concrete sessions

    The clock reads 2026-11-02 12:00 UTC; November has 30 days. *)
Definition now0 : Z := 1793620800000.

Definition rentAndInternet : list FixedExpense :=
  [mkFixedExpense "Rent" (Int 15000); mkFixedExpense "Internet" (Int 1000)].

(** The scenario of the specification: limit 30000, fixed expenses 16000,
    nothing else. *)
Definition scenarioLedger (r : revision) : State :=
  set_fixedExpenses rentAndInternet
    (set_monthlyLimit (Int 30000) (initialState r ∅)).

(** A purchase of 100 logged an hour before [now0]. *)
Definition lunch : Transaction :=
  {| tx_date := "Today, Just now"; tx_timestamp := Int (now0 - 3600000);
     tx_merchant := "Canteen"; tx_category := "Food"; tx_amount := Int 100;
     tx_icon := "ph-hamburger"; tx_color := "text-brand-light";
     tx_bg := "bg-brand-DEFAULT/20"; tx_sentiment := "worthy" |}.

(** The document of a returning user: the scenario plus [lunch]. *)
Definition storedDoc : Doc :=
  {| d_name := Some "Asha"%string; d_displayName := None;
     d_phone := Some ""%string; d_email := Some ""%string;
     d_avatar := Some default_avatar; d_photoURL := None;
     d_transactions := Some [lunch]; d_fixedExpenses := Some rentAndInternet;
     d_goals := Some []; d_activeGoals := None;
     d_loans := Some []; d_activeLoans := None;
     d_chatGroups := Some ∅; d_groupMembers := Some ∅;
     d_monthlyLimit := Some (Int 30000); d_createdAt := Some 1790000000000 |}.

Definition returningUser : gmap string Doc := {[ "u1"%string := storedDoc ]}.

(** The goal object [saveGoal] builds. *)
Definition goalOf (name amount date : string) (now : Z) : Goal :=
  let diffTime := JS.abs (JS.sub (Date.parse date) (Int now)) in
  let diffDays := num_or (ceil_div diffTime (Int Date.msPerDay)) (Int 1) in
  {| g_id := now; g_name := name; g_amount := parseInt amount;
     g_deadline := date; g_daily := ceil_div (parseInt amount) diffDays;
     g_daysLeft := diffDays |}.

(** The loan object [saveLoan] builds. *)
Definition loanOf (type person amount duration : string) (now : Z) : Loan :=
  {| l_id := now; l_type := type; l_person := person;
     l_amount := parseInt amount; l_duration := parseInt duration;
     l_daily := floor_div (parseInt amount) (parseInt duration) |}.

(** The document [saveState] hands to [setDoc]: [window.userData] once the
    assignments are done. *)
Definition committedDoc (r : revision) (s : State) : Doc :=
  userData (saveState r s).

(** The session is signed in as [u], and the [monthlyLimit] field of
    [window.userData] and of the stored document both read [c]. *)
Definition synced (u : string) (c : option num) (s : State) : Prop :=
  uid s = Some u /\ d_monthlyLimit (userData s) = c /\ remoteLimit u s = c.

(** The claim that a first-time user's ledger is hydrated empty. *)
Definition hydratedEmpty (s : State) : Prop :=
  transactions s = [] /\ fixedExpenses s = [] /\ activeGoals s = []
  /\ activeLoans s = [] /\ chatStore s = ∅ /\ groupMembers s = ∅
  /\ monthlyLimit s = Int 0.

(** ** Further functions of the scripts *)

(** [renderRecentTransactionsWidget()]: the rows it shows,
    [transactions.slice(0, 4)]. *)
Definition renderRecentTransactionsWidget (s : State) : list Transaction :=
  take 4 (transactions s).

(** [filterSentiment(type)]: the transactions of the drill-down list (the
    title it sets is left out). *)
Definition filterSentiment (type : string) (now : Z) (s : State)
  : list Transaction :=
  let timeFiltered := getFilteredTransactions now s in
  if String.eqb type "all" then timeFiltered
  else List.filter (fun t => String.eqb (tx_sentiment t) type) timeFiltered.

(** [updateBudgetPreview(totalFixed)]: the six figures it writes, for the
    content of the limit field. *)
Record Preview := mkPreview {
  previewMonthly : num;
  previewFixed : num;
  previewDisposable : num;
  previewDailyBase : num;
  previewDebtDaily : num;
  previewFinal : num }.

Definition updateBudgetPreview (r : revision) (now : Z) (limitInput : string)
    (totalFixed : num) (s : State) : Preview :=
  let limit := num_or (parseInt limitInput) (Int 0) in
  let disposable := JS.sub limit totalFixed in
  let dailyBase :=
    match r with
    | Rev2 =>
        let daysRemaining := updateDateTracker now in
        floor_div disposable daysRemaining
    | Rev3 =>
        let daysInMonth :=
          Date.daysInMonth (Date.getFullYear now) (Date.getMonth now) in
        floor_div disposable (Int daysInMonth)
    end in
  let dailyDebt := dailyDebt (activeLoans s) in
  let dailyGoal := dailyGoal (activeGoals s) in
  let finalDaily :=
    max0 (JS.sub (JS.sub (JS.sub dailyBase dailyDebt) dailyGoal) (dailySpent s)) in
  {| previewMonthly := limit; previewFixed := totalFixed;
     previewDisposable := disposable; previewDailyBase := dailyBase;
     previewDebtDaily := dailyDebt; previewFinal := finalDaily |}.

(** The listener of the limit field: sum the fixed expenses, then
    preview. *)
Definition onLimitInput (r : revision) (now : Z) (limitInput : string)
    (s : State) : Preview :=
  updateBudgetPreview r now limitInput (totalFixed (fixedExpenses s)) s.

(** *** Auxiliary definitions for the statements *)

(** The timestamp of a transaction as an integer. *)
Definition timestampZ (t : Transaction) : Z := amountZ (tx_timestamp t).

(** A transaction as [saveTransaction] logs it: a merchant, an integer
    amount other than 0, a timestamp. *)
Definition loggedTransaction (t : Transaction) : Prop :=
  nonempty (tx_merchant t) = true
  /\ (exists a, tx_amount t = Int a /\ a <> 0)
  /\ exists ts, tx_timestamp t = Int ts.

(** A transaction built by [saveTransaction] carries its colour class;
    the quick expense of the annotated copy has no such property. *)
Definition viaSaveTransaction (t : Transaction) : bool :=
  String.eqb (tx_color t) "text-brand-light".

(** What a transaction logged in a session of revision [r] looks like: one
    of [saveTransaction], or, in the annotated copy only, a quick expense,
    tagged neutral, whose amount is whatever [parseInt] gave. *)
Definition loggedBy (r : revision) (t : Transaction) : Prop :=
  if viaSaveTransaction t then loggedTransaction t
  else r = Rev3 /\ tx_sentiment t = "neutral"%string
       /\ nonempty (tx_merchant t) = true.

(** The arrays a document hydrates to. *)
Definition goalsOfDoc (d : Doc) : list Goal :=
  match d_goals d with
  | Some g => g
  | None => default [] (d_activeGoals d)
  end.

Definition loansOfDoc (d : Doc) : list Loan :=
  match d_loans d with
  | Some l => l
  | None => default [] (d_activeLoans d)
  end.

(** A map with the default group added when it lacks it. *)
Definition withRoommates {A} (m : gmap string (list A)) : gmap string (list A) :=
  match m !! "Roommates"%string with
  | Some _ => m
  | None => <["Roommates"%string := []]> m
  end.


(** The user's stored document hydrates to the ledger of the session: the
    four arrays, the two maps and, in the revision that stores it, the
    monthly limit. *)
Definition persisted (r : revision) (u : string) (s : State) : Prop :=
  uid s = Some u
  /\ exists d,
       users s !! u = Some d
       /\ default [] (d_transactions d) = transactions s
       /\ default [] (d_fixedExpenses d) = fixedExpenses s
       /\ goalsOfDoc d = activeGoals s
       /\ loansOfDoc d = activeLoans s
       /\ withRoommates (default ∅ (d_chatGroups d)) = chatStore s
       /\ withRoommates (default ∅ (d_groupMembers d)) = groupMembers s
       /\ (r = Rev3 -> default (Int 0) (d_monthlyLimit d) = monthlyLimit s).






(** The fields of a document that no handler assigns. *)
Definition accountFields (d : Doc) :=
  (d_email d, d_createdAt d, d_displayName d, d_photoURL d).

(** The session is signed in as [u]; [window.userData] and the stored
    document agree on the account fields [c]; the documents of the other
    users are those of [db]; no retry timer is armed. *)
Definition accountKept (db : gmap string Doc) (u : string)
    (c : option string * option Z * option string * option string)
    (s : State) : Prop :=
  uid s = Some u
  /\ accountFields (userData s) = c
  /\ (exists d, users s !! u = Some d /\ accountFields d = c)
  /\ (forall v, v <> u -> users s !! v = db !! v)
  /\ retries s = 0%nat.

(** The calendar date within a 400-year era, from the day of the era:
    the body of [Date.civil_of_days] past its first two lines. *)
Definition civil_of_doe (era doe : Z) : Z * Z * Z :=
  let yoe := (doe - doe / 1460 + doe / 36524 - doe / 146096) / 365 in
  let doy := doe - (365 * yoe + yoe / 4 - yoe / 100) in
  let mp := (5 * doy + 2) / 153 in
  let d := doy - (153 * mp + 2) / 5 + 1 in
  let m := if mp <? 10 then mp + 3 else mp - 9 in
  let y := yoe + era * 400 + (if m <=? 2 then 1 else 0) in
  (y, m - 1, d).

(** The date of a day of the era names a month 0..11 and a day that the
    month has. *)
Definition validDoe (doe : Z) : bool :=
  let '(y, m, d) := civil_of_doe 0 doe in
  (0 <=? m) && (m <=? 11) && (1 <=? d) && (d <=? Date.daysInMonth y m).

(** [validDoe] on [n] days from [doe] on. *)
Fixpoint validDoeFrom (n : nat) (doe : Z) : bool :=
  match n with
  | O => true
  | S n' => validDoe doe && validDoeFrom n' (doe + 1)
  end.

(** The disposable budget over integers. *)
Definition disposableZ (s : State) : Z :=
  amountZ (monthlyLimit s) - sumZ (fun e => amountZ (fe_amount e)) (fixedExpenses s).

(** A transaction is dated in the month of [now]. *)
Definition inMonthOf (now : Z) (t : Transaction) : bool :=
  match tx_timestamp t with
  | Int ts =>
      (Date.getFullYear ts =? Date.getFullYear now)
      && (Date.getMonth ts =? Date.getMonth now)
  | _ => false
  end.

(** Transaction amounts are integers and not negative. *)
Definition nonNegativeAmounts (txs : list Transaction) : bool :=
  forallb (fun t => is_int (tx_amount t) && (0 <=? amountZ (tx_amount t))) txs.

(** The sum of the amounts of a list of transactions. *)
Definition amountsOf (txs : list Transaction) : Z :=
  sumZ (fun t => amountZ (tx_amount t)) txs.

(** A sentiment tag that is none of the three the analysis names. *)
Definition untagged (t : Transaction) : bool :=
  negb (String.eqb (tx_sentiment t) "worthy")
  && negb (String.eqb (tx_sentiment t) "regret")
  && negb (String.eqb (tx_sentiment t) "ignore").

(** Newest first. *)
Definition newerFirst (t1 t2 : Transaction) : Prop :=
  timestampZ t2 <= timestampZ t1.

(** The sum of the amounts of the cells of the heatmap. *)
Definition cellsTotal (cells : list Cell) : Z :=
  sumZ (fun c => amountZ (c_amount c)) cells.

(** The cell of the day of [now] raised by [a], the others as they are. *)
Definition raiseToday (now a : Z) (c : Cell) : Cell :=
  if c_day c =? Date.getDate now
  then mkCell (c_day c) (JS.add (c_amount c) (Int a))
         (heatTier (JS.add (c_amount c) (Int a)))
  else c.

(** The ledger stored for a user, empty when there is no document or the
    document has no ledger. *)
Definition storedLedger (db : gmap string Doc) (u : string) : list Transaction :=
  match db !! u with
  | Some d => default [] (d_transactions d)
  | None => []
  end.

(** Every chat of [before] is a chat of [after] with the same messages in
    front: nothing was removed or rewritten. *)
Definition historyKept (before after : gmap string (list Message)) : Prop :=
  forall id msgs,
    before !! id = Some msgs -> exists more, after !! id = Some (msgs ++ more).

(** * Properties *)

(** Reduction of the field projections through the setters, and nothing
    else (in particular no map lookup is unfolded). *)
Ltac st :=
  cbn [users uid userData staleData retries userProfile transactions fixedExpenses
       activeGoals activeLoans chatStore groupMembers monthlyLimit dailySpent
       currentFilter currentChatId tempMembers toasts
       set_users set_uid set_userData set_staleData set_retries set_userProfile
       set_transactions set_fixedExpenses set_activeGoals set_activeLoans
       set_chatStore set_groupMembers set_monthlyLimit set_dailySpent
       set_currentFilter set_currentChatId set_tempMembers set_toasts
       showToast initialState fst snd] in *.

(** ** Sanity checks of the primitives *)

Example parseInt_10000 : parseInt "10000" = Int 10000.
Proof. reflexivity. Qed.

Example parseInt_empty : parseInt "" = NaN.
Proof. reflexivity. Qed.

Example parseInt_zero : parseInt "0" = Int 0.
Proof. reflexivity. Qed.

Example parseInt_signed : parseInt " -42px" = Int (-42).
Proof. reflexivity. Qed.

Example floor_div_by_zero : floor_div (Int 1000) (Int 0) = PInf.
Proof. reflexivity. Qed.

Example ceil_div_7_2 : ceil_div (Int 7) (Int 2) = Int 4.
Proof. reflexivity. Qed.

Example date_2026_11_02 :
  (Date.getFullYear 1793620800000, Date.getMonth 1793620800000,
   Date.getDate 1793620800000) = (2026, 10, 2).
Proof. reflexivity. Qed.

Example parse_2026_11_02 : Date.parse "2026-11-02" = Int 1793577600000.
Proof. reflexivity. Qed.

Example parse_garbage : Date.parse "soon" = NaN.
Proof. reflexivity. Qed.

(** ** Sums of integer-valued numbers *)

Section Sums.
Context {A : Type}.
Implicit Types (l : list A) (z : Z).

Lemma sumZ_app (f : A -> Z) l1 l2 : sumZ f (l1 ++ l2) = sumZ f l1 + sumZ f l2.
Proof. induction l1 as [|x l1 IH]; simpl; [reflexivity | rewrite IH; lia]. Qed.

Lemma sumZ_nonneg (f : A -> Z) l :
  (forall x, In x l -> 0 <= f x) -> 0 <= sumZ f l.
Proof.
  induction l as [|x l IH]; simpl; intros H; [lia|].
  specialize (H x (or_introl eq_refl)) as Hx.
  assert (0 <= sumZ f l) by (apply IH; intros y Hy; apply H; now right).
  lia.
Qed.

(** An accumulation loop [acc += f(x)] over integer values computes the
    integer sum. *)
Lemma fold_add_int (f : A -> num) l z :
  forallb (fun x => is_int (f x)) l = true ->
  fold_left (fun acc x => JS.add acc (f x)) l (Int z)
  = Int (z + sumZ (fun x => amountZ (f x)) l).
Proof.
  revert z; induction l as [|x l IH]; simpl; intros z H.
  - f_equal; lia.
  - apply andb_true_iff in H as [Hx Hl].
    destruct (f x) as [y| | |] eqn:E; try discriminate.
    rewrite (IH _ Hl). simpl. f_equal; lia.
Qed.

(** A guarded accumulation loop is the plain loop over the elements that
    pass the guard. *)
Lemma fold_guard_filter (p : A -> bool) (f : A -> num) l (acc : num) :
  fold_left (fun acc x => if p x then JS.add acc (f x) else acc) l acc
  = fold_left (fun acc x => JS.add acc (f x)) (List.filter p l) acc.
Proof.
  revert acc; induction l as [|x l IH]; simpl; intros acc; [reflexivity|].
  destruct (p x); simpl; apply IH.
Qed.
End Sums.

Lemma forallb_filter {A} (p q : A -> bool) (l : list A) :
  forallb p l = true -> forallb p (List.filter q l) = true.
Proof.
  induction l as [|x l IH]; simpl; [reflexivity|].
  intros H; apply andb_true_iff in H as [Hx Hl].
  destruct (q x); simpl; [rewrite Hx|]; auto.
Qed.

(** ** The daily safe spend computed by [recalculateDashboard] *)

Lemma dailyDebt_filter (l : list Loan) :
  dailyDebt l
  = fold_left (fun acc l => JS.add acc (l_daily l)) (List.filter isBorrow l) (Int 0).
Proof. unfold dailyDebt. apply (fold_guard_filter isBorrow l_daily). Qed.

Lemma daysInMonth_range (y m : Z) : 28 <= Date.daysInMonth y m <= 31.
Proof.
  unfold Date.daysInMonth.
  repeat match goal with |- context [if ?b then _ else _] => destruct b end; lia.
Qed.

Lemma updateDateTracker_nonzero (now : Z) :
  exists d, updateDateTracker now = Int d /\ d <> 0.
Proof.
  unfold updateDateTracker, num_or, truthy.
  destruct (Z.eqb_spec
    (Date.daysInMonth (Date.getFullYear now) (Date.getMonth now) - Date.getDate now) 0)
    as [E|E]; simpl.
  - exists 1; split; [reflexivity | lia].
  - eexists; split; [reflexivity | exact E].
Qed.

Lemma divisor_nonzero (r : revision) (now : Z) : divisor r now <> 0.
Proof.
  destruct r; simpl.
  - destruct (updateDateTracker_nonzero now) as (d & -> & Hd); exact Hd.
  - pose proof (daysInMonth_range (Date.getFullYear now) (Date.getMonth now)); lia.
Qed.

(** On a numeric ledger [recalculateDashboard] is
    [max(0, floor(disposable / divisor) - debt - goals - dailySpent)]. *)
Lemma recalculateDashboard_closed (r : revision) (now : Z) (s : State) :
  numericLedger s = true ->
  recalculateDashboard r now s = Int (Z.max 0 (unclamped r now s)).
Proof.
  unfold numericLedger. rewrite !andb_true_iff.
  intros [[[[Hlim Hspent] Hfix] Hloans] Hgoals].
  unfold recalculateDashboard, unclamped.
  unfold totalFixed, dailyGoal. rewrite dailyDebt_filter.
  rewrite (fold_add_int fe_amount _ 0 Hfix).
  rewrite (fold_add_int l_daily _ 0 (forallb_filter _ isBorrow _ Hloans)).
  rewrite (fold_add_int g_daily _ 0 Hgoals).
  destruct (monthlyLimit s) as [lim| | |]; try discriminate.
  destruct (dailySpent s) as [sp| | |]; try discriminate.
  assert (Hbase : forall x,
    match r with
    | Rev2 => floor_div (Int x) (updateDateTracker now)
    | Rev3 => floor_div (Int x)
                (Int (Date.daysInMonth (Date.getFullYear now) (Date.getMonth now)))
    end = Int (x / divisor r now)).
  { intros x. pose proof (divisor_nonzero r now) as Hd. destruct r; simpl in *.
    - destruct (updateDateTracker_nonzero now) as (d & E & _).
      rewrite E in *. simpl in *.
      destruct (Z.eqb_spec d 0); [contradiction | reflexivity].
    - destruct (Z.eqb_spec
        (Date.daysInMonth (Date.getFullYear now) (Date.getMonth now)) 0);
        [contradiction | reflexivity]. }
  simpl JS.sub at 4. cbn [JS.sub JS.neg JS.add].
  rewrite Hbase. simpl. f_equal; lia.
Qed.

(** On a numeric ledger whose session counter equals today's logged spend,
    the later revision computes the specification's formula. *)
Lemma recalculateDashboard_spec (now : Z) (s : State) :
  numericLedger s = true ->
  amountZ (dailySpent s) = spec_spentToday now (transactions s) ->
  recalculateDashboard Rev3 now s = Int (spec_dailySafeSpend now s).
Proof.
  intros Hn Hs. rewrite (recalculateDashboard_closed Rev3 now s Hn).
  unfold unclamped, spec_dailySafeSpend, divisor. rewrite Hs. reflexivity.
Qed.

(** The scenario of the specification evaluates to 466 in the later
    revision; [dashboard.js] divides by the 28 days left and shows 500. *)
Example scenario_466 : recalculateDashboard Rev3 now0 (scenarioLedger Rev3) = Int 466.
Proof. vm_compute. reflexivity. Qed.

Example scenario_dashboard_js :
  recalculateDashboard Rev2 now0 (scenarioLedger Rev2) = Int 500.
Proof. vm_compute. reflexivity. Qed.

(** Hydration never restores the session counter. *)
Lemma dailySpent_sessionStart r db u now :
  dailySpent (sessionStart r db u now) = Int 0.
Proof.
  unfold sessionStart, onAuthStateChanged, loadUserDoc. st.
  destruct (db !! u); unfold firestoreReady, initApp, ensureRoommates;
    destruct r; st; repeat case_match; reflexivity.
Qed.

(** C1 (code defect).  The specification takes spentToday to be the sum of
    the amounts of the transactions dated today.  The script subtracts its
    variable [dailySpent] instead, which starts at 0 on every page load and
    is never rebuilt from the stored transactions.  For a returning user
    whose document holds limit 30000, fixed expenses 16000 and one purchase
    of 100 made an hour ago, in a 30-day month, the later revision shows 466
    where the formula gives 366; [dashboard.js], which also divides by the
    days left instead of the days of the month, shows 500. *)
Theorem C1_safe_spend_after_reload :
  recalculateDashboard Rev3 now0 (sessionStart Rev3 returningUser "u1" now0) = Int 466
  /\ spec_dailySafeSpend now0 (sessionStart Rev3 returningUser "u1" now0) = 366
  /\ recalculateDashboard Rev2 now0 (sessionStart Rev2 returningUser "u1" now0) = Int 500
  /\ spec_dailySafeSpend now0 (sessionStart Rev2 returningUser "u1" now0) = 366.
Proof. vm_compute. repeat split. Qed.

(** ** What [saveState] leaves alone *)

Ltac saveState_frame :=
  intros; unfold saveState, syncUserData; st;
  match goal with
  | |- context [match uid ?s with _ => _ end] => destruct (uid s) eqn:?
  end;
  st; repeat case_match; st; congruence.

Lemma saveState_userProfile r s : userProfile (saveState r s) = userProfile s.
Proof. saveState_frame. Qed.
Lemma saveState_transactions r s : transactions (saveState r s) = transactions s.
Proof. saveState_frame. Qed.
Lemma saveState_fixedExpenses r s : fixedExpenses (saveState r s) = fixedExpenses s.
Proof. saveState_frame. Qed.
Lemma saveState_activeGoals r s : activeGoals (saveState r s) = activeGoals s.
Proof. saveState_frame. Qed.
Lemma saveState_activeLoans r s : activeLoans (saveState r s) = activeLoans s.
Proof. saveState_frame. Qed.
Lemma saveState_chatStore r s : chatStore (saveState r s) = chatStore s.
Proof. saveState_frame. Qed.
Lemma saveState_groupMembers r s : groupMembers (saveState r s) = groupMembers s.
Proof. saveState_frame. Qed.
Lemma saveState_monthlyLimit r s : monthlyLimit (saveState r s) = monthlyLimit s.
Proof. saveState_frame. Qed.
Lemma saveState_dailySpent r s : dailySpent (saveState r s) = dailySpent s.
Proof. saveState_frame. Qed.
Lemma saveState_toasts r s : toasts (saveState r s) = toasts s.
Proof. saveState_frame. Qed.
Lemma saveState_uid r s : uid (saveState r s) = uid s.
Proof. saveState_frame. Qed.
Lemma saveState_tempMembers r s : tempMembers (saveState r s) = tempMembers s.
Proof. saveState_frame. Qed.
Lemma saveState_currentChatId r s : currentChatId (saveState r s) = currentChatId s.
Proof. saveState_frame. Qed.
Lemma saveState_currentFilter r s : currentFilter (saveState r s) = currentFilter s.
Proof. saveState_frame. Qed.

(** A retry timer that fires touches nothing but the store and the count
    of armed timers. *)
Ltac retryFires_frame :=
  intros; unfold retryFires, syncUserData; st; repeat case_match; st;
  congruence.

Lemma retryFires_userProfile r s : userProfile (retryFires r s) = userProfile s.
Proof. retryFires_frame. Qed.
Lemma retryFires_transactions r s : transactions (retryFires r s) = transactions s.
Proof. retryFires_frame. Qed.
Lemma retryFires_fixedExpenses r s : fixedExpenses (retryFires r s) = fixedExpenses s.
Proof. retryFires_frame. Qed.
Lemma retryFires_activeGoals r s : activeGoals (retryFires r s) = activeGoals s.
Proof. retryFires_frame. Qed.
Lemma retryFires_activeLoans r s : activeLoans (retryFires r s) = activeLoans s.
Proof. retryFires_frame. Qed.
Lemma retryFires_chatStore r s : chatStore (retryFires r s) = chatStore s.
Proof. retryFires_frame. Qed.
Lemma retryFires_groupMembers r s : groupMembers (retryFires r s) = groupMembers s.
Proof. retryFires_frame. Qed.
Lemma retryFires_monthlyLimit r s : monthlyLimit (retryFires r s) = monthlyLimit s.
Proof. retryFires_frame. Qed.
Lemma retryFires_dailySpent r s : dailySpent (retryFires r s) = dailySpent s.
Proof. retryFires_frame. Qed.
Lemma retryFires_toasts r s : toasts (retryFires r s) = toasts s.
Proof. retryFires_frame. Qed.
Lemma retryFires_uid r s : uid (retryFires r s) = uid s.
Proof. retryFires_frame. Qed.
Lemma retryFires_tempMembers r s : tempMembers (retryFires r s) = tempMembers s.
Proof. retryFires_frame. Qed.
Lemma retryFires_currentChatId r s : currentChatId (retryFires r s) = currentChatId s.
Proof. retryFires_frame. Qed.
Lemma retryFires_currentFilter r s : currentFilter (retryFires r s) = currentFilter s.
Proof. retryFires_frame. Qed.
Lemma retryFires_userData r s : userData (retryFires r s) = userData s.
Proof. retryFires_frame. Qed.

(** The quick expense touches the transactions, the toasts and, through
    [saveState], the document; the rest stays. *)
Ltac addQuickExpense_frame :=
  intros; unfold addQuickExpense; repeat case_match; st;
  rewrite ?saveState_userProfile, ?saveState_fixedExpenses,
    ?saveState_activeGoals, ?saveState_activeLoans, ?saveState_chatStore,
    ?saveState_groupMembers, ?saveState_monthlyLimit, ?saveState_dailySpent,
    ?saveState_uid, ?saveState_tempMembers, ?saveState_currentChatId,
    ?saveState_currentFilter;
  st; congruence.

Lemma addQuickExpense_userProfile name amt category now s :
  userProfile (addQuickExpense name amt category now s) = userProfile s.
Proof. addQuickExpense_frame. Qed.
Lemma addQuickExpense_fixedExpenses name amt category now s :
  fixedExpenses (addQuickExpense name amt category now s) = fixedExpenses s.
Proof. addQuickExpense_frame. Qed.
Lemma addQuickExpense_activeGoals name amt category now s :
  activeGoals (addQuickExpense name amt category now s) = activeGoals s.
Proof. addQuickExpense_frame. Qed.
Lemma addQuickExpense_activeLoans name amt category now s :
  activeLoans (addQuickExpense name amt category now s) = activeLoans s.
Proof. addQuickExpense_frame. Qed.
Lemma addQuickExpense_chatStore name amt category now s :
  chatStore (addQuickExpense name amt category now s) = chatStore s.
Proof. addQuickExpense_frame. Qed.
Lemma addQuickExpense_groupMembers name amt category now s :
  groupMembers (addQuickExpense name amt category now s) = groupMembers s.
Proof. addQuickExpense_frame. Qed.
Lemma addQuickExpense_monthlyLimit name amt category now s :
  monthlyLimit (addQuickExpense name amt category now s) = monthlyLimit s.
Proof. addQuickExpense_frame. Qed.
Lemma addQuickExpense_dailySpent name amt category now s :
  dailySpent (addQuickExpense name amt category now s) = dailySpent s.
Proof. addQuickExpense_frame. Qed.
Lemma addQuickExpense_uid name amt category now s :
  uid (addQuickExpense name amt category now s) = uid s.
Proof. addQuickExpense_frame. Qed.
Lemma addQuickExpense_tempMembers name amt category now s :
  tempMembers (addQuickExpense name amt category now s) = tempMembers s.
Proof. addQuickExpense_frame. Qed.
Lemma addQuickExpense_currentChatId name amt category now s :
  currentChatId (addQuickExpense name amt category now s) = currentChatId s.
Proof. addQuickExpense_frame. Qed.
Lemma addQuickExpense_currentFilter name amt category now s :
  currentFilter (addQuickExpense name amt category now s) = currentFilter s.
Proof. addQuickExpense_frame. Qed.

Create Rewrite HintDb frame.
#[local] Hint Rewrite saveState_userProfile saveState_transactions
  saveState_fixedExpenses saveState_activeGoals saveState_activeLoans
  saveState_chatStore saveState_groupMembers saveState_monthlyLimit
  saveState_dailySpent saveState_toasts saveState_uid
  saveState_tempMembers saveState_currentChatId saveState_currentFilter : frame.
#[local] Hint Rewrite retryFires_userProfile retryFires_transactions
  retryFires_fixedExpenses retryFires_activeGoals retryFires_activeLoans
  retryFires_chatStore retryFires_groupMembers retryFires_monthlyLimit
  retryFires_dailySpent retryFires_toasts retryFires_uid
  retryFires_tempMembers retryFires_currentChatId retryFires_currentFilter
  retryFires_userData : frame.
#[local] Hint Rewrite addQuickExpense_userProfile
  addQuickExpense_fixedExpenses addQuickExpense_activeGoals
  addQuickExpense_activeLoans addQuickExpense_chatStore
  addQuickExpense_groupMembers addQuickExpense_monthlyLimit
  addQuickExpense_dailySpent addQuickExpense_uid addQuickExpense_tempMembers
  addQuickExpense_currentChatId addQuickExpense_currentFilter : frame.

Lemma saveState_ledgerOf r s : ledgerOf (saveState r s) = ledgerOf s.
Proof. unfold ledgerOf. autorewrite with frame. reflexivity. Qed.

Lemma recalculateDashboard_saveState r r' now s :
  recalculateDashboard r now (saveState r' s) = recalculateDashboard r now s.
Proof. unfold recalculateDashboard. autorewrite with frame. reflexivity. Qed.

(** ** Loans *)

(** C3 (code defect).  [saveLoan] validates nothing: with the duration
    field holding 0 it does not reject the input but appends a loan whose
    daily amount is the quotient by zero, Infinity for an amount of 1000,
    and reports success.  Where a handler does reject its input it is not
    always reported either: [addFixedExpense] with a zero amount returns
    without a toast. *)
Theorem C3_saveLoan_accepts_zero_duration r type person amount now s :
  activeLoans (saveLoan r type person amount "0" now s)
  = activeLoans s
    ++ [mkLoan now type person (parseInt amount) (Int 0)
          (floor_div (parseInt amount) (Int 0))]
  /\ toasts (saveLoan r type person amount "0" now s)
     = toasts s ++ [ToastText "Record Added!"]
  /\ floor_div (parseInt "1000") (Int 0) = PInf
  /\ activeLoans (saveLoan r type person amount "0" now s) <> activeLoans s
  /\ (forall name, addFixedExpense r name "0" s = s).
Proof.
  unfold saveLoan. autorewrite with frame. st.
  split; [reflexivity|]. split; [reflexivity|]. split; [reflexivity|]. split.
  - intros H. apply (f_equal (@length Loan)) in H.
    rewrite length_app in H. simpl in H. lia.
  - intros name. unfold addFixedExpense.
    change (gtb (parseInt "0") (Int 0)) with false.
    rewrite andb_false_r. reflexivity.
Qed.

(** A loan of 1000 over 0 days drives the safe-spend figure of the
    scenario to the clamp. *)
Example scenario_zero_duration_loan :
  recalculateDashboard Rev2 now0
    (saveLoan Rev2 "borrow" "Asha" "1000" "0" now0 (scenarioLedger Rev2))
  = Int 0.
Proof. vm_compute. reflexivity. Qed.

Lemma dailyDebt_app_not_borrow (before after : list Loan) (loan : Loan) :
  isBorrow loan = false ->
  dailyDebt (before ++ loan :: after) = dailyDebt (before ++ after).
Proof.
  intros H. rewrite !dailyDebt_filter, !List.filter_app. simpl. rewrite H.
  reflexivity.
Qed.

(** C4.  A loan of type lend never enters the safe-spend figure: putting
    one anywhere in the loan list, taking it out, or recording one with
    [saveLoan] leaves [recalculateDashboard] unchanged, and the debt that
    is deducted is the sum over the loans of type borrow alone. *)
Theorem C4_lend_loans_not_deducted r now s (loan : Loan) (before after : list Loan) :
  l_type loan = "lend"%string ->
  recalculateDashboard r now (set_activeLoans (before ++ loan :: after) s)
  = recalculateDashboard r now (set_activeLoans (before ++ after) s)
  /\ (forall r' person amount duration t,
        recalculateDashboard r now (saveLoan r' "lend" person amount duration t s)
        = recalculateDashboard r now s)
  /\ dailyDebt (activeLoans s)
     = fold_left (fun acc l => JS.add acc (l_daily l))
         (List.filter isBorrow (activeLoans s)) (Int 0).
Proof.
  intros Hlend. split; [|split].
  - unfold recalculateDashboard; st.
    rewrite dailyDebt_app_not_borrow; [reflexivity|].
    unfold isBorrow. rewrite Hlend. reflexivity.
  - intros r' person amount duration t. unfold saveLoan.
    rewrite recalculateDashboard_saveState.
    unfold recalculateDashboard; st.
    rewrite <- (app_nil_r (activeLoans s)) at 2.
    rewrite dailyDebt_app_not_borrow by reflexivity.
    rewrite app_nil_r. reflexivity.
  - apply dailyDebt_filter.
Qed.

Lemma C4_lend_loans_not_deducted_witness :
  l_type (mkLoan now0 "lend" "Ravi" (Int 9000) (Int 30) (Int 300)) = "lend"%string
  /\ recalculateDashboard Rev3 now0
       (set_activeLoans [mkLoan now0 "lend" "Ravi" (Int 9000) (Int 30) (Int 300)]
          (scenarioLedger Rev3))
     = recalculateDashboard Rev3 now0 (set_activeLoans [] (scenarioLedger Rev3)).
Proof.
  split; [reflexivity|].
  apply (C4_lend_loans_not_deducted Rev3 now0 (scenarioLedger Rev3)
           (mkLoan now0 "lend" "Ravi" (Int 9000) (Int 30) (Int 300)) [] []).
  reflexivity.
Defined.

Lemma saveLoan_activeLoans r type person amount duration now s :
  activeLoans (saveLoan r type person amount duration now s)
  = activeLoans s ++ [loanOf type person amount duration now].
Proof. unfold saveLoan. autorewrite with frame. reflexivity. Qed.

Lemma recalculateDashboard_saveLoan r r' now type person amount duration t s :
  recalculateDashboard r now (saveLoan r' type person amount duration t s)
  = recalculateDashboard r now
      (set_activeLoans (activeLoans s ++ [loanOf type person amount duration t]) s).
Proof. unfold saveLoan. rewrite recalculateDashboard_saveState. reflexivity. Qed.

Lemma forallb_snoc {A} (p : A -> bool) (l : list A) (x : A) :
  forallb p (l ++ [x]) = forallb p l && p x.
Proof. rewrite forallb_app. simpl. rewrite andb_true_r. reflexivity. Qed.

(** C5.  A loan recorded by [saveLoan] with a duration of at least one day
    stores floor(amount / duration) as its daily amount; when it is a borrow
    loan with a non-negative amount on a numeric ledger, the safe-spend
    figure drops by exactly that amount whenever the figure before is at
    least that amount, that is whenever the result is not clamped at zero. *)
Theorem C5_borrow_loan_daily_amount r now t s type person amount duration (a d : Z) :
  parseInt amount = Int a ->
  parseInt duration = Int d ->
  1 <= d ->
  exists loan,
    activeLoans (saveLoan r type person amount duration t s)
    = activeLoans s ++ [loan]
    /\ l_type loan = type
    /\ l_amount loan = Int a
    /\ l_duration loan = Int d
    /\ l_daily loan = Int (a / d)
    /\ (type = "borrow"%string -> numericLedger s = true -> 0 <= a ->
        exists v,
          recalculateDashboard r now s = Int v
          /\ (a / d <= v ->
              recalculateDashboard r now
                (saveLoan r type person amount duration t s)
              = Int (v - a / d))).
Proof.
  intros Ha Hd Hpos.
  exists (loanOf type person amount duration t).
  assert (Hdaily : l_daily (loanOf type person amount duration t) = Int (a / d)).
  { unfold loanOf; cbn [l_daily]. rewrite Ha, Hd. simpl.
    destruct (Z.eqb_spec d 0); [lia | reflexivity]. }
  split; [apply saveLoan_activeLoans|].
  split; [reflexivity|].
  split; [exact Ha|].
  split; [exact Hd|].
  split; [exact Hdaily|].
  intros -> Hnum Hnonneg.
  exists (Z.max 0 (unclamped r now s)).
  split; [apply recalculateDashboard_closed; exact Hnum|].
  intros Hle.
  rewrite recalculateDashboard_saveLoan.
  assert (Htype : isBorrow (loanOf "borrow" person amount duration t) = true)
    by reflexivity.
  remember (loanOf "borrow" person amount duration t) as loan eqn:Eloan.
  set (s' := set_activeLoans (activeLoans s ++ [loan]) s).
  assert (Hnum' : numericLedger s' = true).
  { unfold numericLedger in *. subst s'. st.
    rewrite forallb_snoc. cbv beta. rewrite Hdaily.
    rewrite !andb_true_iff in *. tauto. }
  rewrite (recalculateDashboard_closed r now s' Hnum').
  assert (Hun : unclamped r now s' = unclamped r now s - a / d).
  { unfold unclamped. subst s'. st.
    rewrite List.filter_app, sumZ_app. cbn [List.filter].
    rewrite Htype. cbn [sumZ foldr]. rewrite Hdaily. cbn [amountZ]. lia. }
  rewrite Hun.
  assert (0 <= a / d) by (apply Z.div_pos; lia).
  f_equal; lia.
Qed.

Lemma C5_borrow_loan_daily_amount_witness :
  parseInt "10000" = Int 10000
  /\ parseInt "50" = Int 50
  /\ 1 <= 50
  /\ numericLedger (scenarioLedger Rev3) = true
  /\ 0 <= 10000
  /\ exists loan v,
       activeLoans (saveLoan Rev3 "borrow" "Asha" "10000" "50" now0 (scenarioLedger Rev3))
       = activeLoans (scenarioLedger Rev3) ++ [loan]
       /\ l_daily loan = Int (10000 / 50)
       /\ recalculateDashboard Rev3 now0 (scenarioLedger Rev3) = Int v
       /\ 10000 / 50 <= v
       /\ recalculateDashboard Rev3 now0
            (saveLoan Rev3 "borrow" "Asha" "10000" "50" now0 (scenarioLedger Rev3))
          = Int (v - 10000 / 50).
Proof.
  assert (Hnum : numericLedger (scenarioLedger Rev3) = true) by reflexivity.
  assert (Hnn : 0 <= 10000) by lia.
  split; [reflexivity|]. split; [reflexivity|]. split; [lia|].
  split; [exact Hnum|]. split; [exact Hnn|].
  destruct (C5_borrow_loan_daily_amount Rev3 now0 now0 (scenarioLedger Rev3)
              "borrow" "Asha" "10000" "50" 10000 50 eq_refl eq_refl ltac:(lia))
    as (loan & Hloans & _ & _ & _ & Hdaily & Hdrop).
  destruct (Hdrop eq_refl Hnum Hnn) as (v & Hv & Hafter).
  assert (Hle : 10000 / 50 <= v).
  { assert (E : Int v = Int 466) by (rewrite <- Hv; vm_compute; reflexivity).
    injection E as ->. vm_compute. discriminate. }
  exists loan, v. repeat split; try assumption. exact (Hafter Hle).
Defined.

(** The scenario of the specification: the loan stores 200 and the figure
    goes from 466 to 266. *)
Example scenario_borrow_10000_over_50 :
  l_daily (loanOf "borrow" "Asha" "10000" "50" now0) = Int 200
  /\ recalculateDashboard Rev3 now0 (scenarioLedger Rev3) = Int 466
  /\ recalculateDashboard Rev3 now0
       (saveLoan Rev3 "borrow" "Asha" "10000" "50" now0 (scenarioLedger Rev3))
     = Int 266.
Proof. vm_compute. repeat split. Qed.

(** ** Goals *)

Lemma ceil_div_int (a k : Z) : k <> 0 -> ceil_div (Int a) (Int k) = Int (ceilZ a k).
Proof.
  intros Hk. unfold ceil_div, ceilZ. simpl.
  destruct (Z.eqb_spec k 0); [contradiction | reflexivity].
Qed.

Lemma ceilZ_mul_ge (a k : Z) : 0 < k -> a <= ceilZ a k * k.
Proof.
  intros Hk. unfold ceilZ.
  pose proof (Z.mul_div_le (- a) k Hk). lia.
Qed.

Lemma saveGoal_activeGoals r name amount date now s :
  nonempty name = true -> nonempty amount = true -> nonempty date = true ->
  activeGoals (saveGoal r name amount date now s)
  = activeGoals s ++ [goalOf name amount date now].
Proof.
  intros Hn Ha Hd. unfold saveGoal. rewrite Hn, Ha, Hd.
  cbn [negb orb]. autorewrite with frame. reflexivity.
Qed.

(** Whatever the deadline, the stored days remaining are the distance to
    the deadline in days, rounded up and at least 1, the daily contribution
    is the ceiling of the target over them, and the two multiply to at least
    the target. *)
Lemma goalOf_ceiling name amount date now (a td : Z) :
  parseInt amount = Int a ->
  Date.parse date = Int td ->
  let k := Z.max (ceilZ (Z.abs (td - now)) Date.msPerDay) 1 in
  g_daysLeft (goalOf name amount date now) = Int k
  /\ g_daily (goalOf name amount date now) = Int (ceilZ a k)
  /\ a <= ceilZ a k * k.
Proof.
  intros Ha Hdate k.
  assert (Hk : num_or (ceil_div (JS.abs (JS.sub (Date.parse date) (Int now)))
                         (Int Date.msPerDay)) (Int 1) = Int k).
  { rewrite Hdate. cbn [JS.sub JS.neg JS.add JS.abs].
    replace (td + - now) with (td - now) by lia.
    rewrite ceil_div_int by discriminate.
    assert (0 <= ceilZ (Z.abs (td - now)) Date.msPerDay).
    { pose proof (ceilZ_mul_ge (Z.abs (td - now)) Date.msPerDay eq_refl) as H.
      unfold Date.msPerDay in *. lia. }
    unfold num_or, truthy, k.
    destruct (Z.eqb_spec (ceilZ (Z.abs (td - now)) Date.msPerDay) 0) as [->|];
      cbn [negb]; f_equal; lia. }
  assert (0 < k) by (unfold k; lia).
  unfold goalOf; cbn [g_daysLeft g_daily]. rewrite Hk, Ha.
  split; [reflexivity|]. split; [apply ceil_div_int; lia|].
  apply ceilZ_mul_ge; assumption.
Qed.

(** Every handler leaves the stored goals as they are: a goal present
    afterwards was present before, unless it is the one [saveGoal] has just
    built. *)
Lemma step_goals_immutable r now (a : Action) s (g : Goal) :
  In g (activeGoals (step r now a s)) ->
  In g (activeGoals s)
  \/ exists name amount date, a = SaveGoal name amount date
                              /\ g = goalOf name amount date now.
Proof.
  destruct a; cbn [step];
    unfold saveProfile, randomizeAvatar, removeGoal, handleAddMember,
      switchGroup, sendSquadChat, submitSplit, saveTransaction,
      applyDateFilter, addFixedExpense, removeFixedExpense,
      saveBudgetSettings, saveLoan, toggleGroupCreator, createNewGroup,
      sendChat, pushMessage;
    try (repeat case_match; autorewrite with frame; st;
         first [ tauto
               | intros Hg; apply List.filter_In in Hg; tauto ]).
  unfold saveGoal. case_match; autorewrite with frame; st; [tauto|].
  intros Hg. apply in_app_or in Hg as [Hg|[<-|[]]]; [tauto|].
  right. exists name, amount, date. split; reflexivity.
Qed.

(** ... and a stored goal stays, field for field, until [removeGoal] is
    called with its id. *)
Lemma step_goal_persists r now (a : Action) s (g : Goal) :
  In g (activeGoals s) ->
  a <> RemoveGoal (g_id g) ->
  In g (activeGoals (step r now a s)).
Proof.
  intros Hin Hne.
  destruct a; cbn [step];
    unfold saveProfile, randomizeAvatar, saveGoal, handleAddMember,
      switchGroup, sendSquadChat, submitSplit, saveTransaction,
      applyDateFilter, addFixedExpense, removeFixedExpense,
      saveBudgetSettings, saveLoan, toggleGroupCreator, createNewGroup,
      sendChat, pushMessage;
    try (repeat case_match; autorewrite with frame; st;
         first [ assumption | apply in_or_app; left; assumption ]).
  unfold removeGoal. autorewrite with frame. st.
  apply List.filter_In. split; [assumption|].
  destruct (Z.eqb_spec (g_id g) id) as [E|E]; [|reflexivity].
  exfalso. apply Hne. rewrite E. reflexivity.
Qed.

(** The distance in days and the signed count of the specification give
    the same divisor unless the deadline lies more than a day in the
    past. *)
Lemma distance_is_daysUntil (now td : Z) :
  - Date.msPerDay <= td - now ->
  Z.max (ceilZ (Z.abs (td - now)) Date.msPerDay) 1 = Z.max (daysUntil now td) 1.
Proof.
  intros H. unfold daysUntil.
  destruct (Z_le_gt_dec 0 (td - now)) as [Hpos|Hneg].
  - rewrite Z.abs_eq by exact Hpos. reflexivity.
  - rewrite Z.abs_neq by lia. unfold ceilZ, Date.msPerDay in *.
    rewrite Z.opp_involutive.
    assert (E1 : (td - now) / (1000 * 60 * 60 * 24) = -1).
    { symmetry. apply (Z.div_unique _ _ _ (td - now + 1000 * 60 * 60 * 24)); lia. }
    assert (E2 : 0 <= (- (td - now)) / (1000 * 60 * 60 * 24) <= 1).
    { split; [apply Z.div_pos; lia|].
      apply Z.div_le_upper_bound; lia. }
    rewrite E1. lia.
Qed.

(** C6 (amended).  A goal created by [saveGoal] stores, as days remaining,
    the distance between now and the deadline in days, rounded up and at
    least 1, whether the deadline lies ahead or in the past, and as daily
    contribution the ceiling of the target over these days, so that daily
    contribution times days remaining covers the target.  The days are
    max(daysUntil(deadline), 1) unless the deadline lies more than a day in
    the past.  The stored record survives every handler unchanged, short of
    its removal. *)
Theorem C6_goal_daily_contribution r s name amount date now (a td : Z) :
  nonempty name = true ->
  parseInt amount = Int a ->
  Date.parse date = Int td ->
  exists goal k,
    activeGoals (saveGoal r name amount date now s) = activeGoals s ++ [goal]
    /\ g_amount goal = Int a
    /\ k = Z.max (ceilZ (Z.abs (td - now)) Date.msPerDay) 1
    /\ 1 <= k
    /\ g_daysLeft goal = Int k
    /\ g_daily goal = Int (ceilZ a k)
    /\ a <= ceilZ a k * k
    /\ (- Date.msPerDay <= td - now -> k = Z.max (daysUntil now td) 1)
    /\ (forall now' act,
          act <> RemoveGoal (g_id goal) ->
          In goal (activeGoals (step r now' act (saveGoal r name amount date now s)))).
Proof.
  intros Hname Ha Hdate.
  assert (Hamt : nonempty amount = true).
  { destruct amount; [discriminate Ha | reflexivity]. }
  assert (Hdt : nonempty date = true).
  { destruct date; [discriminate Hdate | reflexivity]. }
  destruct (goalOf_ceiling name amount date now a td Ha Hdate) as (Hk & Hdaily & Hge).
  exists (goalOf name amount date now),
         (Z.max (ceilZ (Z.abs (td - now)) Date.msPerDay) 1).
  split; [apply saveGoal_activeGoals; assumption|].
  split; [unfold goalOf; cbn [g_amount]; exact Ha|].
  split; [reflexivity|]. split; [lia|].
  split; [exact Hk|]. split; [exact Hdaily|]. split; [exact Hge|].
  split; [apply distance_is_daysUntil|].
  intros now' act Hact. apply step_goal_persists; [|exact Hact].
  rewrite saveGoal_activeGoals by assumption.
  apply in_or_app. right. left. reflexivity.
Qed.

Lemma C6_goal_daily_contribution_witness :
  exists goal k,
    activeGoals (saveGoal Rev3 "Laptop" "1000" "2026-10-23" now0 (scenarioLedger Rev3))
    = activeGoals (scenarioLedger Rev3) ++ [goal]
    /\ g_amount goal = Int 1000
    /\ k = Z.max (ceilZ (Z.abs (1792713600000 - now0)) Date.msPerDay) 1
    /\ 1 <= k
    /\ g_daysLeft goal = Int k
    /\ g_daily goal = Int (ceilZ 1000 k)
    /\ 1000 <= ceilZ 1000 k * k
    /\ (- Date.msPerDay <= 1792713600000 - now0 ->
        k = Z.max (daysUntil now0 1792713600000) 1)
    /\ (forall now' act,
          act <> RemoveGoal (g_id goal) ->
          In goal
            (activeGoals
               (step Rev3 now' act
                  (saveGoal Rev3 "Laptop" "1000" "2026-10-23" now0
                     (scenarioLedger Rev3))))).
Proof.
  assert (H1 : nonempty "Laptop" = true) by reflexivity.
  assert (H2 : parseInt "1000" = Int 1000) by reflexivity.
  assert (H3 : Date.parse "2026-10-23" = Int 1792713600000)
    by (vm_compute; reflexivity).
  exact (C6_goal_daily_contribution Rev3 (scenarioLedger Rev3)
           "Laptop" "1000" "2026-10-23" now0 1000 1792713600000 H1 H2 H3).
Defined.

(** C6, as stated, fails for a deadline that has passed: ten and a half
    days after the deadline the goal is stored with 11 days remaining,
    which is at least 1, and 91 a day, where
    ceil(target / max(daysUntil(deadline), 1)) is 1000. *)
Lemma C6_past_deadline_divides_by_distance :
  exists goal,
    activeGoals (saveGoal Rev2 "Laptop" "1000" "2026-10-23" now0
                   (sessionStart Rev2 ∅ "u1" now0)) = [goal]
    /\ Date.parse "2026-10-23" = Int 1792713600000
    /\ g_amount goal = Int 1000
    /\ g_daysLeft goal = Int 11
    /\ g_daily goal = Int 91
    /\ daysUntil now0 1792713600000 = -10
    /\ ceilZ 1000 (Z.max (daysUntil now0 1792713600000) 1) = 1000
    /\ g_daily goal <> Int (ceilZ 1000 (Z.max (daysUntil now0 1792713600000) 1)).
Proof.
  eexists. split; [vm_compute; reflexivity|].
  cbn [g_amount g_daysLeft g_daily].
  repeat split; try (vm_compute; reflexivity). vm_compute. discriminate.
Qed.

(** Ten days ahead of the deadline a target of 1000 is saved at 100 a day. *)
Example goal_1000_in_ten_days :
  (g_daily (goalOf "Laptop" "1000" "2026-11-12" now0),
   g_daysLeft (goalOf "Laptop" "1000" "2026-11-12" now0)) = (Int 100, Int 10).
Proof. vm_compute. reflexivity. Qed.

(** For a deadline that has passed the script takes the distance in days,
    where the signed count would clamp the divisor to 1. *)
Example goal_with_past_deadline :
  (g_daily (goalOf "Laptop" "1000" "2026-10-23" now0),
   g_daysLeft (goalOf "Laptop" "1000" "2026-10-23" now0)) = (Int 91, Int 11)
  /\ daysUntil now0 1792713600000 = -10.
Proof. vm_compute. split; reflexivity. Qed.

(** ** Sentiment rollup *)

Lemma num_or_int_zero (z : Z) : num_or (Int z) (Int 0) = Int z.
Proof.
  unfold num_or, truthy. destruct (Z.eqb_spec z 0) as [->|]; reflexivity.
Qed.

Lemma addSentiment_int (t : Transaction) (w r i z : Z) :
  tx_amount t = Int z ->
  exists w' r' i',
    addSentiment (mkSentiments (Int w) (Int r) (Int i)) t
    = mkSentiments (Int w') (Int r') (Int i')
    /\ w' + r' + i' = w + r + i + z.
Proof.
  intros E. unfold addSentiment. rewrite E, num_or_int_zero.
  cbn [worthy regret ignore JS.add].
  destruct (String.eqb (tx_sentiment t) "worthy");
    [|destruct (String.eqb (tx_sentiment t) "regret")];
    eexists _, _, _; (split; [reflexivity | lia]).
Qed.

Lemma fold_addSentiment (l : list Transaction) (w r i : Z) :
  integerAmounts l = true ->
  exists w' r' i',
    fold_left addSentiment l (mkSentiments (Int w) (Int r) (Int i))
    = mkSentiments (Int w') (Int r') (Int i')
    /\ w' + r' + i' = w + r + i + sumZ (fun t => amountZ (tx_amount t)) l.
Proof.
  revert w r i; induction l as [|t l IH]; intros w r i H.
  - exists w, r, i. simpl. split; [reflexivity | lia].
  - unfold integerAmounts in H. simpl in H.
    apply andb_true_iff in H as [Ht Hl].
    destruct (tx_amount t) as [z| | |] eqn:E; try discriminate.
    destruct (addSentiment_int t w r i z E) as (w1 & r1 & i1 & E1 & H1).
    destruct (IH w1 r1 i1 Hl) as (w' & r' & i' & E' & H').
    exists w', r', i'. cbn [fold_left]. rewrite E1, E'.
    split; [reflexivity|]. cbn [sumZ foldr]. rewrite E. cbn [amountZ].
    unfold sumZ in H'. lia.
Qed.

Lemma inWindow_spec (filter : string) (now ts : Z) (t : Transaction) :
  tx_timestamp t = Int ts -> ts <> 0 ->
  inWindow filter now t
  = if String.eqb filter "day" then now - ts <? oneDayMs
    else if String.eqb filter "week" then now - ts <? oneDayMs * 7
    else if String.eqb filter "month" then now - ts <? oneDayMs * 30
    else true.
Proof.
  intros E Hts. unfold inWindow. rewrite E.
  unfold num_or, truthy. destruct (Z.eqb_spec ts 0); [contradiction|].
  reflexivity.
Qed.

(** C7.  Whatever the time filter, the three sentiment totals add up to
    the sum of the amounts of the filtered transactions, and so does the
    displayed total.  The filtered transactions are those of the ledger that
    are in the window: less than 24h, 7 x 24h or 30 x 24h before now for day,
    week and month, and all of them for any other filter. *)
Theorem C7_sentiment_partition now s :
  integerAmounts (transactions s) = true ->
  (exists w r i,
     (updateSentimentAnalysis now s).1 = mkSentiments (Int w) (Int r) (Int i)
     /\ w + r + i
        = sumZ (fun t => amountZ (tx_amount t)) (getFilteredTransactions now s)
     /\ (updateSentimentAnalysis now s).2
        = Int (sumZ (fun t => amountZ (tx_amount t)) (getFilteredTransactions now s)))
  /\ (forall t, In t (getFilteredTransactions now s)
                <-> In t (transactions s) /\ inWindow (currentFilter s) now t = true)
  /\ (forall t ts, tx_timestamp t = Int ts -> ts <> 0 ->
        (inWindow "day" now t = true <-> now - ts < 24 * 60 * 60 * 1000)
        /\ (inWindow "week" now t = true <-> now - ts < 7 * (24 * 60 * 60 * 1000))
        /\ (inWindow "month" now t = true <-> now - ts < 30 * (24 * 60 * 60 * 1000))
        /\ inWindow "all" now t = true).
Proof.
  intros Hint. split; [|split].
  - assert (Hf : integerAmounts (getFilteredTransactions now s) = true)
      by (apply forallb_filter; exact Hint).
    destruct (fold_addSentiment _ 0 0 0 Hf) as (w & r & i & E & Hsum).
    exists w, r, i. unfold updateSentimentAnalysis. cbn [fst snd].
    rewrite E. cbn [worthy regret ignore JS.add].
    split; [reflexivity|]. split; [lia|]. f_equal; lia.
  - intros t. unfold getFilteredTransactions. apply List.filter_In.
  - intros t ts E Hts.
    rewrite !(inWindow_spec _ now ts t E Hts).
    change (String.eqb "day" "day") with true.
    change (String.eqb "week" "day") with false.
    change (String.eqb "week" "week") with true.
    change (String.eqb "month" "day") with false.
    change (String.eqb "month" "week") with false.
    change (String.eqb "month" "month") with true.
    change (String.eqb "all" "day") with false.
    change (String.eqb "all" "week") with false.
    change (String.eqb "all" "month") with false.
    cbv iota. unfold oneDayMs. rewrite !Z.ltb_lt.
    repeat split; intros; lia.
Qed.

Lemma C7_sentiment_partition_witness :
  integerAmounts (transactions (sessionStart Rev2 returningUser "u1" now0)) = true
  /\ exists w r i,
       (updateSentimentAnalysis now0 (sessionStart Rev2 returningUser "u1" now0)).1
       = mkSentiments (Int w) (Int r) (Int i)
       /\ w + r + i
          = sumZ (fun t => amountZ (tx_amount t))
              (getFilteredTransactions now0 (sessionStart Rev2 returningUser "u1" now0)).
Proof.
  split; [vm_compute; reflexivity|].
  destruct (C7_sentiment_partition now0 (sessionStart Rev2 returningUser "u1" now0))
    as [(w & r & i & E & Hsum & _) _]; [vm_compute; reflexivity|].
  exists w, r, i. split; [exact E | exact Hsum].
Defined.

(** ** Heatmap *)

Lemma heatTier_int (z : Z) :
  heatTier (Int z)
  = if 2000 <=? z then TierHigh
    else if 500 <=? z then TierMid
    else if 0 <? z then TierLow
    else TierNone.
Proof.
  unfold heatTier, gtb, geb, ltb.
  destruct (Z.leb_spec 2000 z), (Z.leb_spec 500 z), (Z.ltb_spec 0 z),
    (Z.ltb_spec z 2000), (Z.ltb_spec z 500); simpl; try reflexivity; lia.
Qed.

Lemma heatTier_monotone (z1 z2 : Z) :
  z1 <= z2 -> tierRank (heatTier (Int z1)) <= tierRank (heatTier (Int z2)).
Proof.
  intros H. rewrite !heatTier_int.
  destruct (Z.leb_spec 2000 z1), (Z.leb_spec 500 z1), (Z.ltb_spec 0 z1),
    (Z.leb_spec 2000 z2), (Z.leb_spec 500 z2), (Z.ltb_spec 0 z2);
    simpl; lia.
Qed.

Lemma spendingAt_insert_eq (m : gmap Z num) (k z : Z) :
  spendingAt (<[k := Int z]> m) k = Int z.
Proof. unfold spendingAt. rewrite lookup_insert_eq. apply num_or_int_zero. Qed.

Lemma spendingAt_insert_ne (m : gmap Z num) (k i : Z) (v : num) :
  k <> i -> spendingAt (<[k := v]> m) i = spendingAt m i.
Proof. intros H. unfold spendingAt. rewrite lookup_insert_ne by exact H. reflexivity. Qed.

Lemma num_or_truthy (a b : num) : truthy a = true -> num_or a b = a.
Proof. intros H. unfold num_or. rewrite H. reflexivity. Qed.

(** One round of the [forEach]: the entry of day [i] grows by the amount of
    the transaction when the transaction is dated that day, and is left
    alone otherwise. *)
Lemma addSpending_at now (m : gmap Z num) (t : Transaction) (i z a : Z) :
  truthy (tx_timestamp t) = true ->
  tx_amount t = Int a ->
  spendingAt m i = Int z ->
  spendingAt (addSpending now m t) i
  = Int (z + (if onDayOfMonth now i t then a else 0)).
Proof.
  intros Hts Ea Hm. unfold addSpending, onDayOfMonth.
  rewrite (num_or_truthy _ _ Hts), Ea, num_or_int_zero.
  destruct (tx_timestamp t) as [ts| | |]; try (rewrite Hm; f_equal; lia).
  destruct (Z.eqb_spec (Date.getMonth ts) (Date.getMonth now)) as [Em|Em];
    destruct (Z.eqb_spec (Date.getFullYear ts) (Date.getFullYear now)) as [Ey|Ey];
    cbn [andb]; try (rewrite Hm; f_equal; lia).
  destruct (Z.eqb_spec (Date.getDate ts) i) as [Ed|Ed].
  - subst i. rewrite Hm. cbn [JS.add]. apply spendingAt_insert_eq.
  - rewrite spendingAt_insert_ne by exact Ed. rewrite Hm. f_equal; lia.
Qed.

(** The map the [forEach] builds holds, for each day of the current month,
    the sum of the amounts of that day's transactions. *)
Lemma spendingMap_fold now (txs : list Transaction) :
  validTransactions txs = true ->
  forall (m : gmap Z num) (i z : Z),
    spendingAt m i = Int z ->
    spendingAt (fold_left (addSpending now) txs m) i
    = Int (z + spec_spend now i txs).
Proof.
  induction txs as [|t txs IH]; intros Hv m i z Hm.
  - simpl. rewrite Hm. f_equal. unfold spec_spend. simpl. lia.
  - unfold validTransactions in Hv. simpl in Hv.
    apply andb_true_iff in Hv as [Ht Hv].
    apply andb_true_iff in Ht as [Ht _].
    apply andb_true_iff in Ht as [Hts Hamt].
    destruct (tx_amount t) as [a| | |] eqn:Ea; try discriminate.
    cbn [fold_left].
    rewrite (IH Hv _ i _ (addSpending_at now m t i z a Hts Ea Hm)).
    f_equal. unfold spec_spend. cbn [List.filter].
    destruct (onDayOfMonth now i t); cbn [sumZ foldr]; [rewrite Ea; cbn [amountZ]|];
      unfold sumZ; lia.
Qed.

Lemma spendingMap_spec now (txs : list Transaction) (i : Z) :
  validTransactions txs = true ->
  spendingAt (spendingMap now txs) i = Int (spec_spend now i txs).
Proof.
  intros Hv. unfold spendingMap.
  rewrite (spendingMap_fold now txs Hv ∅ i 0); [f_equal; lia|].
  unfold spendingAt. rewrite lookup_empty. reflexivity.
Qed.

Lemma spec_spend_nonneg now (txs : list Transaction) (i : Z) :
  validTransactions txs = true -> 0 <= spec_spend now i txs.
Proof.
  intros Hv. unfold spec_spend. apply sumZ_nonneg.
  intros t Ht. apply List.filter_In in Ht as [Ht _].
  unfold validTransactions in Hv. rewrite forallb_forall in Hv.
  specialize (Hv t Ht). rewrite !andb_true_iff in Hv.
  destruct Hv as [_ Hv]. apply Z.leb_le. exact Hv.
Qed.

Lemma renderHeatmap_cells now s (c : Cell) :
  In c (renderHeatmap now s)
  <-> exists i,
        1 <= i <= Date.daysInMonth (Date.getFullYear now) (Date.getMonth now)
        /\ c = mkCell i (spendingAt (spendingMap now (transactions s)) i)
                 (heatTier (spendingAt (spendingMap now (transactions s)) i)).
Proof.
  unfold renderHeatmap. rewrite <- list_elem_of_In, list_elem_of_fmap.
  split.
  - intros (i & -> & Hi). apply elem_of_seqZ in Hi. exists i. split; [lia | reflexivity].
  - intros (i & Hi & ->). exists i. split; [reflexivity|]. apply elem_of_seqZ. lia.
Qed.

(** C8.  [renderHeatmap] produces one cell for each day of the current
    month; its amount is that day's spend total and its tier is none exactly
    when the spend is 0, low for 0 < spend < 500, mid for 500 <= spend < 2000
    and high for spend >= 2000; between any two cells a larger spend never
    has a lower tier. *)
Theorem C8_heatmap_tiers now s :
  validTransactions (transactions s) = true ->
  (forall d,
     1 <= d <= Date.daysInMonth (Date.getFullYear now) (Date.getMonth now) ->
     exists c, In c (renderHeatmap now s) /\ c_day c = d)
  /\ (forall c,
        In c (renderHeatmap now s) ->
        let spend := spec_spend now (c_day c) (transactions s) in
        1 <= c_day c <= Date.daysInMonth (Date.getFullYear now) (Date.getMonth now)
        /\ c_amount c = Int spend
        /\ (c_tier c = TierNone <-> spend = 0)
        /\ (c_tier c = TierLow <-> 0 < spend < 500)
        /\ (c_tier c = TierMid <-> 500 <= spend < 2000)
        /\ (c_tier c = TierHigh <-> 2000 <= spend))
  /\ (forall c1 c2,
        In c1 (renderHeatmap now s) -> In c2 (renderHeatmap now s) ->
        spec_spend now (c_day c1) (transactions s)
        <= spec_spend now (c_day c2) (transactions s) ->
        tierRank (c_tier c1) <= tierRank (c_tier c2)).
Proof.
  intros Hv. split; [|split].
  - intros d Hd. eexists. split.
    + apply renderHeatmap_cells. exists d. split; [exact Hd | reflexivity].
    + reflexivity.
  - intros c Hc. apply renderHeatmap_cells in Hc as (i & Hi & ->).
    cbn [c_day c_amount c_tier]. cbv zeta.
    rewrite (spendingMap_spec now _ i Hv).
    pose proof (spec_spend_nonneg now (transactions s) i Hv) as Hnn.
    split; [exact Hi|]. split; [reflexivity|].
    rewrite heatTier_int.
    destruct (Z.leb_spec 2000 (spec_spend now i (transactions s))),
      (Z.leb_spec 500 (spec_spend now i (transactions s))),
      (Z.ltb_spec 0 (spec_spend now i (transactions s)));
      repeat split; intros; try discriminate; try lia; try reflexivity.
  - intros c1 c2 H1 H2.
    apply renderHeatmap_cells in H1 as (i1 & _ & ->).
    apply renderHeatmap_cells in H2 as (i2 & _ & ->).
    cbn [c_day c_tier]. rewrite !(spendingMap_spec now _ _ Hv).
    apply heatTier_monotone.
Qed.

Lemma C8_heatmap_tiers_witness :
  validTransactions (transactions (sessionStart Rev2 returningUser "u1" now0)) = true
  /\ forall c1 c2,
       In c1 (renderHeatmap now0 (sessionStart Rev2 returningUser "u1" now0)) ->
       In c2 (renderHeatmap now0 (sessionStart Rev2 returningUser "u1" now0)) ->
       spec_spend now0 (c_day c1) (transactions (sessionStart Rev2 returningUser "u1" now0))
       <= spec_spend now0 (c_day c2) (transactions (sessionStart Rev2 returningUser "u1" now0)) ->
       tierRank (c_tier c1) <= tierRank (c_tier c2).
Proof.
  split; [vm_compute; reflexivity|].
  apply (C8_heatmap_tiers now0 (sessionStart Rev2 returningUser "u1" now0)).
  vm_compute; reflexivity.
Defined.

(** A purchase of 600 today puts today's cell in the third tier; 2000 puts
    it in the highest. *)
Example heatmap_600_today :
  c_tier <$> renderHeatmap now0
               (saveTransaction Rev2 "Cafe" "600" "Food" "worthy" now0 (scenarioLedger Rev2))
         !! 1%nat
  = Some TierMid.
Proof. vm_compute. reflexivity. Qed.

Example heatTier_thresholds :
  (heatTier (Int 0), heatTier (Int 1), heatTier (Int 499), heatTier (Int 500),
   heatTier (Int 1999), heatTier (Int 2000))
  = (TierNone, TierLow, TierLow, TierMid, TierMid, TierHigh).
Proof. reflexivity. Qed.

(** ** Removal of fixed expenses and goals *)

Lemma splice1_past_end {A} (l : list A) (index : Z) :
  Z.of_nat (length l) <= index -> splice1 index l = l.
Proof.
  intros H. unfold splice1.
  destruct (Z.ltb_spec index 0); [lia|].
  rewrite Z.min_r by lia.
  replace (Z.min 1 (Z.of_nat (length l) - Z.of_nat (length l))) with 0 by lia.
  rewrite Z.add_0_r, Nat2Z.id.
  rewrite firstn_all, skipn_all. apply app_nil_r.
Qed.

Lemma splice1_in_range {A} (l1 l2 : list A) (x : A) :
  splice1 (Z.of_nat (length l1)) (l1 ++ x :: l2) = l1 ++ l2.
Proof.
  unfold splice1. rewrite length_app. cbn [length].
  destruct (Z.ltb_spec (Z.of_nat (length l1)) 0); [lia|].
  rewrite Z.min_l by lia.
  replace (Z.min 1 _) with 1 by lia.
  rewrite Nat2Z.id.
  replace (Z.to_nat (Z.of_nat (length l1) + 1)) with (S (length l1)) by lia.
  rewrite take_app_length.
  change (l1 ++ x :: l2) with (l1 ++ [x] ++ l2). rewrite app_assoc.
  rewrite drop_app_length'; [reflexivity|].
  rewrite length_app. simpl. lia.
Qed.

Lemma filter_all {A} (p : A -> bool) (l : list A) :
  (forall x, In x l -> p x = true) -> List.filter p l = l.
Proof.
  induction l as [|x l IH]; intros H; simpl; [reflexivity|].
  rewrite (H x (or_introl eq_refl)). f_equal. apply IH.
  intros y Hy. apply H. right. exact Hy.
Qed.

(** C9 (amended).  [removeFixedExpense] with an index at or past the end of
    the sequence, and [removeGoal] with an id that no stored goal has, leave
    the whole ledger as it was. *)
Theorem C9_remove_absent_is_noop r s (index id : Z) :
  Z.of_nat (length (fixedExpenses s)) <= index ->
  (forall g, In g (activeGoals s) -> g_id g <> id) ->
  ledgerOf (removeFixedExpense r index s) = ledgerOf s
  /\ ledgerOf (removeGoal r id s) = ledgerOf s.
Proof.
  intros Hindex Hid. split.
  - unfold removeFixedExpense. rewrite saveState_ledgerOf.
    unfold ledgerOf. st. rewrite splice1_past_end by exact Hindex. reflexivity.
  - unfold removeGoal. rewrite saveState_ledgerOf.
    unfold ledgerOf. st. rewrite filter_all; [reflexivity|].
    intros g Hg. specialize (Hid g Hg).
    destruct (Z.eqb_spec (g_id g) id); [contradiction | reflexivity].
Qed.

Lemma C9_remove_absent_is_noop_witness :
  Z.of_nat (length (fixedExpenses (scenarioLedger Rev2))) <= 2
  /\ (forall g, In g (activeGoals (scenarioLedger Rev2)) -> g_id g <> 42)
  /\ ledgerOf (removeFixedExpense Rev2 2 (scenarioLedger Rev2))
     = ledgerOf (scenarioLedger Rev2)
  /\ ledgerOf (removeGoal Rev2 42 (scenarioLedger Rev2))
     = ledgerOf (scenarioLedger Rev2).
Proof.
  assert (H1 : Z.of_nat (length (fixedExpenses (scenarioLedger Rev2))) <= 2)
    by (vm_compute; discriminate).
  assert (H2 : forall g, In g (activeGoals (scenarioLedger Rev2)) -> g_id g <> 42)
    by (intros g []).
  split; [exact H1|]. split; [exact H2|].
  exact (C9_remove_absent_is_noop Rev2 (scenarioLedger Rev2) 2 42 H1 H2).
Defined.

(** C9, as stated, fails: index -1 refers to no fixed expense of the
    two-element sequence, yet [splice] counts it from the end and the call
    removes the last expense. *)
Lemma C9_negative_index_removes_last :
  ~ (0 <= -1 < Z.of_nat (length (fixedExpenses (scenarioLedger Rev2))))
  /\ fixedExpenses (removeFixedExpense Rev2 (-1) (scenarioLedger Rev2))
     = [mkFixedExpense "Rent" (Int 15000)]
  /\ fixedExpenses (removeFixedExpense Rev2 (-1) (scenarioLedger Rev2))
     <> fixedExpenses (scenarioLedger Rev2).
Proof.
  split; [lia|].
  assert (E : fixedExpenses (removeFixedExpense Rev2 (-1) (scenarioLedger Rev2))
              = [mkFixedExpense "Rent" (Int 15000)]).
  { unfold removeFixedExpense. rewrite saveState_fixedExpenses. reflexivity. }
  split; [exact E|]. rewrite E. discriminate.
Qed.

(** An index below minus the length is clamped to 0 and removes the first
    expense. *)
Example splice_far_negative : splice1 (-7) [1; 2; 3] = [2; 3].
Proof. reflexivity. Qed.

(** In range the expense at the index is the one removed. *)
Example splice_in_range : splice1 1 [1; 2; 3] = [1; 3].
Proof. reflexivity. Qed.

(** ** What reaches the stored document *)

(** What [saveState] of [dashboard.js] puts in [window.userData]: the
    profile and the six collections; the [monthlyLimit] field is whatever
    the object already held. *)
Lemma committedDoc_fields s :
  d_transactions (committedDoc Rev2 s) = Some (transactions s)
  /\ d_fixedExpenses (committedDoc Rev2 s) = Some (fixedExpenses s)
  /\ d_goals (committedDoc Rev2 s) = Some (activeGoals s)
  /\ d_loans (committedDoc Rev2 s) = Some (activeLoans s)
  /\ d_chatGroups (committedDoc Rev2 s) = Some (chatStore s)
  /\ d_groupMembers (committedDoc Rev2 s) = Some (groupMembers s)
  /\ is_Some (d_name (committedDoc Rev2 s))
  /\ is_Some (d_phone (committedDoc Rev2 s))
  /\ is_Some (d_avatar (committedDoc Rev2 s))
  /\ d_monthlyLimit (committedDoc Rev2 s) = d_monthlyLimit (userData s).
Proof.
  unfold committedDoc, saveState, syncUserData. st.
  destruct (uid s); st; repeat case_match; st;
    cbn [d_transactions d_fixedExpenses d_goals d_loans d_chatGroups
         d_groupMembers d_name d_phone d_avatar d_monthlyLimit];
    repeat split; eauto.
Qed.

Lemma saveState_synced u c s : synced u c s -> synced u c (saveState Rev2 s).
Proof.
  intros (Hu & Hd & Hr). unfold synced, remoteLimit in *.
  unfold saveState, syncUserData. st. rewrite Hu. st.
  case_match; st; [|split; [exact Hu|]; split; [exact Hd | exact Hr]].
  split; [exact Hu|]. split; [exact Hd|].
  rewrite lookup_insert_eq. cbn [mbind option_bind setDoc_merge d_monthlyLimit].
  rewrite Hd. destruct c as [c|]; cbn [merge_field from_option]; [reflexivity|].
  destruct (users s !! u) as [d|]; cbn [mbind option_bind from_option id] in *;
    [exact Hr | reflexivity].
Qed.

(** A state that differs only in variables of the dashboard script is as
    synced as the one it comes from. *)
Lemma synced_same u c s s' :
  uid s' = uid s -> userData s' = userData s -> users s' = users s ->
  synced u c s -> synced u c s'.
Proof.
  intros E1 E2 E3 (Hu & Hd & Hr).
  unfold synced, remoteLimit in *. rewrite E1, E2, E3. auto.
Qed.

Ltac same_firebase H :=
  apply (synced_same _ _ _ _) with (4 := H); st; repeat case_match; reflexivity.

(** Every handler of [dashboard.js] keeps the session synced: it changes
    variables of the dashboard only and then, at most, calls [saveState]. *)
Lemma step_synced u c now (a : Action) s :
  synced u c s -> synced u c (step Rev2 now a s).
Proof.
  intros H.
  destruct a; cbn [step];
    unfold saveProfile, randomizeAvatar, saveGoal, removeGoal, handleAddMember,
      switchGroup, sendSquadChat, submitSplit, saveTransaction,
      applyDateFilter, addFixedExpense, removeFixedExpense,
      saveBudgetSettings, saveLoan, toggleGroupCreator, createNewGroup,
      sendChat, pushMessage;
    repeat case_match; try exact H; try apply saveState_synced;
    try same_firebase H.
  unfold retryFires. case_match; [exact H|].
  destruct H as (Hu & Hd & Hr). unfold synced, remoteLimit in *.
  unfold syncUserData. st. rewrite Hu. st.
  case_match; st; [|split; [exact Hu|]; split; [exact Hd | exact Hr]].
  split; [exact Hu|]. split; [exact Hd|].
  rewrite lookup_insert_eq. cbn [mbind option_bind setDoc_merge d_monthlyLimit].
  cbn [from_option]. rewrite Hd.
  destruct c as [c|]; cbn [merge_field from_option]; [reflexivity|].
  destruct (users s !! u) as [d|]; cbn [mbind option_bind from_option id] in *;
    [exact Hr | reflexivity].
Qed.

Lemma run_synced u c evs s : synced u c s -> synced u c (run Rev2 evs s).
Proof.
  revert s; induction evs as [|[now a] evs IH]; intros s H; [exact H|].
  cbn [run fold_left]. apply IH. apply step_synced. exact H.
Qed.

Lemma firestoreReady_synced u c s :
  synced u c s -> synced u c (firestoreReady Rev2 s).
Proof.
  intros H. unfold firestoreReady, initApp, ensureRoommates.
  same_firebase H.
Qed.

Lemma sessionStart_synced db u now :
  synced u (d_monthlyLimit (default (newUser now) (db !! u)))
    (sessionStart Rev2 db u now).
Proof.
  unfold sessionStart, onAuthStateChanged, loadUserDoc. st.
  destruct (db !! u) as [d|] eqn:E; st; cbn [from_option];
    apply firestoreReady_synced; unfold synced, remoteLimit; st.
  - rewrite E. auto.
  - rewrite lookup_insert_eq. auto.
Qed.

(** C10 (amended).  In [dashboard.js], [saveState] never assigns
    [monthlyLimit]: the document it commits is [window.userData] with the
    profile and the six collections overwritten, so its [monthlyLimit]
    field, when it has one, still holds the value read at hydration.
    Hence, throughout a session and whatever the handlers called,
    [saveBudgetSettings] included, the stored [monthlyLimit] stays what it
    was when the session started: 0 for an account created by
    [loadUserDoc]. *)
Theorem C10_monthlyLimit_never_updated db u now (evs : list (Z * Action)) :
  let s0 := sessionStart Rev2 db u now in
  let s := run Rev2 evs s0 in
  remoteLimit u s = remoteLimit u s0
  /\ d_monthlyLimit (userData s) = remoteLimit u s0
  /\ d_monthlyLimit (committedDoc Rev2 s) = remoteLimit u s0
  /\ remoteLimit u s0 = d_monthlyLimit (default (newUser now) (db !! u))
  /\ d_transactions (committedDoc Rev2 s) = Some (transactions s)
  /\ d_fixedExpenses (committedDoc Rev2 s) = Some (fixedExpenses s)
  /\ d_goals (committedDoc Rev2 s) = Some (activeGoals s)
  /\ d_loans (committedDoc Rev2 s) = Some (activeLoans s)
  /\ d_chatGroups (committedDoc Rev2 s) = Some (chatStore s)
  /\ d_groupMembers (committedDoc Rev2 s) = Some (groupMembers s).
Proof.
  intros s0 s.
  pose proof (sessionStart_synced db u now) as H0. fold s0 in H0.
  pose proof (run_synced u _ evs s0 H0) as H. fold s in H.
  destruct H0 as (_ & _ & Hr0). destruct H as (_ & Hd & Hr).
  destruct (committedDoc_fields s) as (F1 & F2 & F3 & F4 & F5 & F6 & _ & _ & _ & F7).
  rewrite Hr, Hr0, F7, Hd. repeat split; assumption.
Qed.

(** C10, as stated, fails: for an account just created, the document that
    [saveBudgetSettings] commits after setting the limit to 50000 does carry
    a [monthlyLimit] field, the 0 read at hydration, and that is what the
    stored document keeps. *)
Lemma C10_committed_doc_has_monthlyLimit :
  monthlyLimit (saveBudgetSettings Rev2 "50000" (sessionStart Rev2 ∅ "u1" now0))
  = Int 50000
  /\ d_monthlyLimit
       (userData (saveBudgetSettings Rev2 "50000" (sessionStart Rev2 ∅ "u1" now0)))
     = Some (Int 0)
  /\ d_monthlyLimit
       (userData (saveBudgetSettings Rev2 "50000" (sessionStart Rev2 ∅ "u1" now0)))
     <> None
  /\ remoteLimit "u1"
       (saveBudgetSettings Rev2 "50000" (sessionStart Rev2 ∅ "u1" now0))
     = Some (Int 0).
Proof. vm_compute. repeat split. discriminate. Qed.

(** The later revision does persist the limit. *)
Example annotated_copy_persists_limit :
  remoteLimit "u1" (saveBudgetSettings Rev3 "50000" (sessionStart Rev3 ∅ "u1" now0))
  = Some (Int 50000).
Proof. vm_compute. reflexivity. Qed.

(** ** Hydration of a first-time user *)

Lemma ensureRoommates_fresh s :
  chatStore s = ∅ -> groupMembers s = ∅ ->
  ensureRoommates s
  = set_groupMembers {["Roommates"%string := []]}
      (set_chatStore {["Roommates"%string := []]} s).
Proof.
  intros Hc Hg. unfold ensureRoommates.
  rewrite Hc, lookup_empty. st. rewrite Hg, lookup_empty.
  rewrite !insert_empty. reflexivity.
Qed.

Lemma ensureRoommates_present s :
  is_Some (chatStore s !! "Roommates"%string) ->
  is_Some (groupMembers s !! "Roommates"%string) ->
  ensureRoommates s = s.
Proof.
  intros [c Hc] [g Hg]. unfold ensureRoommates. rewrite Hc, Hg. reflexivity.
Qed.

Lemma ensureRoommates_has s :
  is_Some (chatStore (ensureRoommates s) !! "Roommates"%string)
  /\ is_Some (groupMembers (ensureRoommates s) !! "Roommates"%string).
Proof.
  unfold ensureRoommates.
  destruct (chatStore s !! "Roommates"%string) eqn:Ec; st;
    destruct (groupMembers s !! "Roommates"%string) eqn:Eg; st;
    rewrite ?Ec, ?Eg, ?lookup_insert_eq; eauto.
Qed.

Lemma ensureRoommates_idem s :
  ensureRoommates (ensureRoommates s) = ensureRoommates s.
Proof. apply ensureRoommates_present; apply ensureRoommates_has. Qed.

(** C2 (amended).  For a user who has no document, [loadUserDoc] writes
    exactly the default document, whose six collections are empty and whose
    monthly limit is 0; hydration from it leaves transactions, fixed
    expenses, goals and loans empty, and puts the default group Roommates,
    with no message and no member, in the chat groups and in the group
    members.  The later revision sets the in-memory monthly limit to 0. *)
Theorem C2_first_time_user_hydration r db u now :
  db !! u = None ->
  let s := sessionStart r db u now in
  users s = <[u := newUser now]> db
  /\ (d_transactions (newUser now) = Some []
      /\ d_fixedExpenses (newUser now) = Some []
      /\ d_goals (newUser now) = Some []
      /\ d_loans (newUser now) = Some []
      /\ d_chatGroups (newUser now) = Some ∅
      /\ d_groupMembers (newUser now) = Some ∅
      /\ d_monthlyLimit (newUser now) = Some (Int 0))
  /\ transactions s = []
  /\ fixedExpenses s = []
  /\ activeGoals s = []
  /\ activeLoans s = []
  /\ chatStore s = {["Roommates"%string := []]}
  /\ groupMembers s = {["Roommates"%string := []]}
  /\ monthlyLimit (sessionStart Rev3 db u now) = Int 0.
Proof.
  intros Hnew.
  assert (E : forall r', sessionStart r' db u now
    = set_groupMembers {["Roommates"%string := []]}
        (set_chatStore {["Roommates"%string := []]}
           (set_monthlyLimit (match r' with Rev2 => Int 30000 | Rev3 => Int 0 end)
              (set_userProfile (mkProfile "User" "" default_avatar "")
                 (set_userData (newUser now)
                    (set_users (<[u := newUser now]> db)
                       (set_uid (Some u) (initialState r' db)))))))).
  { intros r'. unfold sessionStart, onAuthStateChanged, loadUserDoc. st.
    rewrite Hnew. st. unfold firestoreReady, initApp. st.
    cbn [newUser d_name d_displayName d_phone d_avatar d_photoURL
         d_transactions d_fixedExpenses d_goals d_activeGoals d_loans
         d_activeLoans d_chatGroups d_groupMembers d_monthlyLimit
         from_option id str].
    rewrite ensureRoommates_idem.
    rewrite ensureRoommates_fresh by (destruct r'; reflexivity).
    destruct r'; reflexivity. }
  cbv zeta. rewrite !E. st. repeat split; reflexivity.
Qed.

Lemma C2_first_time_user_hydration_witness :
  (∅ : gmap string Doc) !! "u1"%string = None
  /\ users (sessionStart Rev2 ∅ "u1" now0) = <["u1"%string := newUser now0]> ∅
  /\ chatStore (sessionStart Rev2 ∅ "u1" now0) = {["Roommates"%string := []]}.
Proof.
  split; [apply lookup_empty|].
  pose proof (C2_first_time_user_hydration Rev2 ∅ "u1" now0 (lookup_empty _)) as H.
  cbv zeta in H. destruct H as (H1 & _ & _ & _ & _ & _ & H2 & _).
  split; [exact H1 | exact H2].
Defined.

(** C2, as stated, fails: after hydration of a first-time user the chat
    groups and the group members are not empty (they hold Roommates), and in
    [dashboard.js] the in-memory monthly limit is still the 30000 of its
    declaration. *)
Lemma C2_hydrated_ledger_not_empty :
  ~ hydratedEmpty (sessionStart Rev2 ∅ "u1" now0)
  /\ ~ hydratedEmpty (sessionStart Rev3 ∅ "u1" now0)
  /\ chatStore (sessionStart Rev2 ∅ "u1" now0) !! "Roommates"%string = Some []
  /\ groupMembers (sessionStart Rev2 ∅ "u1" now0) !! "Roommates"%string = Some []
  /\ monthlyLimit (sessionStart Rev2 ∅ "u1" now0) = Int 30000.
Proof.
  assert (H2 : chatStore (sessionStart Rev2 ∅ "u1" now0) !! "Roommates"%string = Some [])
    by (vm_compute; reflexivity).
  assert (H3 : chatStore (sessionStart Rev3 ∅ "u1" now0) !! "Roommates"%string = Some [])
    by (vm_compute; reflexivity).
  split; [|split; [|split; [exact H2|split]]].
  - intros (_ & _ & _ & _ & Hc & _). rewrite Hc, lookup_empty in H2. discriminate.
  - intros (_ & _ & _ & _ & Hc & _). rewrite Hc, lookup_empty in H3. discriminate.
  - vm_compute; reflexivity.
  - vm_compute; reflexivity.
Qed.

(** * Further properties of the dashboard script *)

(** ** Logged expenses and the session counter *)

Lemma saveTransaction_accepts r name amt category sentiment now s (a : Z) :
  nonempty name = true -> parseInt amt = Int a -> a <> 0 ->
  transactions (saveTransaction r name amt category sentiment now s)
  = mkTransaction "Today, Just now" (Int now) name category (Int a)
      (if String.eqb category "Food" then "ph-hamburger"
       else if String.eqb category "Transport" then "ph-taxi"
       else "ph-shopping-bag")
      "text-brand-light" "bg-brand-DEFAULT/20" sentiment
    :: transactions s
  /\ dailySpent (saveTransaction r name amt category sentiment now s)
     = JS.add (dailySpent s) (Int a).
Proof.
  intros Hn Ha Hz. unfold saveTransaction. rewrite Hn, Ha.
  unfold truthy. destruct (Z.eqb_spec a 0); [contradiction|].
  cbn [negb orb]. autorewrite with frame. st. split; reflexivity.
Qed.

Lemma saveTransaction_rejects r name amt category sentiment now s :
  nonempty name = false \/ truthy (parseInt amt) = false ->
  saveTransaction r name amt category sentiment now s
  = showToast (ToastText "Please enter valid expense details") s.
Proof.
  intros H. unfold saveTransaction.
  destruct H as [-> | ->]; [reflexivity|]. rewrite orb_true_r. reflexivity.
Qed.

Lemma addQuickExpense_cases name amt category now s :
  (transactions (addQuickExpense name amt category now s) = transactions s
   \/ (nonempty name = true
       /\ transactions (addQuickExpense name amt category now s)
          = {| tx_date := shortDate now; tx_timestamp := Int now;
               tx_merchant := name; tx_category := category;
               tx_amount := parseInt amt;
               tx_icon := ""; tx_color := ""; tx_bg := "";
               tx_sentiment := "neutral" |} :: transactions s)).
Proof.
  unfold addQuickExpense.
  destruct (nonempty name); [destruct (nonempty amt)|]; cbn [negb orb];
    [|left; reflexivity..].
  destruct (d_transactions (userData s)); [|left; reflexivity].
  right. split; [reflexivity|]. autorewrite with frame. st. reflexivity.
Qed.

(** What one handler adds to the transactions and to the counter. *)
Lemma step_logged r now (a : Action) s (d : Z) :
  dailySpent s = Int d ->
  exists logged,
    transactions (step r now a s) = logged ++ transactions s
    /\ dailySpent (step r now a s)
       = Int (d + amountsOf (List.filter viaSaveTransaction logged))
    /\ Forall (fun t => loggedBy r t /\ tx_timestamp t = Int now) logged
    /\ (length logged <= 1)%nat.
Proof.
  intros Hd.
  assert (Hnone : forall s',
    transactions s' = transactions s -> dailySpent s' = dailySpent s ->
    exists logged,
      transactions s' = logged ++ transactions s
      /\ dailySpent s'
         = Int (d + amountsOf (List.filter viaSaveTransaction logged))
      /\ Forall (fun t => loggedBy r t /\ tx_timestamp t = Int now) logged
      /\ (length logged <= 1)%nat).
  { intros s' E1 E2. exists []. rewrite E1, E2, Hd.
    cbn [List.filter app length]. unfold amountsOf, sumZ. cbn [foldr].
    split; [reflexivity|]. split; [f_equal; lia|]. split; [constructor | lia]. }
  destruct a; cbn [step];
    try (apply Hnone;
         unfold saveProfile, randomizeAvatar, saveGoal, removeGoal,
           handleAddMember, switchGroup, sendSquadChat, submitSplit,
           applyDateFilter, addFixedExpense, removeFixedExpense,
           saveBudgetSettings, saveLoan, toggleGroupCreator, createNewGroup,
           sendChat, pushMessage;
         repeat case_match; autorewrite with frame; st; reflexivity).
  - destruct (nonempty name) eqn:Hn;
      [destruct (truthy (parseInt amt)) eqn:Ht|].
    + destruct (parseInt amt) as [z| | |] eqn:Ez; try discriminate.
      * assert (Hz : z <> 0).
        { intros ->. discriminate Ht. }
        destruct (saveTransaction_accepts r name amt category sentiment now s z Hn Ez Hz)
          as [Etx Esp].
        eexists [_]. rewrite Etx, Esp, Hd.
        split; [reflexivity|].
        cbn [app JS.add List.filter length].
        change (viaSaveTransaction _) with true. cbv iota.
        unfold amountsOf, sumZ. cbn [foldr amountZ tx_amount].
        split; [f_equal; lia|].
        split; [|lia]. constructor; [|constructor].
        split; [|reflexivity]. unfold loggedBy.
        change (viaSaveTransaction _) with true. cbv iota.
        unfold loggedTransaction. cbn [tx_merchant tx_amount tx_timestamp].
        split; [exact Hn|]. split; eauto.
      * exfalso. unfold parseInt in Ez.
        repeat case_match; discriminate.
      * exfalso. unfold parseInt in Ez.
        repeat case_match; discriminate.
    + apply Hnone; rewrite saveTransaction_rejects by (right; exact Ht); reflexivity.
    + apply Hnone; rewrite saveTransaction_rejects by (left; exact Hn); reflexivity.
  - destruct r; [apply Hnone; reflexivity|].
    destruct (addQuickExpense_cases name amt category now s) as [E|[Hn E]].
    + apply Hnone; [exact E | apply addQuickExpense_dailySpent].
    + eexists [_]. rewrite E, addQuickExpense_dailySpent, Hd.
      split; [reflexivity|].
      cbn [List.filter length]. change (viaSaveTransaction _) with false. cbv iota.
      unfold amountsOf, sumZ. cbn [foldr].
      split; [f_equal; lia|].
      split; [|lia]. constructor; [|constructor].
      split; [|reflexivity]. unfold loggedBy.
      change (viaSaveTransaction _) with false. cbv iota.
      cbn [tx_sentiment tx_merchant]. auto.
Qed.



(** In the annotated copy a quick expense of 40 and an expense of 250 are
    both in the ledger, the later one first; the counter holds 250. *)
Example quick_expense_and_expense :
  let s := run Rev3 [(now0, AddQuickExpense "Tea" "40" "Food");
                     (now0 + 60000, SaveTransaction "Lunch" "250" "Food" "worthy")]
             (sessionStart Rev3 ∅ "u1" now0) in
  map tx_amount (transactions s) = [Int 250; Int 40]
  /\ dailySpent s = Int 250.
Proof. vm_compute. split; reflexivity. Qed.

(** X2.  On a numeric ledger an accepted expense of amount [a] moves the
    safe-spend figure from max(0, x) to max(0, x - a), [x] being the figure
    before the clamp.  Nothing asks [a] to be positive: a negative amount is
    accepted and raises the figure. *)
Theorem X2_expense_lowers_figure r now now' s name amt category sentiment (a : Z) :
  numericLedger s = true ->
  nonempty name = true ->
  parseInt amt = Int a ->
  a <> 0 ->
  recalculateDashboard r now' s = Int (Z.max 0 (unclamped r now' s))
  /\ recalculateDashboard r now'
       (saveTransaction r name amt category sentiment now s)
     = Int (Z.max 0 (unclamped r now' s - a)).
Proof.
  intros Hnum Hn Ha Hz.
  split; [apply recalculateDashboard_closed; exact Hnum|].
  destruct (saveTransaction_accepts r name amt category sentiment now s a Hn Ha Hz)
    as [Etx Esp].
  set (s' := saveTransaction r name amt category sentiment now s) in *.
  assert (Hsame : fixedExpenses s' = fixedExpenses s /\ activeLoans s' = activeLoans s
                  /\ activeGoals s' = activeGoals s /\ monthlyLimit s' = monthlyLimit s).
  { subst s'. unfold saveTransaction. rewrite Hn, Ha.
    unfold truthy. destruct (Z.eqb_spec a 0); [contradiction|].
    cbn [negb orb]. autorewrite with frame. st. repeat split. }
  destruct Hsame as (E1 & E2 & E3 & E4).
  unfold numericLedger in Hnum. rewrite !andb_true_iff in Hnum.
  destruct Hnum as [[[[Hlim Hsp] Hfix] Hloans] Hgoals].
  destruct (dailySpent s) as [d| | |] eqn:Ed; try discriminate.
  assert (Hnum' : numericLedger s' = true).
  { unfold numericLedger. rewrite E1, E2, E3, E4, Esp. cbn [JS.add is_int].
    rewrite Hlim, Hfix, Hloans, Hgoals. reflexivity. }
  rewrite (recalculateDashboard_closed r now' s' Hnum').
  unfold unclamped. rewrite E1, E2, E3, E4, Esp, Ed. cbn [JS.add amountZ].
  f_equal; lia.
Qed.

Lemma X2_expense_lowers_figure_witness :
  numericLedger (scenarioLedger Rev3) = true
  /\ nonempty "Cafe" = true
  /\ parseInt "100" = Int 100
  /\ 100 <> 0
  /\ recalculateDashboard Rev3 now0
       (saveTransaction Rev3 "Cafe" "100" "Food" "worthy" now0 (scenarioLedger Rev3))
     = Int (Z.max 0 (unclamped Rev3 now0 (scenarioLedger Rev3) - 100)).
Proof.
  assert (H1 : numericLedger (scenarioLedger Rev3) = true) by reflexivity.
  assert (H4 : 100 <> 0) by discriminate.
  split; [exact H1|]. split; [reflexivity|]. split; [reflexivity|].
  split; [exact H4|].
  apply (X2_expense_lowers_figure Rev3 now0 now0 (scenarioLedger Rev3)
           "Cafe" "100" "Food" "worthy" 100 H1 eq_refl eq_refl H4).
Defined.

Example expense_100_in_scenario :
  recalculateDashboard Rev3 now0
    (saveTransaction Rev3 "Cafe" "100" "Food" "worthy" now0 (scenarioLedger Rev3))
  = Int 366
  /\ recalculateDashboard Rev3 now0
       (saveTransaction Rev3 "Refund" "-100" "Food" "worthy" now0 (scenarioLedger Rev3))
     = Int 566.
Proof. vm_compute. split; reflexivity. Qed.

(** ** Goals and fixed expenses in the figure *)

Lemma saveGoal_accepts r name amount date now s :
  nonempty name = true -> nonempty amount = true -> nonempty date = true ->
  activeGoals (saveGoal r name amount date now s)
  = activeGoals s ++ [goalOf name amount date now]
  /\ fixedExpenses (saveGoal r name amount date now s) = fixedExpenses s
  /\ activeLoans (saveGoal r name amount date now s) = activeLoans s
  /\ monthlyLimit (saveGoal r name amount date now s) = monthlyLimit s
  /\ dailySpent (saveGoal r name amount date now s) = dailySpent s
  /\ transactions (saveGoal r name amount date now s) = transactions s.
Proof.
  intros Hn Ha Hd. unfold saveGoal. rewrite Hn, Ha, Hd.
  cbn [negb orb]. autorewrite with frame. st. repeat split.
Qed.

Lemma parseInt_nonempty (v : string) (a : Z) : parseInt v = Int a -> nonempty v = true.
Proof. destruct v; [discriminate | reflexivity]. Qed.

Lemma parseDate_nonempty (v : string) (td : Z) :
  Date.parse v = Int td -> nonempty v = true.
Proof. destruct v; [discriminate | reflexivity]. Qed.

(** X3.  On a numeric ledger a goal created by [saveGoal] takes its daily
    contribution, the ceiling of the target over the days to the deadline
    (their distance, at least 1), off the safe-spend figure: the figure goes
    from max(0, x) to max(0, x - daily). *)
Theorem X3_goal_lowers_figure r now now' s name amount date (a td : Z) :
  numericLedger s = true ->
  nonempty name = true ->
  parseInt amount = Int a ->
  Date.parse date = Int td ->
  recalculateDashboard r now' (saveGoal r name amount date now s)
  = Int (Z.max 0
           (unclamped r now' s
            - ceilZ a (Z.max (ceilZ (Z.abs (td - now)) Date.msPerDay) 1))).
Proof.
  intros Hnum Hn Ha Hd.
  destruct (saveGoal_accepts r name amount date now s Hn
              (parseInt_nonempty _ _ Ha) (parseDate_nonempty _ _ Hd))
    as (Eg & Ef & El & Em & Es & _).
  destruct (goalOf_ceiling name amount date now a td Ha Hd) as (_ & Hdaily & _).
  cbv zeta in Hdaily.
  set (s' := saveGoal r name amount date now s) in *.
  assert (Hnum' : numericLedger s' = true).
  { unfold numericLedger in *. rewrite Eg, Ef, El, Em, Es.
    rewrite forallb_snoc. cbv beta. rewrite Hdaily.
    rewrite !andb_true_iff in *. tauto. }
  rewrite (recalculateDashboard_closed r now' s' Hnum').
  unfold unclamped. rewrite Eg, Ef, El, Em, Es.
  rewrite sumZ_app. cbn [sumZ foldr]. rewrite Hdaily. cbn [amountZ].
  f_equal; lia.
Qed.

Lemma X3_goal_lowers_figure_witness :
  numericLedger (scenarioLedger Rev3) = true
  /\ nonempty "Laptop" = true
  /\ parseInt "1000" = Int 1000
  /\ Date.parse "2026-11-12" = Int 1794441600000
  /\ recalculateDashboard Rev3 now0
       (saveGoal Rev3 "Laptop" "1000" "2026-11-12" now0 (scenarioLedger Rev3))
     = Int (Z.max 0
              (unclamped Rev3 now0 (scenarioLedger Rev3)
               - ceilZ 1000
                   (Z.max (ceilZ (Z.abs (1794441600000 - now0)) Date.msPerDay) 1))).
Proof.
  assert (H1 : numericLedger (scenarioLedger Rev3) = true) by reflexivity.
  assert (H4 : Date.parse "2026-11-12" = Int 1794441600000)
    by (vm_compute; reflexivity).
  split; [exact H1|]. split; [reflexivity|]. split; [reflexivity|].
  split; [exact H4|].
  apply (X3_goal_lowers_figure Rev3 now0 now0 (scenarioLedger Rev3)
           "Laptop" "1000" "2026-11-12" 1000 1794441600000 H1 eq_refl eq_refl H4).
Defined.

Example goal_in_scenario :
  recalculateDashboard Rev3 now0
    (saveGoal Rev3 "Laptop" "1000" "2026-11-12" now0 (scenarioLedger Rev3))
  = Int 366.
Proof. vm_compute. reflexivity. Qed.

Lemma filter_none {A} (p : A -> bool) (l : list A) :
  (forall x, In x l -> p x = false) -> List.filter p l = [].
Proof.
  induction l as [|x l IH]; intros H; simpl; [reflexivity|].
  rewrite (H x (or_introl eq_refl)). apply IH.
  intros y Hy. apply H. right. exact Hy.
Qed.

Lemma recalculateDashboard_same_inputs r now s s' :
  monthlyLimit s' = monthlyLimit s -> fixedExpenses s' = fixedExpenses s ->
  activeLoans s' = activeLoans s -> activeGoals s' = activeGoals s ->
  dailySpent s' = dailySpent s ->
  recalculateDashboard r now s' = recalculateDashboard r now s.
Proof.
  intros E1 E2 E3 E4 E5. unfold recalculateDashboard.
  rewrite E1, E2, E3, E4, E5. reflexivity.
Qed.

(** X4.  [removeGoal] drops every goal that has the id, and only those;
    called with the id of a goal that [saveGoal] has just created, an id no
    other goal has, it restores the goals and the safe-spend figure. *)
Theorem X4_goal_add_remove r now now' s name amount date :
  nonempty name = true -> nonempty amount = true -> nonempty date = true ->
  (forall g, In g (activeGoals s) -> g_id g <> now) ->
  activeGoals (removeGoal r now (saveGoal r name amount date now s))
  = activeGoals s
  /\ recalculateDashboard r now' (removeGoal r now (saveGoal r name amount date now s))
     = recalculateDashboard r now' s
  /\ (forall id s1 g,
        In g (activeGoals (removeGoal r id s1))
        <-> In g (activeGoals s1) /\ g_id g <> id).
Proof.
  intros Hn Ha Hd Hfresh.
  destruct (saveGoal_accepts r name amount date now s Hn Ha Hd)
    as (Eg & Ef & El & Em & Es & _).
  assert (E : activeGoals (removeGoal r now (saveGoal r name amount date now s))
              = activeGoals s).
  { unfold removeGoal. autorewrite with frame. st. rewrite Eg.
    rewrite List.filter_app. cbn [List.filter goalOf g_id].
    rewrite Z.eqb_refl. cbn [negb]. rewrite app_nil_r.
    apply filter_all. intros g Hg. specialize (Hfresh g Hg).
    destruct (Z.eqb_spec (g_id g) now); [contradiction | reflexivity]. }
  split; [exact E|]. split.
  - apply recalculateDashboard_same_inputs; [| | |exact E|];
      unfold removeGoal; autorewrite with frame; st; assumption.
  - intros id s1 g. unfold removeGoal. autorewrite with frame. st.
    rewrite List.filter_In.
    destruct (Z.eqb_spec (g_id g) id); cbn [negb]; split; intros [H1 H2];
      split; try assumption; try reflexivity; try discriminate; contradiction.
Qed.

Lemma X4_goal_add_remove_witness :
  nonempty "Laptop" = true /\ nonempty "1000" = true /\ nonempty "2026-11-12" = true
  /\ (forall g, In g (activeGoals (scenarioLedger Rev3)) -> g_id g <> now0)
  /\ activeGoals
       (removeGoal Rev3 now0
          (saveGoal Rev3 "Laptop" "1000" "2026-11-12" now0 (scenarioLedger Rev3)))
     = activeGoals (scenarioLedger Rev3).
Proof.
  assert (H : forall g, In g (activeGoals (scenarioLedger Rev3)) -> g_id g <> now0)
    by (intros g []).
  split; [reflexivity|]. split; [reflexivity|]. split; [reflexivity|].
  split; [exact H|].
  apply (X4_goal_add_remove Rev3 now0 now0 (scenarioLedger Rev3)
           "Laptop" "1000" "2026-11-12" eq_refl eq_refl eq_refl H).
Defined.

(** Two goals created in the same millisecond share their id, and removing
    one removes both. *)
Example removeGoal_shared_id :
  activeGoals
    (removeGoal Rev2 now0
       (saveGoal Rev2 "Bike" "500" "2026-11-12" now0
          (saveGoal Rev2 "Laptop" "1000" "2026-11-12" now0 (scenarioLedger Rev2))))
  = [].
Proof. vm_compute. reflexivity. Qed.

Lemma splice1_at {A} (l1 l2 : list A) (x : A) (index : Z) :
  index = Z.of_nat (length l1) \/ index = - Z.of_nat (S (length l2)) ->
  splice1 index (l1 ++ x :: l2) = l1 ++ l2.
Proof.
  intros [-> | ->]; [apply splice1_in_range|].
  unfold splice1. rewrite length_app. cbn [length].
  destruct (Z.ltb_spec (- Z.of_nat (S (length l2))) 0); [|lia].
  replace (Z.max (Z.of_nat (length l1 + S (length l2)) + - Z.of_nat (S (length l2))) 0)
    with (Z.of_nat (length l1)) by lia.
  replace (Z.min 1 _) with 1 by lia.
  rewrite Nat2Z.id.
  replace (Z.to_nat (Z.of_nat (length l1) + 1)) with (S (length l1)) by lia.
  rewrite take_app_length.
  change (l1 ++ x :: l2) with (l1 ++ [x] ++ l2). rewrite app_assoc.
  rewrite drop_app_length'; [reflexivity|].
  rewrite length_app. simpl. lia.
Qed.

(** X5.  [removeFixedExpense] with the index of an expense, counted from
    the front or, negative, from the end, removes exactly that expense,
    keeps the others in order and touches nothing else of the ledger. *)
Theorem X5_remove_fixed_expense_at r s (l1 l2 : list FixedExpense)
    (e : FixedExpense) (index : Z) :
  fixedExpenses s = l1 ++ e :: l2 ->
  index = Z.of_nat (length l1) \/ index = - Z.of_nat (S (length l2)) ->
  fixedExpenses (removeFixedExpense r index s) = l1 ++ l2
  /\ transactions (removeFixedExpense r index s) = transactions s
  /\ activeGoals (removeFixedExpense r index s) = activeGoals s
  /\ activeLoans (removeFixedExpense r index s) = activeLoans s
  /\ monthlyLimit (removeFixedExpense r index s) = monthlyLimit s
  /\ toasts (removeFixedExpense r index s) = toasts s.
Proof.
  intros E Hi. unfold removeFixedExpense. autorewrite with frame. st.
  rewrite E, (splice1_at l1 l2 e index Hi). repeat split.
Qed.

Lemma X5_remove_fixed_expense_at_witness :
  fixedExpenses (scenarioLedger Rev2)
  = [mkFixedExpense "Rent" (Int 15000)] ++ mkFixedExpense "Internet" (Int 1000) :: []
  /\ (1 = Z.of_nat (length [mkFixedExpense "Rent" (Int 15000)])
      \/ 1 = - Z.of_nat (S (length (@nil FixedExpense))))
  /\ fixedExpenses (removeFixedExpense Rev2 1 (scenarioLedger Rev2))
     = [mkFixedExpense "Rent" (Int 15000)] ++ [].
Proof.
  assert (H1 : fixedExpenses (scenarioLedger Rev2)
    = [mkFixedExpense "Rent" (Int 15000)] ++ mkFixedExpense "Internet" (Int 1000) :: [])
    by reflexivity.
  assert (H2 : 1 = Z.of_nat (length [mkFixedExpense "Rent" (Int 15000)])
               \/ 1 = - Z.of_nat (S (length (@nil FixedExpense))))
    by (left; reflexivity).
  split; [exact H1|]. split; [exact H2|].
  apply (X5_remove_fixed_expense_at Rev2 (scenarioLedger Rev2) _ _ _ 1 H1 H2).
Defined.

Lemma addFixedExpense_accepts r name amt s (a : Z) :
  nonempty name = true -> parseInt amt = Int a -> 0 < a ->
  addFixedExpense r name amt s
  = saveState r (set_fixedExpenses (fixedExpenses s ++ [mkFixedExpense name (Int a)]) s).
Proof.
  intros Hn Ha Hpos. unfold addFixedExpense. rewrite Hn, Ha.
  unfold gtb, ltb. destruct (Z.ltb_spec 0 a); [reflexivity | lia].
Qed.

Lemma addFixedExpense_rejects r name amt s :
  nonempty name = false \/ gtb (parseInt amt) (Int 0) = false ->
  addFixedExpense r name amt s = s.
Proof.
  intros H. unfold addFixedExpense.
  destruct H as [-> | ->]; [reflexivity|]. rewrite andb_false_r. reflexivity.
Qed.

(** X6.  [addFixedExpense] with a name and a positive amount appends the
    expense; removing the last expense right after, by its index or by -1,
    gives back the sequence and the safe-spend figure. *)
Theorem X6_fixed_expense_add_remove r now s name amt (a : Z) :
  nonempty name = true ->
  parseInt amt = Int a ->
  0 < a ->
  fixedExpenses (addFixedExpense r name amt s)
  = fixedExpenses s ++ [mkFixedExpense name (Int a)]
  /\ (forall index,
        index = Z.of_nat (length (fixedExpenses s)) \/ index = -1 ->
        fixedExpenses (removeFixedExpense r index (addFixedExpense r name amt s))
        = fixedExpenses s
        /\ recalculateDashboard r now
             (removeFixedExpense r index (addFixedExpense r name amt s))
           = recalculateDashboard r now s).
Proof.
  intros Hn Ha Hpos.
  rewrite (addFixedExpense_accepts r name amt s a Hn Ha Hpos).
  assert (Ef : fixedExpenses
                 (saveState r (set_fixedExpenses
                    (fixedExpenses s ++ [mkFixedExpense name (Int a)]) s))
               = fixedExpenses s ++ [mkFixedExpense name (Int a)])
    by (autorewrite with frame; reflexivity).
  split; [exact Ef|].
  intros index Hi.
  assert (E : fixedExpenses
                (removeFixedExpense r index
                   (saveState r (set_fixedExpenses
                      (fixedExpenses s ++ [mkFixedExpense name (Int a)]) s)))
              = fixedExpenses s).
  { unfold removeFixedExpense. autorewrite with frame. st.
    rewrite (splice1_at (fixedExpenses s) [] _ index); [apply app_nil_r|].
    cbn [length]. destruct Hi as [-> | ->]; [left | right]; reflexivity. }
  split; [exact E|].
  apply recalculateDashboard_same_inputs; [|exact E| | |];
    unfold removeFixedExpense; do 2 (autorewrite with frame; st); reflexivity.
Qed.

Lemma X6_fixed_expense_add_remove_witness :
  nonempty "Gym" = true
  /\ parseInt "900" = Int 900
  /\ 0 < 900
  /\ fixedExpenses (addFixedExpense Rev3 "Gym" "900" (scenarioLedger Rev3))
     = fixedExpenses (scenarioLedger Rev3) ++ [mkFixedExpense "Gym" (Int 900)].
Proof.
  assert (H3 : 0 < 900) by lia.
  split; [reflexivity|]. split; [reflexivity|]. split; [exact H3|].
  exact (proj1 (X6_fixed_expense_add_remove Rev3 now0 (scenarioLedger Rev3)
                  "Gym" "900" 900 eq_refl eq_refl H3)).
Defined.


(** ** The calendar, and the divisor of [dashboard.js] *)

Lemma civil_of_days_doe (n : Z) :
  Date.civil_of_days n
  = civil_of_doe ((n + 719468) / 146097) ((n + 719468) mod 146097).
Proof.
  unfold Date.civil_of_days, civil_of_doe. cbv zeta.
  rewrite (Z.mod_eq (n + 719468) 146097) by lia.
  replace (146097 * ((n + 719468) / 146097))
    with ((n + 719468) / 146097 * 146097) by lia.
  reflexivity.
Qed.

Lemma civil_of_doe_era (era doe : Z) :
  civil_of_doe era doe
  = ((civil_of_doe 0 doe).1.1 + era * 400, (civil_of_doe 0 doe).1.2,
     (civil_of_doe 0 doe).2).
Proof. unfold civil_of_doe. cbv zeta. cbn [fst snd]. f_equal. f_equal. lia. Qed.

Lemma is_leap_era (y era : Z) : Date.is_leap (y + era * 400) = Date.is_leap y.
Proof.
  unfold Date.is_leap.
  replace (y + era * 400) with (y + era * 100 * 4) at 1 by lia.
  replace (y + era * 400) with (y + era * 4 * 100) at 1 by lia.
  rewrite !Z.mod_add by lia. reflexivity.
Qed.

Lemma daysInMonth_era (y m era : Z) :
  Date.daysInMonth (y + era * 400) m = Date.daysInMonth y m.
Proof. unfold Date.daysInMonth. rewrite is_leap_era. reflexivity. Qed.

Lemma validDoeFrom_spec (n : nat) (a i : Z) :
  validDoeFrom n a = true -> a <= i < a + Z.of_nat n -> validDoe i = true.
Proof.
  revert a; induction n as [|n IH]; intros a H Hi; [lia|].
  cbn [validDoeFrom] in H. apply andb_true_iff in H as [H0 H1].
  destruct (Z.eq_dec i a) as [->|Hne]; [exact H0|].
  apply (IH (a + 1) H1). lia.
Qed.

(** Checked on each of the 146097 days of an era. *)
Lemma validDoe_all : validDoeFrom (Z.to_nat 146097) 0 = true.
Proof. vm_compute. reflexivity. Qed.

Lemma validDoe_range (doe : Z) : 0 <= doe < 146097 -> validDoe doe = true.
Proof.
  intros H. apply (validDoeFrom_spec _ 0 doe validDoe_all). lia.
Qed.

(** Every timestamp falls on a day its month has. *)
Lemma date_range (t : Z) :
  0 <= Date.getMonth t <= 11
  /\ 1 <= Date.getDate t
          <= Date.daysInMonth (Date.getFullYear t) (Date.getMonth t).
Proof.
  unfold Date.getMonth, Date.getDate, Date.getFullYear.
  rewrite civil_of_days_doe, civil_of_doe_era. cbn [fst snd].
  rewrite daysInMonth_era.
  pose proof (Z.mod_pos_bound (t / Date.msPerDay + 719468) 146097 eq_refl) as Hr.
  pose proof (validDoe_range _ Hr) as Hv. unfold validDoe in Hv.
  destruct (civil_of_doe 0 ((t / Date.msPerDay + 719468) mod 146097))
    as [[y m] d].
  cbn [fst snd]. rewrite !andb_true_iff, !Z.leb_le in Hv. lia.
Qed.

Lemma updateDateTracker_range (now : Z) :
  exists d, updateDateTracker now = Int d /\ 1 <= d <= 30
            /\ d < Date.daysInMonth (Date.getFullYear now) (Date.getMonth now).
Proof.
  destruct (date_range now) as [_ Hd].
  pose proof (daysInMonth_range (Date.getFullYear now) (Date.getMonth now)) as HD.
  unfold updateDateTracker, num_or, truthy.
  destruct (Z.eqb_spec
    (Date.daysInMonth (Date.getFullYear now) (Date.getMonth now) - Date.getDate now) 0)
    as [E|E]; cbn [negb].
  - exists 1. split; [reflexivity | lia].
  - eexists. split; [reflexivity | lia].
Qed.

Lemma divisor_pos (r : revision) (now : Z) :
  0 < divisor r now /\ divisor Rev2 now < divisor Rev3 now.
Proof.
  destruct (updateDateTracker_range now) as (d & E & Hd & Hlt).
  pose proof (daysInMonth_range (Date.getFullYear now) (Date.getMonth now)) as HD.
  unfold divisor. rewrite E. cbn [amountZ]. destruct r; lia.
Qed.

(** X7.  The figure that [updateDateTracker] returns, which [dashboard.js]
    divides the disposable budget by, is an integer from 1 to 30, below the
    number of days of the month, and it is 1 on the last day of the month as
    on the day before. *)
Theorem X7_days_left_divisor (now : Z) :
  exists d,
    updateDateTracker now = Int d
    /\ 1 <= d <= 30
    /\ d < Date.daysInMonth (Date.getFullYear now) (Date.getMonth now)
    /\ (d = 1 <->
        Date.daysInMonth (Date.getFullYear now) (Date.getMonth now) - 1
        <= Date.getDate now).
Proof.
  destruct (updateDateTracker_range now) as (d & E & Hd & Hlt).
  exists d. split; [exact E|]. split; [exact Hd|]. split; [exact Hlt|].
  destruct (date_range now) as [_ Hday].
  unfold updateDateTracker, num_or, truthy in E.
  destruct (Z.eqb_spec
    (Date.daysInMonth (Date.getFullYear now) (Date.getMonth now) - Date.getDate now) 0)
    as [E0|E0]; cbn [negb] in E; injection E as <-; lia.
Qed.

(** X8.  On a numeric ledger whose fixed expenses do not exceed the monthly
    limit, the figure [dashboard.js] shows is never below the one the
    annotated copy shows: it divides the same disposable budget by the days
    left instead of the days of the month. *)
Theorem X8_days_left_overstates now s :
  numericLedger s = true ->
  0 <= disposableZ s ->
  exists v2 v3,
    recalculateDashboard Rev2 now s = Int v2
    /\ recalculateDashboard Rev3 now s = Int v3
    /\ 0 <= v3 <= v2.
Proof.
  intros Hnum Hdisp.
  exists (Z.max 0 (unclamped Rev2 now s)), (Z.max 0 (unclamped Rev3 now s)).
  split; [apply recalculateDashboard_closed; exact Hnum|].
  split; [apply recalculateDashboard_closed; exact Hnum|].
  destruct (divisor_pos Rev2 now) as [H2 Hlt].
  assert (Hdiv : disposableZ s / divisor Rev3 now <= disposableZ s / divisor Rev2 now).
  { apply Z.div_le_compat_l; [exact Hdisp | lia]. }
  unfold unclamped. fold (disposableZ s). lia.
Qed.

Lemma X8_days_left_overstates_witness :
  numericLedger (scenarioLedger Rev2) = true
  /\ 0 <= disposableZ (scenarioLedger Rev2)
  /\ exists v2 v3,
       recalculateDashboard Rev2 now0 (scenarioLedger Rev2) = Int v2
       /\ recalculateDashboard Rev3 now0 (scenarioLedger Rev2) = Int v3
       /\ 0 <= v3 <= v2.
Proof.
  assert (H1 : numericLedger (scenarioLedger Rev2) = true) by reflexivity.
  assert (H2 : 0 <= disposableZ (scenarioLedger Rev2)) by (vm_compute; discriminate).
  split; [exact H1|]. split; [exact H2|].
  exact (X8_days_left_overstates now0 (scenarioLedger Rev2) H1 H2).
Defined.

(** On the last day of November the whole disposable budget is the day's
    figure in [dashboard.js]. *)
Example last_day_of_month :
  recalculateDashboard Rev2 (now0 + 28 * Date.msPerDay) (scenarioLedger Rev2) = Int 14000
  /\ recalculateDashboard Rev3 (now0 + 28 * Date.msPerDay) (scenarioLedger Rev3) = Int 466.
Proof. vm_compute. split; reflexivity. Qed.

Lemma div_sub_bounds (x a d : Z) :
  0 < d -> 0 <= a ->
  (x - a) / d <= x / d /\ x / d - (x - a) / d <= a / d + 1.
Proof.
  intros Hd Ha.
  pose proof (Z.div_mod x d ltac:(lia)) as E1.
  pose proof (Z.div_mod (x - a) d ltac:(lia)) as E2.
  pose proof (Z.div_mod a d ltac:(lia)) as E3.
  pose proof (Z.mod_pos_bound x d Hd) as B1.
  pose proof (Z.mod_pos_bound (x - a) d Hd) as B2.
  pose proof (Z.mod_pos_bound a d Hd) as B3.
  split; nia.
Qed.

(** X9.  On a numeric ledger a fixed expense of amount [a], once added,
    never raises the safe-spend figure, and lowers it by at most its share
    of a day, floor(a / divisor) + 1, the divisor being the days of the
    month or, in [dashboard.js], the days left. *)
Theorem X9_fixed_expense_lowers_figure r now s name amt (a : Z) :
  numericLedger s = true ->
  nonempty name = true ->
  parseInt amt = Int a ->
  0 < a ->
  exists v v',
    recalculateDashboard r now s = Int v
    /\ recalculateDashboard r now (addFixedExpense r name amt s) = Int v'
    /\ 0 <= v' <= v
    /\ v - v' <= a / divisor r now + 1.
Proof.
  intros Hnum Hn Ha Hpos.
  rewrite (addFixedExpense_accepts r name amt s a Hn Ha Hpos).
  rewrite recalculateDashboard_saveState.
  set (s' := set_fixedExpenses _ s).
  assert (Hnum' : numericLedger s' = true).
  { unfold numericLedger in *. subst s'. st. rewrite forallb_snoc. cbv beta.
    cbn [fe_amount is_int]. rewrite !andb_true_iff in *. tauto. }
  exists (Z.max 0 (unclamped r now s)), (Z.max 0 (unclamped r now s')).
  split; [apply recalculateDashboard_closed; exact Hnum|].
  split; [apply recalculateDashboard_closed; exact Hnum'|].
  destruct (divisor_pos r now) as [Hd _].
  destruct (div_sub_bounds (disposableZ s) a (divisor r now) Hd ltac:(lia))
    as [Hle Hdrop].
  assert (E : unclamped r now s'
              = unclamped r now s - disposableZ s / divisor r now
                + (disposableZ s - a) / divisor r now).
  { unfold unclamped, disposableZ. subst s'. st. rewrite sumZ_app.
    cbn [sumZ foldr fe_amount amountZ].
    replace (amountZ (monthlyLimit s)
             - (sumZ (fun e => amountZ (fe_amount e)) (fixedExpenses s) + (a + 0)))
      with (amountZ (monthlyLimit s)
            - sumZ (fun e => amountZ (fe_amount e)) (fixedExpenses s) - a) by lia.
    lia. }
  rewrite E. lia.
Qed.

Lemma X9_fixed_expense_lowers_figure_witness :
  numericLedger (scenarioLedger Rev3) = true
  /\ nonempty "Gym" = true
  /\ parseInt "900" = Int 900
  /\ 0 < 900
  /\ exists v v',
       recalculateDashboard Rev3 now0 (scenarioLedger Rev3) = Int v
       /\ recalculateDashboard Rev3 now0
            (addFixedExpense Rev3 "Gym" "900" (scenarioLedger Rev3)) = Int v'
       /\ 0 <= v' <= v
       /\ v - v' <= 900 / divisor Rev3 now0 + 1.
Proof.
  assert (H1 : numericLedger (scenarioLedger Rev3) = true) by reflexivity.
  assert (H4 : 0 < 900) by lia.
  split; [exact H1|]. split; [reflexivity|]. split; [reflexivity|].
  split; [exact H4|].
  exact (X9_fixed_expense_lowers_figure Rev3 now0 (scenarioLedger Rev3)
           "Gym" "900" 900 H1 eq_refl eq_refl H4).
Defined.

Example fixed_expense_in_scenario :
  recalculateDashboard Rev3 now0 (addFixedExpense Rev3 "Gym" "900" (scenarioLedger Rev3))
  = Int 436.
Proof. vm_compute. reflexivity. Qed.

(** ** What a reload brings back *)

Lemma ensureRoommates_fields s :
  chatStore (ensureRoommates s) = withRoommates (chatStore s)
  /\ groupMembers (ensureRoommates s) = withRoommates (groupMembers s)
  /\ transactions (ensureRoommates s) = transactions s
  /\ fixedExpenses (ensureRoommates s) = fixedExpenses s
  /\ activeGoals (ensureRoommates s) = activeGoals s
  /\ activeLoans (ensureRoommates s) = activeLoans s
  /\ monthlyLimit (ensureRoommates s) = monthlyLimit s
  /\ uid (ensureRoommates s) = uid s
  /\ users (ensureRoommates s) = users s
  /\ userData (ensureRoommates s) = userData s.
Proof.
  unfold ensureRoommates, withRoommates.
  destruct (chatStore s !! "Roommates"%string); st;
    destruct (groupMembers s !! "Roommates"%string); st; repeat split.
Qed.

(** What the hydration listener leaves in the variables, in terms of the
    document in [window.userData]. *)
Lemma firestoreReady_fields r s :
  transactions (firestoreReady r s) = default [] (d_transactions (userData s))
  /\ fixedExpenses (firestoreReady r s) = default [] (d_fixedExpenses (userData s))
  /\ activeGoals (firestoreReady r s) = goalsOfDoc (userData s)
  /\ activeLoans (firestoreReady r s) = loansOfDoc (userData s)
  /\ chatStore (firestoreReady r s)
     = withRoommates (default ∅ (d_chatGroups (userData s)))
  /\ groupMembers (firestoreReady r s)
     = withRoommates (default ∅ (d_groupMembers (userData s)))
  /\ monthlyLimit (firestoreReady r s)
     = match r with
       | Rev2 => monthlyLimit s
       | Rev3 => default (Int 0) (d_monthlyLimit (userData s))
       end
  /\ uid (firestoreReady r s) = uid s
  /\ users (firestoreReady r s) = users s
  /\ userData (firestoreReady r s) = userData s.
Proof.
  unfold firestoreReady, initApp. rewrite ensureRoommates_idem.
  match goal with |- context [ensureRoommates ?t] =>
    destruct (ensureRoommates_fields t)
      as (E1 & E2 & E3 & E4 & E5 & E6 & E7 & E8 & E9 & E10);
    rewrite E1, E2, E3, E4, E5, E6, E7, E8, E9, E10
  end.
  destruct r; st; repeat split.
Qed.

Lemma sessionStart_doc r db u now :
  exists d,
    users (sessionStart r db u now) !! u = Some d
    /\ userData (sessionStart r db u now) = d
    /\ uid (sessionStart r db u now) = Some u
    /\ d = default (newUser now) (db !! u)
    /\ (forall v, v <> u -> users (sessionStart r db u now) !! v = db !! v).
Proof.
  unfold sessionStart, onAuthStateChanged, loadUserDoc. st.
  destruct (db !! u) as [d|] eqn:E; st;
    match goal with |- context [firestoreReady r ?t] =>
      destruct (firestoreReady_fields r t) as (_ & _ & _ & _ & _ & _ & _ & E8 & E9 & E10);
      rewrite E8, E9, E10
    end; st.
  - exists d. rewrite E. repeat split. 
  - exists (newUser now). rewrite lookup_insert_eq. repeat split.
    intros v Hv. apply lookup_insert_ne. congruence.
Qed.

Lemma sessionStart_persisted r db u now : persisted r u (sessionStart r db u now).
Proof.
  destruct (sessionStart_doc r db u now) as (d & Hd & Hud & Hu & _ & _).
  split; [exact Hu|]. exists d. split; [exact Hd|].
  revert Hd Hud Hu. unfold sessionStart, onAuthStateChanged, loadUserDoc. st.
  destruct (db !! u) as [d0|] eqn:E; st;
    match goal with |- context [firestoreReady r ?t] =>
      destruct (firestoreReady_fields r t)
        as (E1 & E2 & E3 & E4 & E5 & E6 & E7 & E8 & E9 & E10);
      rewrite E1, E2, E3, E4, E5, E6, E7, E10
    end; st; intros _ <- _; repeat split; intros ->; reflexivity.
Qed.






Lemma has_insert {A} (m : gmap string A) (j k : string) (v : A) :
  is_Some (m !! j) -> is_Some (<[k := v]> m !! j).
Proof.
  intros H. destruct (decide (j = k)) as [->|Hne].
  - rewrite lookup_insert_eq. eauto.
  - rewrite lookup_insert_ne by congruence. exact H.
Qed.








(** What [saveState] does to the store: it merges the document it has
    just assembled, unless that document holds an undefined [userId]. *)
Lemma saveState_users r u s :
  uid s = Some u ->
  users (saveState r s)
  = if storableChats (chatStore s)
    then <[u := setDoc_merge (userData (saveState r s))
                  (default emptyDoc (users s !! u))]> (users s)
    else users s.
Proof.
  intros Hu. unfold saveState, syncUserData. st. rewrite Hu. st.
  assert (E : forall d : Doc,
             d_chatGroups d = Some (chatStore s) ->
             storable d = storableChats (chatStore s))
    by (intros d Hd; unfold storable; rewrite Hd; reflexivity).
  destruct r; cbn [from_option id];
    (rewrite E by reflexivity); destruct (storableChats (chatStore s)); st;
    reflexivity.
Qed.




Lemma saveState_retries r u s :
  uid s = Some u -> retries (saveState r s) = retries s.
Proof.
  intros Hu. unfold saveState, syncUserData. st. rewrite Hu.
  repeat case_match; reflexivity.
Qed.







Lemma retries_sessionStart r db u now : retries (sessionStart r db u now) = 0%nat.
Proof.
  unfold sessionStart, onAuthStateChanged, loadUserDoc. st.
  destruct (db !! u); unfold firestoreReady, initApp, ensureRoommates;
    destruct r; st; repeat case_match; reflexivity.
Qed.




(** In [dashboard.js] the monthly limit does not survive the reload. *)
Example reload_forgets_limit :
  monthlyLimit (saveBudgetSettings Rev2 "50000" (sessionStart Rev2 ∅ "u1" now0))
  = Int 50000
  /\ monthlyLimit
       (sessionStart Rev2
          (users (saveBudgetSettings Rev2 "50000" (sessionStart Rev2 ∅ "u1" now0)))
          "u1" (now0 + 1000))
     = Int 30000.
Proof. vm_compute. split; reflexivity. Qed.

(** ** What a chat message of [sendChat] does to the session *)








(** The expense logged after the chat message is in the ledger of the
    session and is gone after a reload. *)
Example expense_after_chat_is_lost :
  let s := run Rev3 [(now0, SendChat "hello");
                     (now0 + 60000, SaveTransaction "Lunch" "250" "Food" "worthy")]
             (sessionStart Rev3 ∅ "u1" now0) in
  map tx_amount (transactions s) = [Int 250]
  /\ transactions (sessionStart Rev3 (users s) "u1" (now0 + 120000)) = [].
Proof. vm_compute. split; reflexivity. Qed.

(** ** What a session never writes *)

Lemma merge_field_same {A} (x : option A) : merge_field x x = x.
Proof. destruct x; reflexivity. Qed.

Lemma saveState_accountKept r db u c s :
  accountKept db u c s -> accountKept db u c (saveState r s).
Proof.
  intros (Hu & Hd & (d & Hdoc & Hc) & Hothers & Hr).
  destruct c as [[[c1 c2] c3] c4].
  unfold accountKept, accountFields in *.
  rewrite saveState_uid, (saveState_retries r u s Hu), (saveState_users r u s Hu).
  injection Hd as E1 E2 E3 E4. injection Hc as C1 C2 C3 C4.
  assert (Hud : d_email (userData (saveState r s)) = c1
                /\ d_createdAt (userData (saveState r s)) = c2
                /\ d_displayName (userData (saveState r s)) = c3
                /\ d_photoURL (userData (saveState r s)) = c4).
  { unfold saveState, syncUserData. st. rewrite Hu.
    repeat case_match; st;
      cbn [d_email d_createdAt d_displayName d_photoURL]; auto. }
  destruct Hud as (U1 & U2 & U3 & U4).
  split; [exact Hu|]. split; [congruence|].
  split; [|split; [|exact Hr]].
  - destruct (storableChats (chatStore s)); [|exists d; split; congruence].
    rewrite lookup_insert_eq. eexists. split; [reflexivity|].
    rewrite Hdoc. cbn [from_option id setDoc_merge d_email d_createdAt
                       d_displayName d_photoURL].
    rewrite U1, U2, U3, U4, C1, C2, C3, C4, !merge_field_same. reflexivity.
  - intros v Hv. destruct (storableChats (chatStore s)); [|apply Hothers; exact Hv].
    rewrite lookup_insert_ne by congruence. apply Hothers. exact Hv.
Qed.

Lemma accountKept_same db u c s s' :
  uid s' = uid s -> userData s' = userData s -> users s' = users s ->
  retries s' = retries s ->
  accountKept db u c s -> accountKept db u c s'.
Proof. intros E1 E2 E3 E4. unfold accountKept. rewrite E1, E2, E3, E4. auto. Qed.

Lemma step_accountKept r db u c now (a : Action) s :
  accountKept db u c s -> accountKept db u c (step r now a s).
Proof.
  intros H.
  destruct a; cbn [step];
    unfold saveProfile, randomizeAvatar, saveGoal, removeGoal, handleAddMember,
      switchGroup, sendSquadChat, submitSplit, saveTransaction,
      applyDateFilter, addFixedExpense, removeFixedExpense,
      saveBudgetSettings, saveLoan, toggleGroupCreator, createNewGroup,
      sendChat, addQuickExpense, retryFires, pushMessage;
    try rewrite (proj2 (proj2 (proj2 (proj2 H))));
    repeat case_match; try exact H; try apply saveState_accountKept;
    apply (accountKept_same db u c s); try exact H; reflexivity.
Qed.

Lemma run_accountKept r db u c evs s :
  accountKept db u c s -> accountKept db u c (run r evs s).
Proof.
  revert s; induction evs as [|[now a] evs IH]; intros s H; [exact H|].
  change (run r ((now, a) :: evs) s) with (run r evs (step r now a s)).
  apply IH. apply step_accountKept. exact H.
Qed.

(** X11.  A session of user [u] never touches the document of another
    user, and in its own document it never changes the fields [email],
    [createdAt], [displayName] and [photoURL]: after any handlers they are
    what [loadUserDoc] found or created. *)
Theorem X11_session_writes_own_document_only r db u now (evs : list (Z * Action)) :
  let s := run r evs (sessionStart r db u now) in
  (forall v, v <> u -> users s !! v = db !! v)
  /\ exists d,
       users s !! u = Some d
       /\ accountFields d = accountFields (default (newUser now) (db !! u)).
Proof.
  cbv zeta.
  destruct (sessionStart_doc r db u now) as (d0 & Hd0 & Hud & Hu & Hdef & Hothers).
  assert (H0 : accountKept db u (accountFields d0) (sessionStart r db u now)).
  { split; [exact Hu|]. split; [rewrite Hud; reflexivity|].
    split; [exists d0; split; [exact Hd0 | reflexivity]|].
    split; [exact Hothers | apply retries_sessionStart]. }
  destruct (run_accountKept r db u _ evs _ H0) as (_ & _ & (d & Hd & Hc) & Ho & _).
  split; [exact Ho|]. exists d. split; [exact Hd|]. rewrite Hc, Hdef. reflexivity.
Qed.

Lemma step_signed_out r now (a : Action) s :
  uid s = None ->
  uid (step r now a s) = None
  /\ users (step r now a s) = users s
  /\ (retries s <= retries (step r now a s))%nat.
Proof.
  intros Hu.
  assert (Hsave : forall s1, uid s1 = uid s -> users s1 = users s ->
                    retries s1 = retries s ->
    uid (saveState r s1) = None /\ users (saveState r s1) = users s
    /\ (retries s <= retries (saveState r s1))%nat).
  { intros s1 E1 E2 E3. unfold saveState, syncUserData. st.
    rewrite E1, Hu. st. rewrite E1, E2, E3, Hu. repeat split; lia. }
  destruct a; cbn [step];
    unfold saveProfile, randomizeAvatar, saveGoal, removeGoal, handleAddMember,
      switchGroup, sendSquadChat, submitSplit, saveTransaction,
      applyDateFilter, addFixedExpense, removeFixedExpense,
      saveBudgetSettings, saveLoan, toggleGroupCreator, createNewGroup,
      sendChat, addQuickExpense, retryFires, syncUserData, pushMessage;
    repeat case_match;
    first [ apply Hsave; reflexivity
          | st; rewrite ?Hu; st; repeat split; (lia || congruence) ].
Qed.

(** X12.  While no user is signed in, no handler writes to Firestore:
    whatever is called, the collection stays as it is; each [saveState] only
    arms a retry. *)
Theorem X12_no_write_before_sign_in r (evs : list (Z * Action)) s :
  uid s = None ->
  users (run r evs s) = users s
  /\ uid (run r evs s) = None
  /\ (retries s <= retries (run r evs s))%nat.
Proof.
  revert s; induction evs as [|[now a] evs IH]; intros s Hu.
  - cbn [run fold_left]. repeat split; [exact Hu | lia].
  - change (run r ((now, a) :: evs) s) with (run r evs (step r now a s)).
    destruct (step_signed_out r now a s Hu) as (H1 & H2 & H3).
    destruct (IH _ H1) as (I1 & I2 & I3).
    rewrite I1, H2. repeat split; [exact I2 | lia].
Qed.

Lemma X12_no_write_before_sign_in_witness :
  uid (initialState Rev2 returningUser) = None
  /\ users (run Rev2 [(now0, SaveBudgetSettings "50000")] (initialState Rev2 returningUser))
     = users (initialState Rev2 returningUser).
Proof.
  split; [reflexivity|].
  exact (proj1 (X12_no_write_before_sign_in Rev2 [(now0, SaveBudgetSettings "50000")]
                  (initialState Rev2 returningUser) eq_refl)).
Defined.

(** A retry armed before sign-in fires after it.  In the annotated copy the
    timer holds the object that was [window.userData] when [saveState] ran,
    with the empty ledger of the page just loaded: merged into the user's
    document it replaces the stored transactions, while the session shows
    the hydrated ones.  In [dashboard.js] the timer holds nothing and the
    retry writes the hydrated [window.userData]. *)
Example retry_after_sign_in :
  let session r :=
    step r (now0 + 600) RetryFires
      (onAuthStateChanged r "u1" (now0 + 300)
         (run r [(now0, SaveBudgetSettings "50000")] (initialState r returningUser))) in
  (users (session Rev3) !! "u1"%string ≫= d_transactions = Some []
   /\ transactions (session Rev3) = [lunch]
   /\ retries (session Rev3) = 0%nat)
  /\ (users (session Rev2) !! "u1"%string ≫= d_transactions = Some [lunch]
      /\ retries (session Rev2) = 0%nat).
Proof. vm_compute. repeat split. Qed.

(** ** Spending analysis *)

Lemma ltb_mono (x : num) (a b : Z) :
  a <= b -> ltb x (Int a) = true -> ltb x (Int b) = true.
Proof.
  intros Hab. destruct x as [z| | |]; cbn [ltb]; try (intros H; exact H).
  rewrite !Z.ltb_lt. lia.
Qed.

Lemma inWindow_nested now (t : Transaction) :
  (inWindow "day" now t = true -> inWindow "week" now t = true)
  /\ (inWindow "week" now t = true -> inWindow "month" now t = true).
Proof.
  unfold inWindow.
  change (String.eqb "day" "day") with true.
  change (String.eqb "week" "day") with false.
  change (String.eqb "week" "week") with true.
  change (String.eqb "month" "day") with false.
  change (String.eqb "month" "week") with false.
  change (String.eqb "month" "month") with true.
  cbv iota. split; apply ltb_mono; unfold oneDayMs; lia.
Qed.

Lemma amountsOf_filter_le (p q : Transaction -> bool) (l : list Transaction) :
  nonNegativeAmounts l = true ->
  (forall t, p t = true -> q t = true) ->
  amountsOf (List.filter p l) <= amountsOf (List.filter q l).
Proof.
  intros Hnn Hpq. unfold amountsOf.
  induction l as [|t l IH]; [cbn; lia|].
  unfold nonNegativeAmounts in Hnn. cbn [forallb] in Hnn.
  apply andb_true_iff in Hnn as [Ht Hl]. apply andb_true_iff in Ht as [_ Ht].
  apply Z.leb_le in Ht. specialize (IH Hl).
  cbn [List.filter]. destruct (p t) eqn:Ep.
  - rewrite (Hpq t Ep). unfold sumZ in *. cbn [foldr]. lia.
  - destruct (q t); unfold sumZ in *; cbn [foldr]; lia.
Qed.

Lemma nonNegative_integer (l : list Transaction) :
  nonNegativeAmounts l = true -> integerAmounts l = true.
Proof.
  unfold nonNegativeAmounts, integerAmounts. rewrite !forallb_forall.
  intros H t Ht. specialize (H t Ht). apply andb_true_iff in H as [H _]. exact H.
Qed.

Lemma total_of_filter now s :
  integerAmounts (transactions s) = true ->
  (updateSentimentAnalysis now s).2 = Int (amountsOf (getFilteredTransactions now s)).
Proof.
  intros Hint.
  assert (Hf : integerAmounts (getFilteredTransactions now s) = true)
    by (apply forallb_filter; exact Hint).
  destruct (fold_addSentiment _ 0 0 0 Hf) as (w & r & i & E & Hsum).
  unfold updateSentimentAnalysis. cbn [snd]. rewrite E.
  cbn [worthy regret ignore JS.add]. unfold amountsOf. f_equal; lia.
Qed.

(** X13.  The windows are nested: what the day filter selects the week
    filter selects, and what the week filter selects the month filter
    selects; so with non-negative amounts the displayed total never drops
    when the period is widened from day to week to month to all. *)
Theorem X13_wider_period_larger_total now s :
  nonNegativeAmounts (transactions s) = true ->
  (forall t, In t (getFilteredTransactions now (applyDateFilter "day" s)) ->
             In t (getFilteredTransactions now (applyDateFilter "week" s)))
  /\ (forall t, In t (getFilteredTransactions now (applyDateFilter "week" s)) ->
                In t (getFilteredTransactions now (applyDateFilter "month" s)))
  /\ exists d w m a,
       (updateSentimentAnalysis now (applyDateFilter "day" s)).2 = Int d
       /\ (updateSentimentAnalysis now (applyDateFilter "week" s)).2 = Int w
       /\ (updateSentimentAnalysis now (applyDateFilter "month" s)).2 = Int m
       /\ (updateSentimentAnalysis now (applyDateFilter "all" s)).2 = Int a
       /\ 0 <= d <= w /\ w <= m <= a.
Proof.
  intros Hnn. pose proof (nonNegative_integer _ Hnn) as Hint.
  split; [|split].
  - intros t. unfold getFilteredTransactions, applyDateFilter. st.
    rewrite !List.filter_In. intros [H1 H2]. split; [exact H1|].
    apply (inWindow_nested now t). exact H2.
  - intros t. unfold getFilteredTransactions, applyDateFilter. st.
    rewrite !List.filter_In. intros [H1 H2]. split; [exact H1|].
    apply (inWindow_nested now t). exact H2.
  - do 4 eexists.
    split; [apply total_of_filter; exact Hint|].
    split; [apply total_of_filter; exact Hint|].
    split; [apply total_of_filter; exact Hint|].
    split; [apply total_of_filter; exact Hint|].
    unfold getFilteredTransactions, applyDateFilter. st.
    split; [split|split].
    + unfold amountsOf. apply sumZ_nonneg. intros t Ht.
      apply List.filter_In in Ht as [Ht _].
      unfold nonNegativeAmounts in Hnn. rewrite forallb_forall in Hnn.
      specialize (Hnn t Ht). apply andb_true_iff in Hnn as [_ Hnn].
      apply Z.leb_le. exact Hnn.
    + apply amountsOf_filter_le; [exact Hnn|]. apply inWindow_nested.
    + apply amountsOf_filter_le; [exact Hnn|]. apply inWindow_nested.
    + apply amountsOf_filter_le; [exact Hnn|]. intros t _. reflexivity.
Qed.

Lemma X13_wider_period_larger_total_witness :
  nonNegativeAmounts (transactions (sessionStart Rev2 returningUser "u1" now0)) = true
  /\ forall t,
       In t (getFilteredTransactions now0
               (applyDateFilter "day" (sessionStart Rev2 returningUser "u1" now0))) ->
       In t (getFilteredTransactions now0
               (applyDateFilter "week" (sessionStart Rev2 returningUser "u1" now0))).
Proof.
  assert (H : nonNegativeAmounts
                (transactions (sessionStart Rev2 returningUser "u1" now0)) = true)
    by (vm_compute; reflexivity).
  split; [exact H|].
  exact (proj1 (X13_wider_period_larger_total now0
                  (sessionStart Rev2 returningUser "u1" now0) H)).
Defined.

(** The three sums [updateSentimentAnalysis] accumulates, as sums over the
    transactions with the matching tag. *)
Lemma fold_addSentiment_by_tag (l : list Transaction) (w r i : Z) :
  integerAmounts l = true ->
  fold_left addSentiment l (mkSentiments (Int w) (Int r) (Int i))
  = mkSentiments
      (Int (w + amountsOf (List.filter (fun t => String.eqb (tx_sentiment t) "worthy") l)))
      (Int (r + amountsOf (List.filter (fun t => String.eqb (tx_sentiment t) "regret") l)))
      (Int (i + amountsOf
                  (List.filter
                     (fun t => negb (String.eqb (tx_sentiment t) "worthy")
                               && negb (String.eqb (tx_sentiment t) "regret")) l))).
Proof.
  revert w r i; induction l as [|t l IH]; intros w r i H.
  { cbn. f_equal; try (apply (f_equal Int); lia). }
  unfold integerAmounts in H. cbn [forallb] in H.
  apply andb_true_iff in H as [Ht Hl].
    destruct (tx_amount t) as [z| | |] eqn:E; try discriminate.
    cbn [fold_left List.filter]. unfold addSentiment at 2.
    rewrite E, num_or_int_zero. cbn [worthy regret ignore JS.add].
    destruct (String.eqb_spec (tx_sentiment t) "worthy") as [Ew|Ew].
    - rewrite Ew. change (String.eqb "worthy" "regret") with false.
      rewrite (IH _ _ _ Hl); cbn [negb andb].
      unfold amountsOf, sumZ; cbn [foldr]; rewrite ?E; cbn [amountZ].
      f_equal; try (apply (f_equal Int); lia).
    - destruct (String.eqb (tx_sentiment t) "regret") eqn:Er;
        rewrite (IH _ _ _ Hl); cbn [negb andb];
        unfold amountsOf, sumZ; cbn [foldr]; rewrite ?E; cbn [amountZ];
        f_equal; try (apply (f_equal Int); lia).
Qed.

Lemma filter_filter_and {A} (p q : A -> bool) (l : list A) :
  List.filter p (List.filter q l) = List.filter (fun x => q x && p x) l.
Proof.
  induction l as [|x l IH]; [reflexivity|]. cbn [List.filter].
  destruct (q x); cbn [List.filter andb]; [destruct (p x)|]; rewrite IH; reflexivity.
Qed.

Lemma amountsOf_split (p : Transaction -> bool) (l : list Transaction) :
  amountsOf l
  = amountsOf (List.filter p l) + amountsOf (List.filter (fun t => negb (p t)) l).
Proof.
  unfold amountsOf. induction l as [|t l IH]; [reflexivity|].
  cbn [List.filter]. destruct (p t); cbn [negb]; unfold sumZ in *;
    cbn [foldr]; lia.
Qed.

(** X14.  The worthy and the regret totals of the analysis are the sums of
    the drill-down lists of those types, and the list of type all sums to
    the total; but the third total also counts the filtered transactions
    whose tag is none of worthy, regret, ignore (the quick expenses, tagged
    neutral, are such), which the drill-down list of type ignore does not
    show. *)
Theorem X14_drill_down_agrees_with_totals now s :
  integerAmounts (transactions s) = true ->
  (updateSentimentAnalysis now s).1
  = mkSentiments
      (Int (amountsOf (filterSentiment "worthy" now s)))
      (Int (amountsOf (filterSentiment "regret" now s)))
      (Int (amountsOf (filterSentiment "ignore" now s)
            + amountsOf (List.filter untagged (getFilteredTransactions now s))))
  /\ (updateSentimentAnalysis now s).2 = Int (amountsOf (filterSentiment "all" now s)).
Proof.
  intros Hint. split.
  - assert (Hf : integerAmounts (getFilteredTransactions now s) = true)
      by (apply forallb_filter; exact Hint).
    unfold updateSentimentAnalysis. cbn [fst].
    rewrite (fold_addSentiment_by_tag _ 0 0 0 Hf).
    unfold filterSentiment.
    change (String.eqb "worthy" "all") with false.
    change (String.eqb "regret" "all") with false.
    change (String.eqb "ignore" "all") with false.
    cbv iota. f_equal. f_equal.
    rewrite (amountsOf_split (fun t => String.eqb (tx_sentiment t) "ignore")
               (List.filter _ (getFilteredTransactions now s))).
    rewrite !filter_filter_and.
    assert (E1 : forall l,
      List.filter (fun x => (negb (String.eqb (tx_sentiment x) "worthy")
                             && negb (String.eqb (tx_sentiment x) "regret"))
                            && String.eqb (tx_sentiment x) "ignore") l
      = List.filter (fun t => String.eqb (tx_sentiment t) "ignore") l).
    { intros l. apply List.filter_ext. intros t.
      destruct (String.eqb_spec (tx_sentiment t) "ignore") as [->|]; reflexivity
        || (rewrite andb_false_r; reflexivity). }
    assert (E2 : forall l,
      List.filter (fun x => (negb (String.eqb (tx_sentiment x) "worthy")
                             && negb (String.eqb (tx_sentiment x) "regret"))
                            && negb (String.eqb (tx_sentiment x) "ignore")) l
      = List.filter untagged l) by reflexivity.
    rewrite E1, E2. lia.
  - rewrite (total_of_filter now s Hint). reflexivity.
Qed.

Lemma X14_drill_down_agrees_with_totals_witness :
  integerAmounts (transactions (sessionStart Rev2 returningUser "u1" now0)) = true
  /\ (updateSentimentAnalysis now0 (sessionStart Rev2 returningUser "u1" now0)).2
     = Int (amountsOf (filterSentiment "all" now0
                         (sessionStart Rev2 returningUser "u1" now0))).
Proof.
  assert (H : integerAmounts
                (transactions (sessionStart Rev2 returningUser "u1" now0)) = true)
    by (vm_compute; reflexivity).
  split; [exact H|].
  exact (proj2 (X14_drill_down_agrees_with_totals now0
                  (sessionStart Rev2 returningUser "u1" now0) H)).
Defined.

(** ** The quick expense and the budget preview *)

(** X15.  A quick expense of the annotated copy is put first in the ledger,
    tagged neutral, but the counter of the day is not raised: the figure of
    the dashboard stays as it was.  The ledger with the expense is stored
    in the user's document, unless the session holds a chat message that
    Firestore refuses: then the store stays as it was. *)
Theorem X15_quick_expense_skips_counter name amt category now s u :
  nonempty name = true -> nonempty amt = true ->
  d_transactions (userData s) = Some (transactions s) ->
  uid s = Some u ->
  let s' := addQuickExpense name amt category now s in
  transactions s'
  = {| tx_date := shortDate now; tx_timestamp := Int now; tx_merchant := name;
       tx_category := category; tx_amount := parseInt amt;
       tx_icon := ""; tx_color := ""; tx_bg := "";
       tx_sentiment := "neutral" |} :: transactions s
  /\ dailySpent s' = dailySpent s
  /\ (forall r now', recalculateDashboard r now' s' = recalculateDashboard r now' s)
  /\ (storableChats (chatStore s) = true ->
      exists d, users s' !! u = Some d /\ d_transactions d = Some (transactions s'))
  /\ (storableChats (chatStore s) = false -> users s' = users s).
Proof.
  intros Hn Ha Hud Hu. cbv zeta. unfold addQuickExpense.
  rewrite Hn, Ha, Hud. cbn [negb orb].
  split; [autorewrite with frame; st; reflexivity|].
  split; [autorewrite with frame; st; reflexivity|].
  split; [|split].
  - intros r now'. rewrite recalculateDashboard_saveState.
    unfold recalculateDashboard. st. reflexivity.
  - intros Hst. rewrite (saveState_users Rev3 u) by (st; exact Hu).
    autorewrite with frame. st. rewrite Hst, lookup_insert_eq.
    eexists. split; [reflexivity|].
    unfold saveState, syncUserData. st. rewrite Hu.
    repeat case_match; st;
      cbn [setDoc_merge d_transactions merge_field from_option id]; reflexivity.
  - intros Hst. rewrite (saveState_users Rev3 u) by (st; exact Hu).
    st. rewrite Hst. reflexivity.
Qed.

Lemma X15_quick_expense_skips_counter_witness :
  recalculateDashboard Rev3 now0
    (addQuickExpense "Tea" "40" "Food" now0 (sessionStart Rev3 returningUser "u1" now0))
  = recalculateDashboard Rev3 now0 (sessionStart Rev3 returningUser "u1" now0).
Proof.
  assert (H1 : nonempty "Tea" = true) by reflexivity.
  assert (H2 : nonempty "40" = true) by reflexivity.
  assert (H3 : d_transactions (userData (sessionStart Rev3 returningUser "u1" now0))
               = Some (transactions (sessionStart Rev3 returningUser "u1" now0)))
    by (vm_compute; reflexivity).
  assert (H4 : uid (sessionStart Rev3 returningUser "u1" now0) = Some "u1"%string)
    by (vm_compute; reflexivity).
  exact (proj1 (proj2 (proj2
    (X15_quick_expense_skips_counter "Tea" "40" "Food" now0 _ "u1" H1 H2 H3 H4)))
    Rev3 now0).
Defined.

(** Without the array in [window.userData] the handler changes nothing. *)
Lemma addQuickExpense_without_array name amt category now s :
  nonempty name = true -> nonempty amt = true ->
  d_transactions (userData s) = None ->
  addQuickExpense name amt category now s = s.
Proof.
  intros Hn Ha Hud. unfold addQuickExpense. rewrite Hn, Ha, Hud. reflexivity.
Qed.

(** X16.  When the limit field holds a number other than 0, the final
    figure of the preview is the figure the dashboard writes once the
    settings are saved. *)
Theorem X16_preview_is_saved_figure r now limit s :
  truthy (parseInt limit) = true ->
  previewFinal (onLimitInput r now limit s)
  = recalculateDashboard r now (saveBudgetSettings r limit s)
  /\ previewMonthly (onLimitInput r now limit s)
     = monthlyLimit (saveBudgetSettings r limit s).
Proof.
  intros Ht. unfold saveBudgetSettings.
  rewrite recalculateDashboard_saveState. autorewrite with frame.
  unfold onLimitInput, updateBudgetPreview, recalculateDashboard, showToast.
  st. cbn [previewFinal previewMonthly].
  rewrite !(num_or_truthy _ _ Ht). split; reflexivity.
Qed.

Lemma X16_preview_is_saved_figure_witness :
  previewFinal (onLimitInput Rev2 now0 "21000"
                  (sessionStart Rev2 returningUser "u1" now0))
  = recalculateDashboard Rev2 now0
      (saveBudgetSettings Rev2 "21000" (sessionStart Rev2 returningUser "u1" now0)).
Proof.
  assert (H : truthy (parseInt "21000") = true) by (vm_compute; reflexivity).
  exact (proj1 (X16_preview_is_saved_figure Rev2 now0 "21000" _ H)).
Defined.

Lemma num_or_falsy (x y : num) : truthy x = false -> num_or x y = y.
Proof. unfold num_or. intros ->. reflexivity. Qed.

(** X17.  When the limit field is empty, not a number, or 0, the preview
    computes with a budget of 0, whereas saving keeps the limit there was:
    the preview shows the figure of a state whose limit is 0, the saved
    state has the figure it had. *)
Theorem X17_preview_of_empty_limit r now limit s :
  truthy (parseInt limit) = false ->
  previewMonthly (onLimitInput r now limit s) = Int 0
  /\ previewFinal (onLimitInput r now limit s)
     = recalculateDashboard r now (set_monthlyLimit (Int 0) s)
  /\ monthlyLimit (saveBudgetSettings r limit s) = monthlyLimit s
  /\ recalculateDashboard r now (saveBudgetSettings r limit s)
     = recalculateDashboard r now s.
Proof.
  intros Ht. unfold saveBudgetSettings.
  rewrite recalculateDashboard_saveState. autorewrite with frame.
  unfold onLimitInput, updateBudgetPreview, recalculateDashboard, showToast.
  st. cbn [previewFinal previewMonthly].
  rewrite !(num_or_falsy _ _ Ht). repeat split; reflexivity.
Qed.

Lemma X17_preview_of_empty_limit_witness :
  previewMonthly (onLimitInput Rev2 now0 ""
                    (sessionStart Rev2 returningUser "u1" now0)) = Int 0.
Proof.
  assert (H : truthy (parseInt "") = false) by (vm_compute; reflexivity).
  exact (proj1 (X17_preview_of_empty_limit Rev2 now0 "" _ H)).
Defined.

(** ** The heatmap and the order of the ledger *)

Lemma addSpending_logged now (m : gmap Z num) (t : Transaction) (i z a : Z) :
  tx_timestamp t = Int now ->
  tx_amount t = Int a ->
  spendingAt m i = Int z ->
  spendingAt (addSpending now m t) i
  = Int (z + (if Date.getDate now =? i then a else 0)).
Proof.
  intros Hts Ea Hm. unfold addSpending. rewrite Hts, Ea, num_or_int_zero.
  assert (E : num_or (Int now) (Int now) = Int now)
    by (unfold num_or; destruct (truthy (Int now)); reflexivity).
  rewrite E, !Z.eqb_refl. cbn [andb].
  destruct (Z.eqb_spec (Date.getDate now) i) as [Ed|Ed].
  - subst i. rewrite Hm. cbn [JS.add]. apply spendingAt_insert_eq.
  - rewrite spendingAt_insert_ne by exact Ed. rewrite Hm. f_equal; lia.
Qed.

(** X18.  Logging an expense raises the heatmap cell of today by its
    amount, re-tiers that cell, and leaves every other cell as it was. *)
Theorem X18_logging_raises_todays_cell r name amt category sentiment now s (a : Z) :
  validTransactions (transactions s) = true ->
  nonempty name = true -> parseInt amt = Int a -> a <> 0 ->
  renderHeatmap now (saveTransaction r name amt category sentiment now s)
  = raiseToday now a <$> renderHeatmap now s.
Proof.
  intros Hv Hn Ha Hz. unfold renderHeatmap.
  destruct (saveTransaction_accepts r name amt category sentiment now s a Hn Ha Hz)
    as [-> _].
  rewrite <- list_fmap_compose. apply list_fmap_ext. intros _ i _.
  unfold compose, raiseToday. cbn [c_day c_amount].
  rewrite (spendingMap_spec now (transactions s) i Hv).
  unfold spendingMap. cbn [fold_left].
  match goal with
  | |- context [addSpending now ∅ ?t] =>
      assert (H0 : spendingAt (addSpending now ∅ t) i
                   = Int (0 + (if Date.getDate now =? i then a else 0)))
        by (apply addSpending_logged;
            [reflexivity | reflexivity
            | unfold spendingAt; rewrite lookup_empty; reflexivity]);
      rewrite (spendingMap_fold now (transactions s) Hv _ i _ H0)
  end.
  rewrite (Z.eqb_sym i). destruct (Date.getDate now =? i).
  - cbn [JS.add]. replace (0 + a + spec_spend now i (transactions s))
      with (spec_spend now i (transactions s) + a) by lia. reflexivity.
  - replace (0 + 0 + spec_spend now i (transactions s))
      with (spec_spend now i (transactions s)) by lia. reflexivity.
Qed.

Lemma X18_logging_raises_todays_cell_witness :
  renderHeatmap now0
    (saveTransaction Rev2 "Lunch" "250" "Food" "worthy" now0
       (sessionStart Rev2 returningUser "u1" now0))
  = raiseToday now0 250 <$> renderHeatmap now0 (sessionStart Rev2 returningUser "u1" now0).
Proof.
  assert (H1 : validTransactions
                 (transactions (sessionStart Rev2 returningUser "u1" now0)) = true)
    by (vm_compute; reflexivity).
  assert (H2 : nonempty "Lunch" = true) by reflexivity.
  assert (H3 : parseInt "250" = Int 250) by (vm_compute; reflexivity).
  assert (H4 : 250 <> 0) by lia.
  exact (X18_logging_raises_todays_cell Rev2 "Lunch" "250" "Food" "worthy" now0 _ 250
           H1 H2 H3 H4).
Defined.

Lemma sumZ_fmap {A B} (f : B -> Z) (g : A -> B) (l : list A) :
  sumZ f (g <$> l) = sumZ (fun x => f (g x)) l.
Proof.
  unfold sumZ. induction l as [|x l IH]; [reflexivity|].
  cbn [fmap list_fmap foldr]. cbn [fmap] in IH. rewrite IH. reflexivity.
Qed.

Lemma sumZ_add {A} (f g : A -> Z) (l : list A) :
  sumZ (fun x => f x + g x) l = sumZ f l + sumZ g l.
Proof.
  unfold sumZ. induction l as [|x l IH]; [reflexivity|]. cbn [foldr]. lia.
Qed.

Lemma sumZ_zero {A} (l : list A) : sumZ (fun _ => 0) l = 0.
Proof. unfold sumZ. induction l as [|x l IH]; [reflexivity|]. cbn [foldr]. lia. Qed.

Lemma sumZ_ext {A} (f g : A -> Z) (l : list A) :
  (forall x, x ∈ l -> f x = g x) -> sumZ f l = sumZ g l.
Proof.
  unfold sumZ. induction l as [|x l IH]; intros H; [reflexivity|]. cbn [foldr].
  rewrite (H x) by left. rewrite IH; [reflexivity|].
  intros y Hy. apply H. right. exact Hy.
Qed.

(** Over a list without duplicates, the sum of [a] at [k] and 0 elsewhere. *)
Lemma sumZ_indicator (k a : Z) (l : list Z) :
  NoDup l ->
  sumZ (fun i => if k =? i then a else 0) l = if decide (k ∈ l) then a else 0.
Proof.
  unfold sumZ. induction 1 as [|x l Hx Hl IH]; [reflexivity|].
  cbn [foldr]. rewrite IH.
  destruct (decide (k ∈ x :: l)) as [Hc|Hc], (decide (k ∈ l)) as [Hin|Hin],
    (Z.eqb_spec k x) as [Hk|Hk]; try lia; exfalso.
  - subst. contradiction.
  - apply elem_of_cons in Hc. tauto.
  - apply Hc. right. exact Hin.
  - apply Hc. right. exact Hin.
  - apply Hc. subst. left.
Qed.

Lemma month_days_of_transaction now (t : Transaction) (a : Z) :
  sumZ (fun i => if onDayOfMonth now i t then a else 0)
    (seqZ 1 (Date.daysInMonth (Date.getFullYear now) (Date.getMonth now)))
  = if inMonthOf now t then a else 0.
Proof.
  unfold onDayOfMonth, inMonthOf.
  destruct (tx_timestamp t) as [ts| | |]; try apply sumZ_zero.
  destruct (Z.eqb_spec (Date.getFullYear ts) (Date.getFullYear now)) as [Ey|Ey];
    [|apply sumZ_zero].
  destruct (Z.eqb_spec (Date.getMonth ts) (Date.getMonth now)) as [Em|Em];
    [|apply sumZ_zero].
  cbn [andb]. rewrite sumZ_indicator by apply NoDup_seqZ.
  rewrite decide_True; [reflexivity|].
  apply elem_of_seqZ. pose proof (date_range ts) as [_ Hd].
  rewrite Ey, Em in Hd. lia.
Qed.

Lemma spec_spend_cons now (i : Z) (t : Transaction) (txs : list Transaction) :
  spec_spend now i (t :: txs)
  = (if onDayOfMonth now i t then amountZ (tx_amount t) else 0)
    + spec_spend now i txs.
Proof.
  unfold spec_spend, sumZ. cbn [List.filter].
  destruct (onDayOfMonth now i t); cbn [foldr]; lia.
Qed.

Lemma month_total now (txs : list Transaction) :
  sumZ (fun i => spec_spend now i txs)
    (seqZ 1 (Date.daysInMonth (Date.getFullYear now) (Date.getMonth now)))
  = amountsOf (List.filter (inMonthOf now) txs).
Proof.
  induction txs as [|t txs IH].
  - unfold spec_spend. cbn [List.filter]. apply sumZ_zero.
  - rewrite (sumZ_ext _ _ _ (fun i _ => spec_spend_cons now i t txs)).
    rewrite sumZ_add, IH, month_days_of_transaction.
    cbn [List.filter]. unfold amountsOf, sumZ.
    destruct (inMonthOf now t); cbn [foldr]; lia.
Qed.

(** X19.  The amounts of the cells of the heatmap add up to the amounts of
    the transactions dated in the current calendar month: every such
    transaction falls in exactly one cell, and no other does. *)
Theorem X19_heatmap_conserves_month_total now s :
  validTransactions (transactions s) = true ->
  cellsTotal (renderHeatmap now s)
  = amountsOf (List.filter (inMonthOf now) (transactions s)).
Proof.
  intros Hv. unfold cellsTotal, renderHeatmap. rewrite sumZ_fmap.
  cbn [c_amount]. rewrite <- month_total. apply sumZ_ext. intros i _.
  rewrite (spendingMap_spec now (transactions s) i Hv). reflexivity.
Qed.

Lemma X19_heatmap_conserves_month_total_witness :
  cellsTotal (renderHeatmap now0 (sessionStart Rev2 returningUser "u1" now0))
  = amountsOf (List.filter (inMonthOf now0)
                 (transactions (sessionStart Rev2 returningUser "u1" now0))).
Proof.
  assert (H1 : validTransactions
                 (transactions (sessionStart Rev2 returningUser "u1" now0)) = true)
    by (vm_compute; reflexivity).
  exact (X19_heatmap_conserves_month_total now0 _ H1).
Defined.

Lemma newerFirst_logged (logged old : list Transaction) (now b : Z) :
  StronglySorted newerFirst old ->
  Forall (fun t => timestampZ t <= b) old ->
  b <= now ->
  Forall (fun t => tx_timestamp t = Int now) logged ->
  (length logged <= 1)%nat ->
  StronglySorted newerFirst (logged ++ old)
  /\ Forall (fun t => timestampZ t <= now) (logged ++ old).
Proof.
  intros Hs Hb Hnow Hl Hlen.
  assert (Hold : Forall (fun t => timestampZ t <= now) old).
  { eapply Forall_impl; [exact Hb|]. cbn beta. intros t Ht. lia. }
  destruct logged as [|t [|t' logged]]; cbn [length] in Hlen; try lia.
  - split; [exact Hs | exact Hold].
  - apply Forall_cons in Hl as [Ht _]. cbn [app].
    assert (Et : timestampZ t = now) by (unfold timestampZ; rewrite Ht; reflexivity).
    split.
    + constructor; [exact Hs|]. unfold newerFirst. rewrite Et. exact Hold.
    + constructor; [lia | exact Hold].
Qed.

Lemma run_newerFirst r (evs : list (Z * Action)) :
  forall s (b d : Z),
    dailySpent s = Int d ->
    StronglySorted newerFirst (transactions s) ->
    Forall (fun t => timestampZ t <= b) (transactions s) ->
    StronglySorted Z.le (b :: map fst evs) ->
    StronglySorted newerFirst (transactions (run r evs s)).
Proof.
  induction evs as [|[now a] evs IH]; intros s b d Hd Hs Hb Hc.
  - exact Hs.
  - change (run r ((now, a) :: evs) s) with (run r evs (step r now a s)).
    destruct (step_logged r now a s d Hd) as (logged & Et & Ed & Hl & Hlen).
    cbn [map fst] in Hc.
    apply StronglySorted_inv in Hc as [Hc Hbn].
    apply Forall_cons in Hbn as [Hbn _].
    assert (Hl' : Forall (fun t => tx_timestamp t = Int now) logged).
    { eapply Forall_impl; [exact Hl|]. intros t [_ Ht]. exact Ht. }
    destruct (newerFirst_logged logged (transactions s) now b Hs Hb Hbn Hl' Hlen)
      as [Hs' Hb'].
    rewrite <- Et in Hs', Hb'.
    exact (IH (step r now a s) now _ Ed Hs' Hb' Hc).
Qed.

Lemma sessionStart_transactions r db u now :
  transactions (sessionStart r db u now) = storedLedger db u.
Proof.
  destruct (sessionStart_doc r db u now) as (d & Hd & _ & _ & Ed & _).
  destruct (sessionStart_persisted r db u now) as (_ & d' & Hd' & Et & _).
  rewrite Hd in Hd'. injection Hd' as <-. rewrite <- Et, Ed.
  unfold storedLedger. destruct (db !! u); reflexivity.
Qed.

(** X20.  When the stored ledger is ordered newest first and holds nothing
    dated after the sign-in, and the clock does not run backwards, the
    ledger stays ordered newest first through any session; so the widget
    of recent transactions, which takes the first four, shows the four
    newest: nothing it leaves out is newer than anything it shows. *)
Theorem X20_widget_shows_newest r (db : gmap string Doc) (u : string)
    (now : Z) (evs : list (Z * Action)) :
  StronglySorted newerFirst (storedLedger db u) ->
  Forall (fun t => timestampZ t <= now) (storedLedger db u) ->
  StronglySorted Z.le (now :: map fst evs) ->
  let s := run r evs (sessionStart r db u now) in
  StronglySorted newerFirst (transactions s)
  /\ forall t t',
       In t (renderRecentTransactionsWidget s) ->
       In t' (drop 4 (transactions s)) ->
       timestampZ t' <= timestampZ t.
Proof.
  intros Hsorted Hpast Hc. cbv zeta.
  assert (Hs : StronglySorted newerFirst
                 (transactions (run r evs (sessionStart r db u now)))).
  { apply (run_newerFirst r evs (sessionStart r db u now) now 0).
    - apply dailySpent_sessionStart.
    - rewrite sessionStart_transactions. exact Hsorted.
    - rewrite sessionStart_transactions. exact Hpast.
    - exact Hc. }
  split; [exact Hs|].
  unfold renderRecentTransactionsWidget. intros t t' Ht Ht'.
  rewrite <- (take_drop 4 (transactions (run r evs (sessionStart r db u now)))) in Hs.
  revert Hs Ht Ht'.
  generalize (take 4 (transactions (run r evs (sessionStart r db u now)))).
  generalize (drop 4 (transactions (run r evs (sessionStart r db u now)))).
  intros rest shown Hs Ht Ht'.
  induction shown as [|x shown IH]; [destruct Ht|].
  cbn [app] in Hs. apply StronglySorted_inv in Hs as [Hs Hx].
  destruct Ht as [->|Ht]; [|exact (IH Hs Ht)].
  rewrite List.Forall_forall in Hx. apply Hx. apply in_or_app. right. exact Ht'.
Qed.

Lemma X20_widget_shows_newest_witness :
  StronglySorted newerFirst
    (transactions
       (run Rev2 [(now0, SaveTransaction "Lunch" "250" "Food" "worthy");
                  (now0 + 60000, SaveTransaction "Taxi" "120" "Transport" "regret")]
          (sessionStart Rev2 ∅ "u1" now0))).
Proof.
  assert (H0 : StronglySorted newerFirst (storedLedger ∅ "u1")) by constructor.
  assert (H1 : Forall (fun t => timestampZ t <= now0) (storedLedger ∅ "u1"))
    by constructor.
  assert (H2 : StronglySorted Z.le
                 (now0 :: map fst
                    [(now0, SaveTransaction "Lunch" "250" "Food" "worthy");
                     (now0 + 60000, SaveTransaction "Taxi" "120" "Transport" "regret")])).
  { cbn [map fst]. repeat constructor; unfold now0; lia. }
  exact (proj1 (X20_widget_shows_newest Rev2 ∅ "u1" now0 _ H0 H1 H2)).
Defined.

(** ** Chats, groups and the profile *)

Lemma historyKept_refl (m : gmap string (list Message)) : historyKept m m.
Proof. intros id msgs H. exists []. rewrite app_nil_r. exact H. Qed.

Lemma historyKept_trans (m1 m2 m3 : gmap string (list Message)) :
  historyKept m1 m2 -> historyKept m2 m3 -> historyKept m1 m3.
Proof.
  intros H12 H23 id msgs H. destruct (H12 id msgs H) as [more1 H1].
  destruct (H23 id _ H1) as [more2 H2]. exists (more1 ++ more2).
  rewrite app_assoc. exact H2.
Qed.

Lemma pushMessage_historyKept (msg : Message) s :
  historyKept (chatStore s) (chatStore (pushMessage msg s)).
Proof.
  intros id msgs H. unfold pushMessage. st.
  destruct (decide (currentChatId s = id)) as [->|Hne].
  - rewrite lookup_insert_eq, H. cbn [from_option]. exists [msg]. reflexivity.
  - rewrite lookup_insert_ne by exact Hne. exists []. rewrite app_nil_r. exact H.
Qed.

Lemma step_historyKept r now (a : Action) s :
  historyKept (chatStore s) (chatStore (step r now a s)).
Proof.
  destruct a; cbn [step];
    unfold saveProfile, randomizeAvatar, saveGoal, removeGoal, handleAddMember,
      switchGroup, sendSquadChat, submitSplit, saveTransaction,
      applyDateFilter, addFixedExpense, removeFixedExpense,
      saveBudgetSettings, saveLoan, toggleGroupCreator, createNewGroup,
      sendChat;
    repeat case_match; autorewrite with frame; st;
    first [ apply historyKept_refl | apply pushMessage_historyKept ].
Qed.

(** X21.  No handler removes or rewrites a chat message: through any
    session every chat keeps the messages it had, in order, with the new
    ones after them. *)
Theorem X21_chat_history_append_only r (evs : list (Z * Action)) s :
  historyKept (chatStore s) (chatStore (run r evs s)).
Proof.
  revert s; induction evs as [|[now a] evs IH]; intros s.
  - apply historyKept_refl.
  - change (run r ((now, a) :: evs) s) with (run r evs (step r now a s)).
    eapply historyKept_trans; [apply step_historyKept | apply IH].
Qed.



(** Members collected in the creator form and a group name: the members
    stay in the form, no group is there afterwards. *)
Example collected_members_are_not_grouped :
  let s := run Rev2 [(now0, ToggleGroupCreator true);
                     (now0, HandleAddMember "Asha" "98100" "");
                     (now0, CreateNewGroup "Trip")]
             (sessionStart Rev2 ∅ "u1" now0) in
  groupMembers s !! "Trip"%string = None
  /\ tempMembers s = [mkMember "Asha" "98100" ""]
  /\ toasts s = [].
Proof. vm_compute. repeat split. Qed.

Lemma userProfile_sessionStart r db u now :
  userProfile (sessionStart r db u now)
  = let ud := default (newUser now) (db !! u) in
    {| p_name := sor (str (d_name ud)) (sor (str (d_displayName ud)) "User");
       p_phone := sor (str (d_phone ud)) "";
       p_avatar :=
         sor (str (d_avatar ud)) (sor (str (d_photoURL ud)) default_avatar);
       p_tempAvatar := "" |}.
Proof.
  unfold sessionStart, onAuthStateChanged, loadUserDoc. st.
  destruct (db !! u); unfold firestoreReady, initApp, ensureRoommates;
    destruct r; st; repeat case_match; reflexivity.
Qed.

Lemma sor_nonempty (a b : string) : nonempty a = true -> sor a b = a.
Proof. unfold sor. intros ->. reflexivity. Qed.

(** X23.  A profile saved by a signed-in user whose session holds no chat
    message that Firestore refuses comes back at the next sign-in: the name
    and the phone number entered, and the avatar picked if one was picked,
    are what the hydration listener puts in the profile, in either
    revision. *)
Theorem X23_saved_profile_is_restored r r' (name phone : string) (u : string)
    (now' : Z) s :
  uid s = Some u ->
  storableChats (chatStore s) = true ->
  nonempty name = true -> nonempty phone = true ->
  let p := userProfile (sessionStart r' (users (saveProfile r name phone s)) u now') in
  p_name p = name
  /\ p_phone p = phone
  /\ (nonempty (p_tempAvatar (userProfile s)) = true ->
      p_avatar p = p_tempAvatar (userProfile s)).
Proof.
  intros Hu Hst Hn Hp. cbv zeta. rewrite userProfile_sessionStart. cbv zeta.
  unfold saveProfile. rewrite Hn, Hp.
  rewrite (saveState_users r u) by (st; exact Hu). st. rewrite Hst.
  rewrite lookup_insert_eq. cbn [from_option].
  unfold saveState, syncUserData. st. rewrite Hu.
  cbn [p_name p_phone p_avatar p_tempAvatar].
  destruct (nonempty (p_tempAvatar (userProfile s))) eqn:Et;
    repeat case_match; st;
    cbn [from_option id p_name p_phone p_avatar p_tempAvatar
         setDoc_merge d_name d_phone d_avatar d_displayName
         d_photoURL merge_field str];
    rewrite ?(sor_nonempty name) by exact Hn;
    rewrite ?(sor_nonempty phone) by exact Hp;
    rewrite ?(sor_nonempty (p_tempAvatar (userProfile s))) by exact Et;
    rewrite ?(sor_nonempty name) by exact Hn;
    rewrite ?(sor_nonempty phone) by exact Hp;
    rewrite ?(sor_nonempty (p_tempAvatar (userProfile s))) by exact Et;
    repeat split; intros; try reflexivity; discriminate.
Qed.

Lemma X23_saved_profile_is_restored_witness :
  p_name (userProfile
            (sessionStart Rev3
               (users (saveProfile Rev2 "Asha" "98100"
                         (sessionStart Rev2 ∅ "u1" now0))) "u1" now0))
  = "Asha"%string.
Proof.
  assert (H1 : uid (sessionStart Rev2 ∅ "u1" now0) = Some "u1"%string)
    by (vm_compute; reflexivity).
  assert (H0 : storableChats (chatStore (sessionStart Rev2 ∅ "u1" now0)) = true)
    by (vm_compute; reflexivity).
  assert (H2 : nonempty "Asha" = true) by reflexivity.
  assert (H3 : nonempty "98100" = true) by reflexivity.
  exact (proj1 (X23_saved_profile_is_restored Rev2 Rev3 "Asha" "98100" "u1" now0 _
                  H1 H0 H2 H3)).
Defined.

(** After a chat message of [sendChat] the profile saved is not the one
    that comes back. *)
Example profile_after_chat_is_lost :
  p_name (userProfile
            (sessionStart Rev2
               (users (saveProfile Rev2 "Asha" "98100"
                         (sendChat Rev2 "hello" now0
                            (sessionStart Rev2 ∅ "u1" now0)))) "u1" now0))
  = "User"%string.
Proof. vm_compute. reflexivity. Qed.
